(** * The energy-provider data generator, embedded in Rocq

    Source: [use_cases/The_Energy_Company/generate_data.py], function
    [generate_energy_provider_data].  The generator builds five tables in
    sequence (customers, contracts, meter readings, invoices, support
    cases).  Its random draws and the faker strings are read from an
    explicit oracle, its floating-point arithmetic from an interface, and
    the exceptions pandas and the Python built-ins can raise are values of
    an error monad. *)

From Stdlib Require Import ZArith NArith Lia List Bool Ascii String.
From Stdlib Require Import DecimalString DecimalN.
From stdpp Require Import gmap strings list fin_maps.

Open Scope Z_scope.

(** ** The calendar: [datetime], [timedelta(days=..)], [pd.DateOffset] *)

Module Calendar.

(** A calendar date, as the fields of [datetime.date]. *)
Record date := mkDate { year : Z; month : Z; day : Z }.

(** The time-of-day fields of a [datetime]. *)
Record time := mkTime { hour : Z; minute : Z; second : Z; microsecond : Z }.

Record datetime := mkDatetime { dt_date : date; dt_time : time }.

#[global] Instance date_eq_dec : EqDecision date.
Proof. solve_decision. Defined.
#[global] Instance time_eq_dec : EqDecision time.
Proof. solve_decision. Defined.
#[global] Instance datetime_eq_dec : EqDecision datetime.
Proof. solve_decision. Defined.

Definition midnight : time := mkTime 0 0 0 0.

(** [datetime(y, m, d)] *)
Definition datetime_ymd (y m d : Z) : datetime := mkDatetime (mkDate y m d) midnight.

Definition is_leap (y : Z) : bool :=
  ((y mod 4 =? 0) && negb (y mod 100 =? 0)) || (y mod 400 =? 0).

Definition days_in_month (y m : Z) : Z :=
  if m =? 2 then (if is_leap y then 29 else 28)
  else if (m =? 4) || (m =? 6) || (m =? 9) || (m =? 11) then 30
  else 31.

(** The dates [datetime.date] can hold. *)
Definition valid_date (d : date) : Prop :=
  1 <= year d /\ 1 <= month d <= 12 /\ 1 <= day d <= days_in_month (year d) (month d).

Definition valid_dateb (d : date) : bool :=
  (1 <=? year d) && (1 <=? month d) && (month d <=? 12) &&
  (1 <=? day d) && (day d <=? days_in_month (year d) (month d)).

(** The day after and the day before. *)
Definition next_day (d : date) : date :=
  if day d <? days_in_month (year d) (month d) then mkDate (year d) (month d) (day d + 1)
  else if month d <? 12 then mkDate (year d) (month d + 1) 1
  else mkDate (year d + 1) 1 1.

Definition prev_day (d : date) : date :=
  if 1 <? day d then mkDate (year d) (month d) (day d - 1)
  else if 1 <? month d then mkDate (year d) (month d - 1) (days_in_month (year d) (month d - 1))
  else mkDate (year d - 1) 12 31.

(** [d + timedelta(days=n)] on dates; [n] may be negative. *)
Definition add_days (d : date) (n : Z) : date :=
  if 0 <=? n then Nat.iter (Z.to_nat n) next_day d
  else Nat.iter (Z.to_nat (- n)) prev_day d.

(** [d + pd.DateOffset(months=k)]: the month moves by [k], the day is
    clamped to the length of the month reached. *)
Definition add_months (d : date) (k : Z) : date :=
  let t := year d * 12 + (month d - 1) + k in
  let y := t / 12 in
  let m := t mod 12 + 1 in
  mkDate y m (Z.min (day d) (days_in_month y m)).

(** [d.replace(day=1)] *)
Definition first_of_month (d : date) : date := mkDate (year d) (month d) 1.

Definition last_of_month (d : date) : date :=
  mkDate (year d) (month d) (days_in_month (year d) (month d)).

(** The proleptic Gregorian ordinal, [date.toordinal()]. *)
Definition days_before_year (y : Z) : Z :=
  365 * (y - 1) + (y - 1) / 4 - (y - 1) / 100 + (y - 1) / 400.

Definition days_before_month (y m : Z) : Z :=
  nth (Z.to_nat (m - 1)) [0; 31; 59; 90; 120; 151; 181; 212; 243; 273; 304; 334] 0
  + (if (2 <? m) && is_leap y then 1 else 0).

Definition toordinal (d : date) : Z :=
  days_before_year (year d) + days_before_month (year d) (month d) + day d.

(** Comparisons are those of Python: field by field, most significant first. *)
Definition lexc (c1 c2 : comparison) : comparison :=
  match c1 with Eq => c2 | _ => c1 end.

Definition date_compare (a b : date) : comparison :=
  lexc (year a ?= year b) (lexc (month a ?= month b) (day a ?= day b)).

Definition time_compare (a b : time) : comparison :=
  lexc (hour a ?= hour b)
    (lexc (minute a ?= minute b)
       (lexc (second a ?= second b) (microsecond a ?= microsecond b))).

Definition dt_compare (a b : datetime) : comparison :=
  lexc (date_compare (dt_date a) (dt_date b)) (time_compare (dt_time a) (dt_time b)).

Definition is_le (c : comparison) : bool := match c with Gt => false | _ => true end.
Definition is_lt (c : comparison) : bool := match c with Lt => true | _ => false end.

Definition date_leb (a b : date) : bool := is_le (date_compare a b).
Definition date_ltb (a b : date) : bool := is_lt (date_compare a b).
Definition time_leb (a b : time) : bool := is_le (time_compare a b).
Definition dt_leb (a b : datetime) : bool := is_le (dt_compare a b).
Definition dt_ltb (a b : datetime) : bool := is_lt (dt_compare a b).

(** Python's [min(a, b)]: [b] only when it is strictly smaller. *)
Definition dt_min (a b : datetime) : datetime := if dt_ltb b a then b else a.
Definition date_min (a b : date) : date := if date_ltb b a then b else a.
Definition date_max (a b : date) : date := if date_ltb a b then b else a.

(** Arithmetic on a [datetime] moves the date and keeps the time of day. *)
Definition dt_add_days (t : datetime) (n : Z) : datetime :=
  mkDatetime (add_days (dt_date t) n) (dt_time t).

Definition dt_add_months (t : datetime) (k : Z) : datetime :=
  mkDatetime (add_months (dt_date t) k) (dt_time t).

Definition dt_first_of_month (t : datetime) : datetime :=
  mkDatetime (first_of_month (dt_date t)) (dt_time t).

(** [t.replace(hour=h, minute=m)] *)
Definition replace_hm (t : datetime) (h m : Z) : datetime :=
  mkDatetime (dt_date t)
    (mkTime h m (second (dt_time t)) (microsecond (dt_time t))).

(** [pd.date_range(start=s, end=e, freq='D')]: the instants [s + k days],
    [k = 0, 1, ...], that are not after [e].  No candidate past the
    calendar day of [e] can qualify, which bounds the enumeration. *)
Definition date_range (s e : datetime) : list datetime :=
  filter (fun t => dt_leb t e = true)
    ((fun k => dt_add_days s (Z.of_nat k)) <$>
       seq 0 (Z.to_nat (toordinal (dt_date e) - toordinal (dt_date s) + 1))).

End Calendar.

(** ** Python and pandas primitives *)

Module Py.

(** The exceptions the generator can meet. *)
Inductive exn :=
| KeyError (key : string)
| ValueError (msg : string)
| IndexError.

Inductive result (A : Type) :=
| Ok (a : A)
| Raise (e : exn).
Arguments Ok {A} a.
Arguments Raise {A} e.

#[global] Instance result_ret : MRet result := fun _ a => Ok a.
#[global] Instance result_bind : MBind result :=
  fun _ _ f r => match r with Ok a => f a | Raise e => Raise e end.

(** [range(n)]: empty when [n] is zero or negative. *)
Definition py_range (n : Z) : list nat := seq 0 (Z.to_nat n).

(** [str(n)] of a non-negative integer. *)
Definition str_of_N (n : N) : string := NilEmpty.string_of_uint (N.to_uint n).

Fixpoint zeros (k : nat) : string :=
  match k with O => EmptyString | S k' => String "0" (zeros k') end.

(** The format [{n:0w}]: zero-padded on the left to width [w], never cut. *)
Definition zfill (w : nat) (s : string) : string :=
  zeros (w - String.length s) +:+ s.

(** [s.split(c)] for a one-character separator. *)
Fixpoint split_on (c : ascii) (s : string) : list string :=
  match s with
  | EmptyString => [EmptyString]
  | String a rest =>
      if Ascii.eqb a c then EmptyString :: split_on c rest
      else match split_on c rest with
           | [] => [String a EmptyString]
           | w :: ws => String a w :: ws
           end
  end.

(** [c in s] *)
Fixpoint has_char (c : ascii) (s : string) : bool :=
  match s with
  | EmptyString => false
  | String a rest => Ascii.eqb a c || has_char c rest
  end.

(** [l[i]] *)
Definition index {A} (l : list A) (i : nat) : result A :=
  match l !! i with Some a => Ok a | None => Raise IndexError end.

(** [int(s)] on a string of ASCII digits; anything else is taken to raise. *)
Definition py_int (s : string) : result N :=
  match s with
  | EmptyString => Raise (ValueError s)
  | _ => match NilEmpty.uint_of_string s with
         | Some u => Ok (N.of_uint u)
         | None => Raise (ValueError s)
         end
  end.

(** [d[k]] on a dict with string keys. *)
Definition dict_get {V} (d : gmap string V) (k : string) : result V :=
  match d !! k with Some v => Ok v | None => Raise (KeyError k) end.

(** [pd.DataFrame(rows)[col]]: a frame built from an empty list of records
    has no columns, so naming one raises [KeyError]; a frame with rows has
    every key of its records. *)
Definition frame_col {A} (col : string) (rows : list A) : result (list A) :=
  match rows with
  | [] => Raise (KeyError col)
  | _ => Ok rows
  end.

(** A loop [for a in l: ...] whose body appends rows to a table and advances
    the table's id counter; [i] is the position of [a] in the iteration. *)
Fixpoint for_emit {A Row} (body : nat -> A -> N -> result (list Row * N))
    (i : nat) (l : list A) (counter : N) : result (list Row * N) :=
  match l with
  | [] => Ok ([], counter)
  | a :: l' =>
      r1 ← body i a counter;
      r2 ← for_emit body (S i) l' r1.2;
      Ok (r1.1 ++ r2.1, r2.2)
  end.

(** The numbers of the generator: Python floats, numpy float64 and the
    integer zero that [max(0, x)] can return.  Their arithmetic is that of
    the host and is kept behind this interface. *)
Class Float64 := {
  num : Type;
  fzero : num;                      (* 0 and 0.0 *)
  TARIFF_RATE_KWH : num;            (* 0.35 *)
  BASE_MONTHLY_FEE : num;           (* 5.50 *)
  fadd : num -> num -> num;
  fmul : num -> num -> num;
  fsum : list num -> num;           (* Series.sum() *)
  fltb : num -> num -> bool;        (* a < b *)
  fleb : num -> num -> bool;        (* a <= b *)
  py_round2 : num -> num;           (* round(x, 2) on a Python number *)
  np_round2 : num -> num;           (* round(x, 2) on a numpy.float64 *)
  int_fifth : Z -> Z;               (* int(n * 0.2) *)
}.

(** What the proofs use of IEEE arithmetic and of [round]. *)
Class Float64Laws (F : Float64) := {
  fltb_zero_zero : fltb fzero fzero = false;
  fleb_zero_zero : fleb fzero fzero = true;
  py_round2_zero : py_round2 fzero = fzero;
  py_round2_pos : forall x, fltb fzero x = true -> fleb fzero (py_round2 x) = true;
}.

(** [max(0, x)]: the first argument unless the second is greater. *)
Definition py_max0 `{Float64} (x : num) : num := if fltb fzero x then x else fzero.

End Py.

(** ** The data model *)

Module Model.
Export Calendar Py.

Inductive customer_type := Residential | Commercial.
Inductive account_status := Active | Suspended | Canceled.
Inductive service_type := Electricity | Gas | SolarPanelLease.
Inductive tariff_plan := GreenFix | EnergyPlusVariable | BasicHome.
Inductive contract_status := ContractActive | PendingRenewal | Expired.
Inductive contract_count := OneContract | TwoContracts.
Inductive payment_status := Pending | Overdue | Paid.
Inductive issue_type := BillingInquiry | ServiceOutage | MeterReadingIssue | TariffPlanQuery.
Inductive general_issue := GServiceOutage | GMeterReadingIssue | GTariffPlanQuery.
Inductive resolution_status := CaseClosed | CaseOpen | CaseEscalated.

#[global] Instance customer_type_eq_dec : EqDecision customer_type.
Proof. solve_decision. Defined.
#[global] Instance service_type_eq_dec : EqDecision service_type.
Proof. solve_decision. Defined.
#[global] Instance payment_status_eq_dec : EqDecision payment_status.
Proof. solve_decision. Defined.
#[global] Instance issue_type_eq_dec : EqDecision issue_type.
Proof. solve_decision. Defined.

#[global] Instance service_type_countable : Countable service_type.
Proof.
  refine (inj_countable'
    (fun s => match s with Electricity => 0 | Gas => 1 | SolarPanelLease => 2 end)%nat
    (fun n => match n with 0 => Electricity | 1 => Gas | _ => SolarPanelLease end)%nat _).
  intros []; reflexivity.
Defined.

Definition contract_slots (c : contract_count) : Z :=
  match c with OneContract => 1 | TwoContracts => 2 end.

Definition issue_of_general (g : general_issue) : issue_type :=
  match g with
  | GServiceOutage => ServiceOutage
  | GMeterReadingIssue => MeterReadingIssue
  | GTariffPlanQuery => TariffPlanQuery
  end.

(** The rows of the five tables.  The customer and contract columns that
    faker fills and no later stage reads (name, e-mail, address, city,
    postal code, join date; contract start and end date) are not carried. *)
Record customer := {
  C_CUSTOMER_ID : string;
  C_CUSTOMER_TYPE : customer_type;
  C_ACCOUNT_STATUS : account_status;
}.

Record contract := {
  K_CONTRACT_ID : string;
  K_CUSTOMER_ID : string;
  K_SERVICE_TYPE : service_type;
  K_TARIFF_PLAN : tariff_plan;
  K_STATUS : contract_status;
}.

Record reading `{Float64} := {
  R_READING_ID : string;
  R_CUSTOMER_ID : string;
  R_METER_ID : string;
  R_TIMESTAMP : datetime;
  R_KWH_CONSUMPTION : num;
  R_KW_GENERATION : num;
}.

Record invoice `{Float64} := {
  I_INVOICE_ID : string;
  I_CUSTOMER_ID : string;
  I_INVOICE_DATE : date;
  I_DUE_DATE : date;
  I_AMOUNT_DUE : num;
  I_PAYMENT_STATUS : payment_status;
  I_CONSUMPTION_PERIOD_START : date;
  I_CONSUMPTION_PERIOD_END : date;
}.

Record support_case := {
  S_CASE_ID : string;
  S_CUSTOMER_ID : string;
  S_CASE_DATE : date;
  S_ISSUE_TYPE : issue_type;
  S_RESOLUTION_STATUS : resolution_status;
  S_DESCRIPTION : string;
}.

(** The random draws and the faker values, indexed by the loop iteration
    that consumes them: [i] is the position in the outer loop, [j] in the
    inner one. *)
Record Oracle `{Float64} := {
  customer_type_draw : nat -> customer_type;
  account_status_draw : nat -> account_status;
  num_contracts_draw : nat -> contract_count;
  service_type_draw : nat -> nat -> service_type;
  tariff_plan_draw : nat -> nat -> tariff_plan;
  contract_status_draw : nat -> nat -> contract_status;
  (* random.sample(population, k), for 0 <= k <= len(population) *)
  sample_draw : list string -> nat -> list string;
  (* the order in which a set of strings is iterated *)
  set_iter : gset string -> list string;
  (* np.random.normal(75, 10) or (10, 3), by customer type *)
  normal_draw : customer_type -> nat -> nat -> num;
  (* random.uniform(5, 8) *)
  spike_factor_draw : nat -> nat -> num;
  (* np.random.uniform(1.0, 5.5) *)
  generation_draw : nat -> nat -> num;
  (* random.randint(0, 23), random.randint(0, 59) *)
  hour_draw : nat -> nat -> Z;
  minute_draw : nat -> nat -> Z;
  (* random.randint(1, 2) *)
  num_cases_draw : nat -> Z;
  (* fake.date_time_between(start_date, end_date).date() *)
  fake_case_date : nat -> nat -> date;
  (* random.randint(1, 5) *)
  case_offset_draw : nat -> nat -> Z;
  general_issue_draw : nat -> nat -> general_issue;
  resolution_draw : nat -> nat -> resolution_status;
}.

(** What the library calls behind the oracle guarantee. *)
Record oracle_ok `{Float64} (o : Oracle) : Prop := {
  sample_length : forall pop k, (k <= length pop)%nat -> length (sample_draw o pop k) = k;
  sample_incl : forall pop k x, x ∈ sample_draw o pop k -> x ∈ pop;
  sample_NoDup : forall pop k, NoDup pop -> NoDup (sample_draw o pop k);
  set_iter_perm : forall s, set_iter o s ≡ₚ elements s;
  case_offset_range : forall i j, 1 <= case_offset_draw o i j <= 5;
  num_cases_range : forall i, 1 <= num_cases_draw o i <= 2;
}.

Record inputs := {
  num_customers : Z;
  start_date : datetime;
  end_date : datetime;
}.

End Model.

(** ** The generator, stage by stage *)

Module Generator.
Export Model.

Section Stages.
Context {F : Float64} (o : Oracle).

(** *** 1. CUSTOMERS *)

(** [f"CID_{1001 + i:06}"] *)
Definition customer_id (i : nat) : string :=
  "CID_" +:+ zfill 6 (str_of_N (1001 + N.of_nat i)).

Definition customer_ids (n : Z) : list string := customer_id <$> py_range n.

Definition customers_data (n : Z) : list customer :=
  imap (fun i cid =>
          {| C_CUSTOMER_ID := cid;
             C_CUSTOMER_TYPE := customer_type_draw o i;
             C_ACCOUNT_STATUS := account_status_draw o i |})
       (customer_ids n).

(** *** 2. SERVICE_CONTRACTS *)

(** [f"CON_{counter:07}"] *)
Definition contract_id (counter : N) : string := "CON_" +:+ zfill 7 (str_of_N counter).

(** The slots of one customer; [services] is the set of types taken so far. *)
Fixpoint contract_slots_loop (i : nat) (cid : string) (slots : list nat)
    (services : gset service_type) (counter : N) : list contract * N :=
  match slots with
  | [] => ([], counter)
  | j :: rest =>
      let service := service_type_draw o i j in
      if decide (service ∈ services) then
        contract_slots_loop i cid rest services counter
      else
        let row := {| K_CONTRACT_ID := contract_id counter;
                      K_CUSTOMER_ID := cid;
                      K_SERVICE_TYPE := service;
                      K_TARIFF_PLAN := tariff_plan_draw o i j;
                      K_STATUS := contract_status_draw o i j |} in
        let r := contract_slots_loop i cid rest ({[service]} ∪ services) (counter + 1) in
        (row :: r.1, r.2)
  end.

Definition contracts_of_customer (i : nat) (c : customer) (counter : N)
    : result (list contract * N) :=
  Ok (contract_slots_loop i (C_CUSTOMER_ID c)
        (py_range (contract_slots (num_contracts_draw o i))) ∅ counter).

Definition contracts_data (customers_df : list customer) : result (list contract) :=
  r ← for_emit contracts_of_customer 0 customers_df 5001%N; Ok r.1.

(** *** 3. SMART_METER_READINGS *)

Definition solar_customers (contracts_df : list contract) : gset string :=
  list_to_set (K_CUSTOMER_ID <$>
    filter (fun k => K_SERVICE_TYPE k = SolarPanelLease) contracts_df).

Definition all_residential_ids (customers_df : list customer) : list string :=
  C_CUSTOMER_ID <$> filter (fun c => C_CUSTOMER_TYPE c = Residential) customers_df.

(** [random.sample(population, k)] with its range check. *)
Definition py_sample (population : list string) (k : Z) : result (list string) :=
  if (k <? 0) || (Z.of_nat (length population) <? k)
  then Raise (ValueError "Sample larger than population or is negative")
  else Ok (sample_draw o population (Z.to_nat k)).

(** [set(random.sample(ids, k=min(15, len(ids))))] *)
Definition anomaly_customers (customers_df : list customer) : result (gset string) :=
  let ids := all_residential_ids customers_df in
  sampled ← py_sample ids (Z.min 15 (Z.of_nat (length ids)));
  Ok (list_to_set sampled).

Definition anomaly_spike_date : datetime := datetime_ymd 2025 8 15.

(** [customers_df.set_index('CUSTOMER_ID')['CUSTOMER_TYPE'].to_dict()]: a
    later row with the same id replaces an earlier one. *)
Definition customer_types (customers_df : list customer) : gmap string customer_type :=
  foldl (fun d c => <[C_CUSTOMER_ID c := C_CUSTOMER_TYPE c]> d) ∅ customers_df.

(** [f"RID_{counter:08}"] and [f"MTR-{id + 12345}"] *)
Definition reading_id (counter : N) : string := "RID_" +:+ zfill 8 (str_of_N counter).
Definition meter_id_of (customer_numeric_id : N) : string :=
  "MTR-" +:+ str_of_N (customer_numeric_id + 12345).

Definition in_spike_window (day : datetime) : bool :=
  dt_leb (dt_add_days anomaly_spike_date (-2)) day
  && dt_leb day (dt_add_days anomaly_spike_date 2).

Definition summer_month (day : datetime) : bool :=
  bool_decide (month (dt_date day) ∈ [6; 7; 8]).

(** The body of the loop over [date_range] for customer number [i]. *)
Definition reading_row (solar anomaly : gset string) (i : nat) (cid meter_id : string)
    (cust_type : customer_type) (j : nat) (day : datetime) (counter : N) : reading :=
  let base_consumption := normal_draw o cust_type i j in
  let kwh_consumption :=
    if bool_decide (cid ∈ anomaly) && in_spike_window day
    then fmul base_consumption (spike_factor_draw o i j)
    else base_consumption in
  let kw_generation :=
    if bool_decide (cid ∈ solar) && summer_month day
    then generation_draw o i j
    else fzero in
  {| R_READING_ID := reading_id counter;
     R_CUSTOMER_ID := cid;
     R_METER_ID := meter_id;
     R_TIMESTAMP := replace_hm day (hour_draw o i j) (minute_draw o i j);
     R_KWH_CONSUMPTION := py_round2 (py_max0 kwh_consumption);
     R_KW_GENERATION := py_round2 (py_max0 kw_generation) |}.

Definition readings_of_customer (solar anomaly : gset string)
    (types : gmap string customer_type) (days : list datetime)
    (i : nat) (cid : string) (counter : N) : result (list reading * N) :=
  digits ← index (split_on "_" cid) 1;
  customer_numeric_id ← py_int digits;
  let meter_id := meter_id_of customer_numeric_id in
  cust_type ← dict_get types cid;
  for_emit (fun j day c =>
              Ok ([reading_row solar anomaly i cid meter_id cust_type j day c], (c + 1)%N))
           0 days counter.

Definition readings_data (customers_df : list customer) (contracts_df : list contract)
    (anomaly : gset string) (start_date end_date : datetime) : result (list reading) :=
  let solar := solar_customers contracts_df in
  let types := customer_types customers_df in
  let days := date_range start_date end_date in
  r ← for_emit (readings_of_customer solar anomaly types days) 0
        (C_CUSTOMER_ID <$> customers_df) 100001%N;
  Ok r.1.

(** The rows of the readings table: one block per customer, in order, and in
    each block one row per instant of the date range. *)
Definition readings_blocks (n : Z) (contracts_df : list contract) (anomaly : gset string)
    (start_date end_date : datetime) (pieces : list (list reading)) : Prop :=
  length pieces = Z.to_nat n /\
  forall i, (i < Z.to_nat n)%nat ->
    exists t c,
      pieces !! i =
      Some (imap (fun j day =>
                    reading_row (solar_customers contracts_df) anomaly i (customer_id i)
                      (meter_id_of (1001 + N.of_nat i)) t j day (c + N.of_nat j)%N)
                 (date_range start_date end_date)).

(** *** 4. BILLING *)

(** [set(list(anomaly_customers)[:7])] *)
Definition overdue_customers (anomaly : gset string) : gset string :=
  list_to_set (take 7 (set_iter o anomaly)).

(** [f"INV_{counter:07}"] *)
Definition invoice_id (counter : N) : string := "INV_" +:+ zfill 7 (str_of_N counter).

Definition num_months (start_date end_date : datetime) : Z :=
  (year (dt_date end_date) - year (dt_date start_date)) * 12
  + (month (dt_date end_date) - month (dt_date start_date)) + 1.

(** The rows the boolean mask of the billing stage keeps. *)
Definition billed_readings (readings_df : list reading) (cid : string)
    (period_start period_end : datetime) : list reading :=
  filter (fun r => R_CUSTOMER_ID r = cid
                   /\ dt_leb period_start (R_TIMESTAMP r) = true
                   /\ dt_leb (R_TIMESTAMP r) period_end = true) readings_df.

Definition monthly_consumption (readings_df : list reading) (cid : string)
    (period_start period_end : datetime) : result num :=
  df ← frame_col "CUSTOMER_ID" readings_df;
  Ok (fsum (R_KWH_CONSUMPTION <$> billed_readings df cid period_start period_end)).

Definition payment_status_of (overdue : gset string) (cid : string)
    (period_start end_date : datetime) : payment_status :=
  if (month (dt_date period_start) =? month (dt_date end_date))
     && (year (dt_date period_start) =? year (dt_date end_date))
  then Pending
  else if bool_decide (cid ∈ overdue) && (month (dt_date period_start) =? 8)
  then Overdue
  else Paid.

(** The body of the loop over [range(num_months)]. *)
Definition invoice_of_month (readings_df : list reading) (overdue : gset string)
    (start_date end_date : datetime) (cid : string)
    (month_offset : nat) (counter : N) : result (list invoice * N) :=
  let period_start := dt_add_months start_date (Z.of_nat month_offset) in
  if dt_ltb end_date period_start then Ok ([], counter)
  else
    let period_start := dt_first_of_month period_start in
    let period_end := dt_add_days (dt_add_months period_start 1) (-1) in
    let period_end := dt_min period_end end_date in
    consumption ← monthly_consumption readings_df cid period_start period_end;
    let amount := np_round2 (fadd (fmul consumption TARIFF_RATE_KWH) BASE_MONTHLY_FEE) in
    let invoice_date := dt_date (dt_add_days period_end 5) in
    let status := payment_status_of overdue cid period_start end_date in
    Ok ([ {| I_INVOICE_ID := invoice_id counter;
             I_CUSTOMER_ID := cid;
             I_INVOICE_DATE := invoice_date;
             I_DUE_DATE := add_days invoice_date 14;
             I_AMOUNT_DUE := amount;
             I_PAYMENT_STATUS := status;
             I_CONSUMPTION_PERIOD_START := dt_date period_start;
             I_CONSUMPTION_PERIOD_END := dt_date period_end |} ],
        (counter + 1)%N).

Definition invoices_of_customer (readings_df : list reading) (overdue : gset string)
    (start_date end_date : datetime) (i : nat) (cid : string) (counter : N)
    : result (list invoice * N) :=
  for_emit (fun _ month_offset c =>
              invoice_of_month readings_df overdue start_date end_date cid month_offset c)
           0 (py_range (num_months start_date end_date)) counter.

Definition billing_data (customers_df : list customer) (readings_df : list reading)
    (overdue : gset string) (start_date end_date : datetime) : result (list invoice) :=
  r ← for_emit (invoices_of_customer readings_df overdue start_date end_date) 0
        (C_CUSTOMER_ID <$> customers_df) 80001%N;
  Ok r.1.

(** *** 5. CUSTOMER_SUPPORT_CASES *)

Definition customers_for_cases (sampled : list string) (anomaly overdue : gset string)
    : gset string :=
  list_to_set sampled ∪ anomaly ∪ overdue.

(** [f"CAS_{counter:06}"] *)
Definition case_id (counter : N) : string := "CAS_" +:+ zfill 6 (str_of_N counter).

Inductive case_branch := AnomalyBranch | OverdueBranch | GeneralBranch.

(** The [if / elif / else] of the case loop. *)
Definition branch_of (anomaly overdue : gset string) (cid : string) : case_branch :=
  if bool_decide (cid ∈ anomaly) then AnomalyBranch
  else if bool_decide (cid ∈ overdue) then OverdueBranch
  else GeneralBranch.

Definition anomaly_description : string :=
  "Customer inquired about unexpectedly high bill for August.".
Definition overdue_description : string :=
  "Follow-up call regarding overdue payment for August invoice.".
Definition general_description : string :=
  "Customer called with a general query about their service.".

Definition case_row (anomaly overdue : gset string) (i : nat) (cid : string)
    (j : nat) (counter : N) : support_case :=
  let case_date_obj := fake_case_date o i j in
  let '(issue, description, case_date_obj) :=
    match branch_of anomaly overdue cid with
    | AnomalyBranch =>
        (BillingInquiry, anomaly_description,
         dt_date (dt_add_days anomaly_spike_date (15 + case_offset_draw o i j)))
    | OverdueBranch =>
        (BillingInquiry, overdue_description,
         dt_date (dt_add_days anomaly_spike_date (30 + case_offset_draw o i j)))
    | GeneralBranch =>
        (issue_of_general (general_issue_draw o i j), general_description, case_date_obj)
    end in
  {| S_CASE_ID := case_id counter;
     S_CUSTOMER_ID := cid;
     S_CASE_DATE := case_date_obj;
     S_ISSUE_TYPE := issue;
     S_RESOLUTION_STATUS := resolution_draw o i j;
     S_DESCRIPTION := description |}.

Definition cases_of_customer (anomaly overdue : gset string)
    (i : nat) (cid : string) (counter : N) : result (list support_case * N) :=
  for_emit (fun _ j c => Ok ([case_row anomaly overdue i cid j c], (c + 1)%N))
           0 (py_range (num_cases_draw o i)) counter.

Definition cases_data (sampled : list string) (anomaly overdue : gset string)
    : result (list support_case) :=
  r ← for_emit (cases_of_customer anomaly overdue) 0
        (set_iter o (customers_for_cases sampled anomaly overdue)) 101%N;
  Ok r.1.

(** The amount the specification states for an invoice: the sum runs over
    the readings of the customer whose calendar day lies between
    CONSUMPTION_PERIOD_START and CONSUMPTION_PERIOD_END, both included. *)
Definition spec_amount_due (readings_df : list reading) (inv : invoice) : num :=
  let S := fsum (R_KWH_CONSUMPTION <$>
             filter (fun r => R_CUSTOMER_ID r = I_CUSTOMER_ID inv
                              /\ date_leb (I_CONSUMPTION_PERIOD_START inv)
                                          (dt_date (R_TIMESTAMP r)) = true
                              /\ date_leb (dt_date (R_TIMESTAMP r))
                                          (I_CONSUMPTION_PERIOD_END inv) = true)
                    readings_df) in
  np_round2 (fadd (fmul S TARIFF_RATE_KWH) BASE_MONTHLY_FEE).

(** *** The whole run *)

(** The five frames handed to [session.write_pandas]. *)
Record tables := {
  DIM_CUSTOMERS : list customer;
  FACT_CONTRACTS : list contract;
  FACT_SMART_METER_READINGS : list reading;
  FACT_BILLINGS : list invoice;
  FACT_SUPPORT_CASES : list support_case;
}.

Definition generate_energy_provider_data (inp : inputs) : result tables :=
  let n := num_customers inp in
  let start_date := start_date inp in
  let end_date := end_date inp in
  (* customers_df['JOIN_DATE'] = ... *)
  customers_df ← frame_col "JOIN_DATE" (customers_data n);
  contracts ← contracts_data customers_df;
  (* contracts_df['START_DATE'] = ... *)
  contracts_df ← frame_col "START_DATE" contracts;
  anomaly ← anomaly_customers customers_df;
  readings_df ← readings_data customers_df contracts_df anomaly start_date end_date;
  let overdue := overdue_customers anomaly in
  billing ← billing_data customers_df readings_df overdue start_date end_date;
  (* billing_df[col] = ... for col in ['INVOICE_DATE', ...] *)
  billing_df ← frame_col "INVOICE_DATE" billing;
  sampled ← py_sample (customer_ids n) (int_fifth n);
  cases ← cases_data sampled anomaly overdue;
  (* support_cases_df['CASE_DATE'] = ... *)
  support_cases_df ← frame_col "CASE_DATE" cases;
  Ok {| DIM_CUSTOMERS := customers_df;
        FACT_CONTRACTS := contracts_df;
        FACT_SMART_METER_READINGS := readings_df;
        FACT_BILLINGS := billing_df;
        FACT_SUPPORT_CASES := support_cases_df |}.

End Stages.
End Generator.

(** ** A concrete instance: exact decimal arithmetic and fixed draws *)

Module Instance.
Import Generator.

(** Numbers in units of 10^-4 with half-even rounding, for the concrete
    runs below.  Decimal arithmetic is exact where binary float64 is not, so
    the two differ at decimal ties (0.545, 6.655, ...); the runs below reach
    no tie, and no general theorem depends on this instance. *)
Definition round_half_even (x unit : Z) : Z :=
  let q := x / unit in
  let r := x mod unit in
  if 2 * r <? unit then q * unit
  else if unit <? 2 * r then (q + 1) * unit
  else if Z.even q then q * unit else (q + 1) * unit.

#[global] Instance decimal4 : Float64 := {|
  num := Z;
  fzero := 0;
  TARIFF_RATE_KWH := 3500;
  BASE_MONTHLY_FEE := 55000;
  fadd := Z.add;
  fmul := fun a b => a * b / 10000;
  fsum := fun l => foldr Z.add 0 l;
  fltb := Z.ltb;
  fleb := Z.leb;
  py_round2 := fun x => round_half_even x 100;
  np_round2 := fun x => round_half_even x 100;
  int_fifth := fun n => Z.quot n 5;
|}.

(** Every draw fixed: residential customers with one electricity contract,
    the first customer also leasing solar panels, 10.00 kWh at 12:30 each
    day, the first [k] of a population as its sample, sets iterated in the
    order of [elements]. *)
Definition fixed_oracle : Oracle := {|
  customer_type_draw := fun _ => Residential;
  account_status_draw := fun _ => Active;
  num_contracts_draw := fun _ => TwoContracts;
  service_type_draw := fun i j => match i, j with
                                  | O, S _ => SolarPanelLease
                                  | _, _ => Electricity
                                  end;
  tariff_plan_draw := fun _ _ => GreenFix;
  contract_status_draw := fun _ _ => ContractActive;
  sample_draw := fun pop k => take k pop;
  set_iter := elements;
  normal_draw := fun _ _ _ => 100000;
  spike_factor_draw := fun _ _ => 60000;
  generation_draw := fun _ _ => 25000;
  hour_draw := fun _ _ => 12;
  minute_draw := fun _ _ => 30;
  num_cases_draw := fun _ => 1;
  fake_case_date := fun _ _ => mkDate 2025 8 20;
  case_offset_draw := fun _ _ => 3;
  general_issue_draw := fun _ _ => GServiceOutage;
  resolution_draw := fun _ _ => CaseClosed;
|}.

(** The same draws, every customer commercial. *)
Definition commercial_oracle : Oracle := {|
  customer_type_draw := fun _ => Commercial;
  account_status_draw := account_status_draw fixed_oracle;
  num_contracts_draw := num_contracts_draw fixed_oracle;
  service_type_draw := service_type_draw fixed_oracle;
  tariff_plan_draw := tariff_plan_draw fixed_oracle;
  contract_status_draw := contract_status_draw fixed_oracle;
  sample_draw := sample_draw fixed_oracle;
  set_iter := set_iter fixed_oracle;
  normal_draw := normal_draw fixed_oracle;
  spike_factor_draw := spike_factor_draw fixed_oracle;
  generation_draw := generation_draw fixed_oracle;
  hour_draw := hour_draw fixed_oracle;
  minute_draw := minute_draw fixed_oracle;
  num_cases_draw := num_cases_draw fixed_oracle;
  fake_case_date := fake_case_date fixed_oracle;
  case_offset_draw := case_offset_draw fixed_oracle;
  general_issue_draw := general_issue_draw fixed_oracle;
  resolution_draw := resolution_draw fixed_oracle;
|}.

(** Concrete runs. *)
Definition run (n : Z) (s e : datetime) : result tables :=
  generate_energy_provider_data fixed_oracle
    {| num_customers := n; start_date := s; end_date := e |}.

(** One customer, September 2025, both bounds at midnight. *)
Definition september_run : result tables :=
  run 1 (datetime_ymd 2025 9 1) (datetime_ymd 2025 9 30).

(** One customer, 20 January to 10 February 2025. *)
Definition winter_run : result tables :=
  run 1 (datetime_ymd 2025 1 20) (datetime_ymd 2025 2 10).

(** Two customers, 29 August to 2 September 2025. *)
Definition late_summer_run : result tables :=
  run 2 (datetime_ymd 2025 8 29) (datetime_ymd 2025 9 2).

(** One customer, 15 to 31 August 2025. *)
Definition mid_august_run : result tables :=
  run 1 (datetime_ymd 2025 8 15) (datetime_ymd 2025 8 31).

(** A window from 1 August 10:00 to 3 August 09:00. *)
Definition morning_start : datetime := mkDatetime (mkDate 2025 8 1) (mkTime 10 0 0 0).
Definition earlier_end : datetime := mkDatetime (mkDate 2025 8 3) (mkTime 9 0 0 0).

(** What a run shows in the columns [f] reads, when it ends without error. *)
Definition columns {A} (f : tables -> A) (r : result tables) : result A :=
  t ← r; Ok (f t).

(** The contracts of two customers, the first one leasing solar panels. *)
Definition two_customers_contracts : list contract :=
  [ {| K_CONTRACT_ID := "CON_0005001"; K_CUSTOMER_ID := "CID_001001";
       K_SERVICE_TYPE := Electricity; K_TARIFF_PLAN := GreenFix;
       K_STATUS := ContractActive |};
    {| K_CONTRACT_ID := "CON_0005002"; K_CUSTOMER_ID := "CID_001001";
       K_SERVICE_TYPE := SolarPanelLease; K_TARIFF_PLAN := GreenFix;
       K_STATUS := ContractActive |};
    {| K_CONTRACT_ID := "CON_0005003"; K_CUSTOMER_ID := "CID_001002";
       K_SERVICE_TYPE := Electricity; K_TARIFF_PLAN := GreenFix;
       K_STATUS := ContractActive |} ].

Definition one_reading : reading :=
  {| R_READING_ID := "RID_00100001";
     R_CUSTOMER_ID := "CID_001001";
     R_METER_ID := "MTR-13346";
     R_TIMESTAMP := mkDatetime (mkDate 2025 8 15) (mkTime 12 30 0 0);
     R_KWH_CONSUMPTION := 100000;
     R_KW_GENERATION := 0 |}.

End Instance.

(** ** Calendar lemmas *)

Module CalendarFacts.
Import Calendar.

(** Linear arithmetic with division and remainder by literals. *)
Ltac zdiv := Z.div_mod_to_equations; lia.

Lemma days_before_year_succ y :
  days_before_year (y + 1) = days_before_year y + 365 + (if is_leap y then 1 else 0).
Proof.
  unfold days_before_year, is_leap.
  replace (y + 1 - 1) with y by lia.
  destruct (Z.eqb_spec (y mod 4) 0), (Z.eqb_spec (y mod 100) 0),
    (Z.eqb_spec (y mod 400) 0); simpl; zdiv.
Qed.

Lemma days_before_year_mono y1 y2 :
  y1 < y2 -> days_before_year (y1 + 1) <= days_before_year y2.
Proof. unfold days_before_year. intros. zdiv. Qed.

Lemma days_before_month_succ y m :
  1 <= m < 12 ->
  days_before_month y (m + 1) = days_before_month y m + days_in_month y m.
Proof.
  intros Hm. unfold days_before_month, days_in_month.
  assert (Hc : m = 1 \/ m = 2 \/ m = 3 \/ m = 4 \/ m = 5 \/ m = 6 \/ m = 7 \/
               m = 8 \/ m = 9 \/ m = 10 \/ m = 11) by lia.
  destruct (is_leap y);
    repeat (destruct Hc as [-> | Hc]; [reflexivity |]); subst; reflexivity.
Qed.

Lemma days_before_month_12 y :
  days_before_month y 12 + 31 = 365 + (if is_leap y then 1 else 0).
Proof. unfold days_before_month. destruct (is_leap y); reflexivity. Qed.

Lemma days_in_month_bounds y m : 28 <= days_in_month y m <= 31.
Proof.
  unfold days_in_month.
  destruct (m =? 2); [destruct (is_leap y); lia |].
  destruct ((m =? 4) || (m =? 6) || (m =? 9) || (m =? 11)); lia.
Qed.

Lemma valid_dateb_spec d : valid_dateb d = true <-> valid_date d.
Proof. unfold valid_dateb, valid_date. rewrite !andb_true_iff, !Z.leb_le. tauto. Qed.

Lemma next_day_valid d : valid_date d -> valid_date (next_day d).
Proof.
  unfold valid_date, next_day. intros (Hy & Hm & Hd).
  destruct (Z.ltb_spec (day d) (days_in_month (year d) (month d))); simpl; [lia |].
  destruct (Z.ltb_spec (month d) 12); simpl.
  - pose proof (days_in_month_bounds (year d) (month d + 1)). lia.
  - pose proof (days_in_month_bounds (year d + 1) 1). lia.
Qed.

Lemma toordinal_next_day d :
  valid_date d -> toordinal (next_day d) = toordinal d + 1.
Proof.
  unfold valid_date, next_day, toordinal. intros (Hy & Hm & Hd).
  destruct (Z.ltb_spec (day d) (days_in_month (year d) (month d))); simpl; [lia |].
  destruct (Z.ltb_spec (month d) 12); simpl.
  - rewrite days_before_month_succ by lia. lia.
  - assert (month d = 12) as Hm12 by lia. rewrite Hm12 in *.
    rewrite days_before_year_succ.
    pose proof (days_before_month_12 (year d)).
    assert (days_in_month (year d) 12 = 31) by reflexivity.
    change (days_before_month (year d + 1) 1) with 0. lia.
Qed.

Lemma days_before_month_mono y m1 m2 :
  1 <= m1 -> m1 < m2 -> m2 <= 12 ->
  days_before_month y (m1 + 1) <= days_before_month y m2.
Proof.
  intros H1 H12 H2.
  assert (Hn : exists n, m2 = m1 + 1 + Z.of_nat n) by (exists (Z.to_nat (m2 - m1 - 1)); lia).
  destruct Hn as [n ->]. clear H12. revert H2.
  induction n as [|n IH]; intros H2.
  - replace (m1 + 1 + Z.of_nat 0) with (m1 + 1) by lia. lia.
  - replace (m1 + 1 + Z.of_nat (S n)) with ((m1 + 1 + Z.of_nat n) + 1) in * by lia.
    rewrite (days_before_month_succ y (m1 + 1 + Z.of_nat n)) by lia.
    pose proof (days_in_month_bounds y (m1 + 1 + Z.of_nat n)).
    specialize (IH ltac:(lia)). lia.
Qed.

Lemma lexc_Lt c1 c2 : lexc c1 c2 = Lt <-> c1 = Lt \/ (c1 = Eq /\ c2 = Lt).
Proof. destruct c1, c2; simpl; intuition congruence. Qed.

Lemma lexc_Eq c1 c2 : lexc c1 c2 = Eq <-> c1 = Eq /\ c2 = Eq.
Proof. destruct c1, c2; simpl; intuition congruence. Qed.

Lemma lexc_Gt c1 c2 : lexc c1 c2 = Gt <-> c1 = Gt \/ (c1 = Eq /\ c2 = Gt).
Proof. destruct c1, c2; simpl; intuition congruence. Qed.

Lemma is_le_true c : is_le c = true <-> c = Lt \/ c = Eq.
Proof. destruct c; simpl; intuition congruence. Qed.

Lemma is_le_false c : is_le c = false <-> c = Gt.
Proof. destruct c; simpl; intuition congruence. Qed.

Lemma is_lt_true c : is_lt c = true <-> c = Lt.
Proof. destruct c; simpl; intuition congruence. Qed.

Lemma is_lt_false c : is_lt c = false <-> c = Eq \/ c = Gt.
Proof. destruct c; simpl; intuition congruence. Qed.

(** Comparisons of dates and instants, turned into linear arithmetic on
    their fields. *)
Ltac lex_unfold :=
  unfold dt_leb, dt_ltb, date_leb, date_ltb, time_leb in *;
  rewrite ?is_le_true, ?is_lt_true, ?is_le_false, ?is_lt_false in *;
  unfold dt_compare, date_compare, time_compare in *;
  repeat (progress (rewrite ?lexc_Lt, ?lexc_Eq, ?lexc_Gt in *));
  rewrite ?Z.compare_lt_iff, ?Z.compare_eq_iff, ?Z.compare_gt_iff in *;
  cbn [dt_date dt_time year month day hour minute second microsecond] in *.

Ltac lex_arith := lex_unfold; lia.

Lemma date_compare_Eq a b : date_compare a b = Eq <-> a = b.
Proof.
  unfold date_compare. rewrite !lexc_Eq, !Z.compare_eq_iff.
  destruct a, b; simpl. split; [intros (-> & -> & ->); reflexivity | intros [= -> -> ->]; auto].
Qed.

Lemma date_compare_antisym a b : date_compare b a = CompOpp (date_compare a b).
Proof.
  unfold date_compare.
  rewrite (Z.compare_antisym (year a)), (Z.compare_antisym (month a)),
    (Z.compare_antisym (day a)).
  destruct (year a ?= year b), (month a ?= month b), (day a ?= day b); reflexivity.
Qed.

Lemma toordinal_lt a b :
  valid_date a -> valid_date b -> date_compare a b = Lt -> toordinal a < toordinal b.
Proof.
  unfold valid_date, date_compare, toordinal.
  intros (Hya & Hma & Hda) (Hyb & Hmb & Hdb).
  rewrite !lexc_Lt, !Z.compare_lt_iff, !Z.compare_eq_iff.
  intros [Hy | [Hy [Hm | [Hm Hd]]]].
  - pose proof (days_before_year_mono _ _ Hy) as Hmono.
    rewrite days_before_year_succ in Hmono.
    assert (days_before_month (year a) (month a) + day a
            <= 365 + (if is_leap (year a) then 1 else 0)).
    { rewrite <- days_before_month_12.
      destruct (Z.eq_dec (month a) 12) as [E | E].
      - rewrite E in *. change (days_in_month (year a) 12) with 31 in Hda. lia.
      - pose proof (days_before_month_mono (year a) (month a) 12).
        rewrite days_before_month_succ in * by lia. lia. }
    assert (0 <= days_before_month (year b) (month b)).
    { destruct (Z.eq_dec (month b) 1) as [E | E].
      - rewrite E. unfold days_before_month. simpl. lia.
      - pose proof (days_before_month_mono (year b) 1 (month b)).
        rewrite days_before_month_succ in * by lia.
        change (days_before_month (year b) 1) with 0 in *.
        pose proof (days_in_month_bounds (year b) 1). lia. }
    lia.
  - rewrite Hy in *.
    pose proof (days_before_month_mono (year b) (month a) (month b)).
    rewrite days_before_month_succ in * by lia. lia.
  - rewrite Hy, Hm in *. lia.
Qed.

(** On valid dates the field-wise comparison is the comparison of ordinals. *)
Lemma date_compare_toordinal a b :
  valid_date a -> valid_date b -> date_compare a b = (toordinal a ?= toordinal b).
Proof.
  intros Ha Hb. destruct (date_compare a b) eqn:E.
  - apply date_compare_Eq in E. subst. symmetry. apply Z.compare_refl.
  - symmetry. apply Z.compare_lt_iff. now apply toordinal_lt.
  - symmetry. apply Z.compare_gt_iff. apply toordinal_lt; auto.
    rewrite date_compare_antisym, E. reflexivity.
Qed.

Lemma toordinal_inj a b :
  valid_date a -> valid_date b -> toordinal a = toordinal b -> a = b.
Proof.
  intros Ha Hb E. apply date_compare_Eq.
  rewrite date_compare_toordinal by assumption. now apply Z.compare_eq_iff.
Qed.

Lemma iter_next_day_valid n d : valid_date d -> valid_date (Nat.iter n next_day d).
Proof. induction n; simpl; auto using next_day_valid. Qed.

Lemma toordinal_iter_next_day n d :
  valid_date d -> toordinal (Nat.iter n next_day d) = toordinal d + Z.of_nat n.
Proof.
  intros Hd. induction n as [|n IH]; [simpl; lia |].
  rewrite Nat.iter_succ, toordinal_next_day by now apply iter_next_day_valid. lia.
Qed.

Lemma add_days_valid d n : valid_date d -> 0 <= n -> valid_date (add_days d n).
Proof.
  intros Hd Hn. unfold add_days.
  destruct (Z.leb_spec 0 n); [now apply iter_next_day_valid | lia].
Qed.

Lemma toordinal_add_days d n :
  valid_date d -> 0 <= n -> toordinal (add_days d n) = toordinal d + n.
Proof.
  intros Hd Hn. unfold add_days.
  destruct (Z.leb_spec 0 n); [| lia].
  rewrite toordinal_iter_next_day by assumption. lia.
Qed.

(** Every later valid date is reached by adding days. *)
Lemma add_days_reaches a b :
  valid_date a -> valid_date b -> toordinal a <= toordinal b ->
  add_days a (toordinal b - toordinal a) = b.
Proof.
  intros Ha Hb Hle. apply toordinal_inj; auto.
  - apply add_days_valid; auto; lia.
  - rewrite toordinal_add_days by (auto; lia). lia.
Qed.

Lemma date_leb_toordinal a b :
  valid_date a -> valid_date b -> (date_leb a b = true <-> toordinal a <= toordinal b).
Proof.
  intros Ha Hb. unfold date_leb. rewrite date_compare_toordinal by assumption.
  destruct (Z.compare_spec (toordinal a) (toordinal b)); simpl; split; intros; try lia;
    try reflexivity; discriminate.
Qed.

Lemma time_compare_refl t : time_compare t t = Eq.
Proof. unfold time_compare. rewrite !Z.compare_refl. reflexivity. Qed.

Lemma date_compare_refl d : date_compare d d = Eq.
Proof. now apply date_compare_Eq. Qed.

Lemma dt_leb_date a b : dt_leb a b = true -> date_leb (dt_date a) (dt_date b) = true.
Proof.
  unfold dt_leb, date_leb, dt_compare.
  destruct (date_compare (dt_date a) (dt_date b)); simpl; auto.
Qed.

(** [a <= b] on instants: an earlier day, or the same day and no later time. *)
Lemma dt_leb_spec a b :
  dt_leb a b = true <->
  date_compare (dt_date a) (dt_date b) = Lt \/
  (dt_date a = dt_date b /\ time_leb (dt_time a) (dt_time b) = true).
Proof.
  unfold dt_leb, time_leb, dt_compare.
  destruct (date_compare (dt_date a) (dt_date b)) eqn:E; simpl.
  - apply date_compare_Eq in E. split; [auto |]. intros [? | [_ ?]]; [discriminate | auto].
  - split; auto.
  - split; [discriminate |]. intros [? | [Heq _]]; [discriminate |].
    apply date_compare_Eq in Heq. congruence.
Qed.

Lemma dt_ltb_spec a b :
  dt_ltb a b = true <->
  date_compare (dt_date a) (dt_date b) = Lt \/
  (dt_date a = dt_date b /\ time_compare (dt_time a) (dt_time b) = Lt).
Proof.
  unfold dt_ltb, dt_compare.
  destruct (date_compare (dt_date a) (dt_date b)) eqn:E; simpl.
  - apply date_compare_Eq in E.
    destruct (time_compare (dt_time a) (dt_time b)); simpl; split; auto;
      try discriminate; intros [? | [_ ?]]; discriminate.
  - split; auto.
  - split; [discriminate |]. intros [? | [Heq _]]; [discriminate |].
    apply date_compare_Eq in Heq. congruence.
Qed.

Lemma dt_add_days_date s k : dt_date (dt_add_days s k) = add_days (dt_date s) k.
Proof. reflexivity. Qed.

(** The instants of a date range fall on pairwise different days. *)
Lemma date_range_dates_NoDup s e :
  valid_date (dt_date s) -> NoDup (dt_date <$> date_range s e).
Proof.
  intros Hs. unfold date_range.
  set (n := Z.to_nat (toordinal (dt_date e) - toordinal (dt_date s) + 1)).
  assert (forall i j : nat,
            add_days (dt_date s) (Z.of_nat i) = add_days (dt_date s) (Z.of_nat j) -> i = j)
    as Hinj.
  { intros i j E. apply (f_equal toordinal) in E.
    rewrite !toordinal_add_days in E by (auto; lia). lia. }
  apply NoDup_fmap_2_strong.
  - intros x y Hx Hy E.
    apply list_elem_of_filter in Hx as [_ Hx]. apply list_elem_of_filter in Hy as [_ Hy].
    apply list_elem_of_fmap in Hx as (i & -> & _).
    apply list_elem_of_fmap in Hy as (j & -> & _).
    rewrite !dt_add_days_date in E. now rewrite (Hinj i j E).
  - apply NoDup_filter. apply NoDup_fmap_2; [| apply NoDup_seq].
    intros i j E. apply Hinj. now apply (f_equal dt_date) in E.
Qed.

(** The days of a date range: [d] is one of them exactly when the instant
    "[d] at the time of day of [s]" lies between [s] and [e]. *)
Lemma date_range_has_day s e d :
  valid_date (dt_date s) -> valid_date (dt_date e) -> valid_date d ->
  dt_leb s (mkDatetime d (dt_time s)) = true ->
  dt_leb (mkDatetime d (dt_time s)) e = true ->
  mkDatetime d (dt_time s) ∈ date_range s e.
Proof.
  intros Hs He Hd H1 H2.
  pose proof (dt_leb_date _ _ H1) as D1. pose proof (dt_leb_date _ _ H2) as D2.
  simpl in D1, D2.
  apply date_leb_toordinal in D1; auto. apply date_leb_toordinal in D2; auto.
  unfold date_range. apply list_elem_of_filter. split; [exact H2 |].
  apply list_elem_of_fmap.
  exists (Z.to_nat (toordinal d - toordinal (dt_date s))). split.
  - unfold dt_add_days. f_equal. rewrite Z2Nat.id by lia.
    symmetry. now apply add_days_reaches.
  - apply elem_of_seq. lia.
Qed.

Lemma date_range_day_inv s e t :
  valid_date (dt_date s) -> t ∈ date_range s e ->
  dt_time t = dt_time s /\ valid_date (dt_date t) /\
  dt_leb s t = true /\ dt_leb t e = true.
Proof.
  intros Hs Ht. unfold date_range in Ht.
  apply list_elem_of_filter in Ht as [Hle Ht].
  apply list_elem_of_fmap in Ht as (k & -> & _).
  split; [reflexivity |]. split; [apply add_days_valid; auto; lia |].
  split; [| exact Hle].
  apply dt_leb_spec. simpl.
  destruct k as [| k].
  - right. split; [reflexivity |]. unfold time_leb. now rewrite time_compare_refl.
  - left. rewrite date_compare_toordinal; auto; [| apply add_days_valid; auto; lia].
    rewrite toordinal_add_days by (auto; lia). apply Z.compare_lt_iff. lia.
Qed.

(** An empty range when the end precedes the start. *)
Lemma date_range_empty s e :
  valid_date (dt_date s) -> dt_ltb e s = true -> date_range s e = [].
Proof.
  intros Hs Hlt. destruct (date_range s e) as [| t l] eqn:E; [reflexivity |].
  exfalso. assert (t ∈ date_range s e) as Ht by (rewrite E; left).
  destruct (date_range_day_inv _ _ _ Hs Ht) as (_ & _ & H1 & H2).
  clear - Hlt H1 H2. lex_arith.
Qed.

End CalendarFacts.

(** ** Facts about the Python primitives *)

Module PyFacts.
Import Py.

Lemma bind_Ok {A B} (f : A -> result B) (r : result A) (b : B) :
  r ≫= f = Ok b <-> exists a, r = Ok a /\ f a = Ok b.
Proof.
  destruct r as [a | e]; simpl; split.
  - intros H. exists a. auto.
  - intros (a' & [= <-] & H). exact H.
  - discriminate.
  - intros (a' & [=] & _).
Qed.

Lemma Ok_inj {A} (a b : A) : Ok a = Ok b -> a = b.
Proof. intros [= ->]. reflexivity. Qed.

(** *** Decimal strings *)

Lemma parse_zeros k s :
  N.of_uint <$> NilEmpty.uint_of_string (zeros k +:+ s)
  = N.of_uint <$> NilEmpty.uint_of_string s.
Proof.
  induction k as [|k IH]; [reflexivity |].
  simpl. destruct (NilEmpty.uint_of_string (zeros k +:+ s)) as [u |] eqn:E;
    simpl in *; rewrite <- IH; reflexivity.
Qed.

Lemma str_of_N_parse n : NilEmpty.uint_of_string (str_of_N n) = Some (N.to_uint n).
Proof. apply NilEmpty.usu. Qed.

Lemma str_of_N_inj a b : str_of_N a = str_of_N b -> a = b.
Proof.
  intros E. apply DecimalN.Unsigned.to_uint_inj.
  pose proof (str_of_N_parse a) as Ha. rewrite E, str_of_N_parse in Ha. congruence.
Qed.

Lemma str_of_N_nonempty n : str_of_N n <> EmptyString.
Proof.
  unfold str_of_N. destruct n as [| p]; [discriminate |].
  simpl. pose proof (DecimalPos.Unsigned.to_uint_nonnil p) as Hp.
  destruct (Pos.to_uint p); [congruence | discriminate ..].
Qed.

Lemma zfill_nonempty w s : s <> EmptyString -> zfill w s <> EmptyString.
Proof.
  unfold zfill. destruct (w - String.length s)%nat; simpl; [auto | discriminate].
Qed.

(** [int] reads back what the zero-padded format wrote. *)
Lemma py_int_zfill w n : py_int (zfill w (str_of_N n)) = Ok n.
Proof.
  pose proof (zfill_nonempty w _ (str_of_N_nonempty n)) as Hne.
  pose proof (parse_zeros (w - String.length (str_of_N n)) (str_of_N n)) as Hp.
  rewrite str_of_N_parse in Hp. simpl in Hp.
  rewrite DecimalN.Unsigned.of_to in Hp.
  unfold py_int. fold (zfill w (str_of_N n)) in Hp.
  destruct (zfill w (str_of_N n)) as [| a rest] eqn:E; [congruence |].
  destruct (NilEmpty.uint_of_string (String a rest)); simpl in Hp; congruence.
Qed.

Lemma zfill_str_inj w a b : zfill w (str_of_N a) = zfill w (str_of_N b) -> a = b.
Proof.
  intros E. pose proof (py_int_zfill w a) as Ha. rewrite E, py_int_zfill in Ha. congruence.
Qed.

Lemma append_nil s : EmptyString +:+ s = s.
Proof. reflexivity. Qed.

Lemma append_cons a s1 s2 : String a s1 +:+ s2 = String a (s1 +:+ s2).
Proof. reflexivity. Qed.

Lemma append_inj_r s a b : s +:+ a = s +:+ b -> a = b.
Proof.
  induction s as [| c s IH]; intros E; [exact E |].
  rewrite !append_cons in E. injection E as E. auto.
Qed.

Lemma has_char_app c s1 s2 : has_char c (s1 +:+ s2) = has_char c s1 || has_char c s2.
Proof. induction s1 as [| a s1 IH]; simpl; [reflexivity |]. rewrite IH. apply orb_assoc. Qed.

Lemma has_char_zeros k : has_char "_" (zeros k) = false.
Proof. induction k; simpl; auto. Qed.

Lemma has_char_digits d : has_char "_" (NilEmpty.string_of_uint d) = false.
Proof. induction d; simpl; auto. Qed.

Lemma has_char_zfill w n : has_char "_" (zfill w (str_of_N n)) = false.
Proof.
  unfold zfill, str_of_N. rewrite has_char_app, has_char_zeros, has_char_digits. reflexivity.
Qed.

Lemma split_on_absent c s : has_char c s = false -> split_on c s = [s].
Proof.
  induction s as [| a s IH]; simpl; [reflexivity |].
  intros H. apply orb_false_iff in H as [Ha Hs].
  rewrite Ha, (IH Hs). reflexivity.
Qed.

(** *** Loops that emit rows *)

Lemma for_emit_single {A Row} (f : nat -> A -> N -> Row) i (l : list A) c :
  for_emit (fun j a c => Ok ([f j a c], (c + 1)%N)) i l c
  = Ok (imap (fun k a => f (i + k)%nat a (c + N.of_nat k)%N) l,
        (c + N.of_nat (length l))%N).
Proof.
  revert i c. induction l as [| a l IH]; intros i c.
  - simpl. f_equal. f_equal. lia.
  - cbn [for_emit]. simpl. rewrite IH. simpl.
    f_equal. f_equal.
    + f_equal; [f_equal; [lia | lia] |].
      apply imap_ext. intros k x _. simpl. f_equal; lia.
    + lia.
Qed.

Lemma for_emit_inv {A Row} (body : nat -> A -> N -> result (list Row * N))
    i (l : list A) c rows c' :
  for_emit body i l c = Ok (rows, c') ->
  exists pieces : list (list Row),
    rows = mjoin pieces /\ length pieces = length l /\
    forall k a, l !! k = Some a ->
      exists rs ck ck', pieces !! k = Some rs /\ body (i + k)%nat a ck = Ok (rs, ck').
Proof.
  revert i c rows c'. induction l as [| a l IH]; intros i c rows c' H.
  - injection H as <- <-. exists []. repeat split; auto. intros k a Hk. discriminate.
  - cbn [for_emit] in H.
    apply bind_Ok in H as ([rs1 c1] & H1 & H).
    apply bind_Ok in H as ([rs2 c2] & H2 & H).
    injection H as <- <-. simpl in *.
    destruct (IH _ _ _ _ H2) as (pieces & -> & Hlen & Hp).
    exists (rs1 :: pieces). repeat split; [simpl; lia |].
    intros [| k] x Hk; simpl in Hk.
    + injection Hk as <-. exists rs1, c, c1. rewrite Nat.add_0_r. auto.
    + destruct (Hp k x Hk) as (rs & ck & ck' & Hs & Hb).
      exists rs, ck, ck'. split; [exact Hs |].
      replace (i + S k)%nat with (S i + k)%nat by lia. exact Hb.
Qed.

Lemma for_emit_total {A Row} (body : nat -> A -> N -> result (list Row * N))
    i (l : list A) c :
  (forall k a ck, l !! k = Some a -> exists r, body (i + k)%nat a ck = Ok r) ->
  exists r, for_emit body i l c = Ok r.
Proof.
  revert i c. induction l as [| a l IH]; intros i c H.
  - eexists. reflexivity.
  - cbn [for_emit].
    destruct (H 0%nat a c eq_refl) as [r1 H1]. rewrite Nat.add_0_r in H1.
    rewrite H1. simpl.
    destruct (IH (S i) r1.2) as [r2 H2].
    { intros k x ck Hk. replace (S i + k)%nat with (i + S k)%nat by lia.
      apply (H (S k)). exact Hk. }
    rewrite H2. simpl. eexists. reflexivity.
Qed.

(** Every emitted row comes from one iteration of the loop. *)
Lemma for_emit_elem {A Row} (body : nat -> A -> N -> result (list Row * N))
    i (l : list A) c rows c' x :
  for_emit body i l c = Ok (rows, c') -> x ∈ rows ->
  exists k a rs ck ck',
    l !! k = Some a /\ body (i + k)%nat a ck = Ok (rs, ck') /\ x ∈ rs.
Proof.
  intros H Hx. destruct (for_emit_inv _ _ _ _ _ _ H) as (pieces & -> & Hlen & Hp).
  apply list_elem_of_join in Hx as (rs & Hx & Hrs).
  apply list_elem_of_lookup in Hrs as [k Hk].
  assert (k < length l)%nat as Hlt.
  { rewrite <- Hlen. eapply lookup_lt_Some; eauto. }
  destruct (lookup_lt_is_Some_2 l k Hlt) as [a Ha].
  destruct (Hp k a Ha) as (rs' & ck & ck' & Hs & Hb).
  assert (rs' = rs) by congruence. subst rs'.
  exists k, a, rs, ck, ck'. auto.
Qed.

(** The rows kept by a filter, when one iteration alone can pass it. *)
Lemma filter_concat_unique {Row} (P : Row -> Prop) `{!forall x, Decision (P x)}
    (pieces : list (list Row)) k0 rs0 :
  pieces !! k0 = Some rs0 ->
  (forall k rs, pieces !! k = Some rs -> k <> k0 -> filter P rs = []) ->
  filter P (mjoin pieces) = filter P rs0.
Proof.
  revert k0. induction pieces as [| p pieces IH]; intros k0 H0 Hothers; [discriminate |].
  simpl. rewrite filter_app. destruct k0 as [| k0]; simpl in H0.
  - injection H0 as ->.
    assert (filter P (mjoin pieces) = []) as ->; [| apply app_nil_r].
    clear IH. induction pieces as [| q pieces IHq]; [reflexivity |].
    simpl. rewrite filter_app.
    rewrite (Hothers 1%nat q eq_refl) by lia. simpl.
    apply IHq. intros [| k] rs Hk Hne; [congruence |].
    apply (Hothers (S (S k)) rs); [exact Hk | lia].
  - rewrite (Hothers 0%nat p eq_refl) by lia. simpl.
    apply (IH k0 H0). intros k rs Hk Hne. apply (Hothers (S k) rs Hk). lia.
Qed.

Lemma filter_concat_nil {Row} (P : Row -> Prop) `{!forall x, Decision (P x)}
    (pieces : list (list Row)) :
  (forall k rs, pieces !! k = Some rs -> filter P rs = []) ->
  filter P (mjoin pieces) = [].
Proof.
  induction pieces as [| p pieces IH]; intros Hall; [reflexivity |].
  simpl. rewrite filter_app, (Hall 0%nat p eq_refl). simpl.
  apply IH. intros k rs Hk. apply (Hall (S k) rs Hk).
Qed.

Lemma filter_imap_length {A B} (P : B -> Prop) `{!forall x, Decision (P x)}
    (Q : A -> Prop) `{!forall x, Decision (Q x)} (g : nat -> A -> B) (l : list A) :
  (forall j x, P (g j x) <-> Q x) ->
  length (filter P (imap g l)) = length (filter Q l).
Proof.
  revert g. induction l as [| a l IH]; intros g Hg; [reflexivity |].
  simpl. rewrite !filter_cons.
  assert (length (filter P (imap (g ∘ S) l)) = length (filter Q l)) as IH'.
  { apply IH. intros j x. apply Hg. }
  destruct (decide (P (g 0%nat a))) as [Hp | Hp], (decide (Q a)) as [Hq | Hq];
    try (exfalso; pose proof (Hg 0%nat a); tauto);
    simpl; rewrite IH'; reflexivity.
Qed.

Lemma filter_none {A} (P : A -> Prop) `{!forall x, Decision (P x)} (l : list A) :
  (forall x, x ∈ l -> ~ P x) -> filter P l = [].
Proof.
  induction l as [| a l IH]; intros Hl; [reflexivity |].
  rewrite filter_cons. destruct (decide (P a)) as [Hp | Hp].
  - exfalso. apply (Hl a); [left | exact Hp].
  - apply IH. intros x Hx. apply Hl. now right.
Qed.

Lemma filter_ext_in {A} (P Q : A -> Prop) `{!forall x, Decision (P x)}
    `{!forall x, Decision (Q x)} (l : list A) :
  (forall x, x ∈ l -> (P x <-> Q x)) -> filter P l = filter Q l.
Proof.
  induction l as [| a l IH]; intros Hl; [reflexivity |].
  rewrite !filter_cons.
  assert (filter P l = filter Q l) as -> by (apply IH; intros x Hx; apply Hl; now right).
  pose proof (Hl a ltac:(left)) as Ha.
  destruct (decide (P a)), (decide (Q a)); tauto || reflexivity.
Qed.

(** One element with a given key, when the keys do not repeat. *)
Lemma filter_key_unique {A K} `{EqDecision K} (h : A -> K) (l : list A) (key : K) :
  NoDup (h <$> l) -> (exists x, x ∈ l /\ h x = key) ->
  length (filter (fun x => h x = key) l) = 1%nat.
Proof.
  induction l as [| a l IH]; intros Hnd (x & Hx & Hk); [inversion Hx |].
  rewrite fmap_cons in Hnd. apply NoDup_cons in Hnd as [Hna Hnd].
  rewrite filter_cons. destruct (decide (h a = key)) as [Ha | Ha].
  - simpl. f_equal.
    assert (filter (fun x => h x = key) l = []) as ->; [| reflexivity].
    apply filter_none. intros y Hy Hyk.
    apply Hna. rewrite Ha, <- Hyk. apply list_elem_of_fmap. eauto.
  - apply IH; [exact Hnd |]. exists x. split; [| exact Hk].
    apply elem_of_cons in Hx as [-> | Hx]; [congruence | exact Hx].
Qed.

Lemma filter_key_absent {A K} `{EqDecision K} (h : A -> K) (l : list A) (key : K) :
  (forall x, x ∈ l -> h x <> key) -> filter (fun x => h x = key) l = [].
Proof.
  intros Hl. apply filter_none. exact Hl.
Qed.

End PyFacts.

(** ** Facts about the generator *)

Module GeneratorFacts.
Import Generator CalendarFacts PyFacts.

Section WithOracle.
Context {F : Float64} (o : Oracle).

(** *** Customer ids *)

Lemma customer_id_inj i j : customer_id i = customer_id j -> i = j.
Proof.
  unfold customer_id. intros E.
  apply append_inj_r, zfill_str_inj in E. lia.
Qed.

Lemma customer_ids_lookup n i cid :
  customer_ids n !! i = Some cid <-> cid = customer_id i /\ (i < Z.to_nat n)%nat.
Proof.
  unfold customer_ids, py_range. rewrite list_lookup_fmap.
  destruct (seq 0 (Z.to_nat n) !! i) as [k |] eqn:E; simpl.
  - apply lookup_seq in E as [-> Hlt]. simpl. split.
    + intros [= <-]. auto.
    + intros [-> _]. reflexivity.
  - split; [discriminate |]. intros [_ Hlt].
    apply lookup_ge_None in E. rewrite length_seq in E. lia.
Qed.

Lemma customer_ids_NoDup n : NoDup (customer_ids n).
Proof.
  unfold customer_ids. apply NoDup_fmap_2; [| apply NoDup_seq].
  intros i j. apply customer_id_inj.
Qed.

Lemma customers_data_ids n : C_CUSTOMER_ID <$> customers_data o n = customer_ids n.
Proof.
  unfold customers_data. generalize (customer_ids n) as l.
  generalize (customer_type_draw o) as f, (account_status_draw o) as g.
  intros f g l. revert f g. induction l as [| a l IH]; intros f g; [reflexivity |].
  simpl. f_equal. unfold compose. apply (IH (fun i => f (S i)) (fun i => g (S i))).
Qed.

Lemma customers_data_lookup n i c :
  customers_data o n !! i = Some c ->
  C_CUSTOMER_ID c = customer_id i /\ (i < Z.to_nat n)%nat.
Proof.
  intros H. apply customer_ids_lookup. rewrite <- customers_data_ids.
  rewrite list_lookup_fmap, H. reflexivity.
Qed.

Lemma customers_data_length n : length (customers_data o n) = Z.to_nat n.
Proof.
  unfold customers_data, customer_ids, py_range.
  rewrite length_imap, length_fmap, length_seq. reflexivity.
Qed.

Lemma split_customer_id i :
  index (split_on "_" (customer_id i)) 1 = Ok (zfill 6 (str_of_N (1001 + N.of_nat i))).
Proof.
  unfold customer_id. rewrite !append_cons, append_nil. cbn [split_on Ascii.eqb Bool.eqb].
  rewrite (split_on_absent _ _ (has_char_zfill 6 _)). reflexivity.
Qed.

(** The dictionary of customer types has every id of the frame. *)
Lemma customer_types_lookup (customers_df : list customer) c :
  c ∈ customers_df -> is_Some (customer_types customers_df !! C_CUSTOMER_ID c).
Proof.
  unfold customer_types. generalize (∅ : gmap string customer_type) as d.
  induction customers_df as [| a l IH]; intros d Hc; [inversion Hc |].
  simpl. apply elem_of_cons in Hc as [-> | Hc]; [| now apply IH].
  clear IH. assert (is_Some (<[C_CUSTOMER_ID a := C_CUSTOMER_TYPE a]> d !! C_CUSTOMER_ID a))
    as Hs by (rewrite lookup_insert_eq; eauto).
  revert Hs. generalize (<[C_CUSTOMER_ID a := C_CUSTOMER_TYPE a]> d) as d'.
  induction l as [| b l IHl]; intros d' Hs; [exact Hs |].
  simpl. apply IHl. destruct (decide (C_CUSTOMER_ID b = C_CUSTOMER_ID a)) as [E | E].
  - rewrite E, lookup_insert_eq. eauto.
  - rewrite lookup_insert_ne by exact E. exact Hs.
Qed.

(** *** The readings table *)

Lemma readings_of_customer_ok solar anomaly types days i k t c :
  types !! customer_id k = Some t ->
  readings_of_customer o solar anomaly types days i (customer_id k) c
  = Ok (imap (fun j day =>
                reading_row o solar anomaly i (customer_id k)
                  (meter_id_of (1001 + N.of_nat k)) t j day (c + N.of_nat j)%N) days,
        (c + N.of_nat (length days))%N).
Proof.
  intros Ht. unfold readings_of_customer.
  rewrite split_customer_id. simpl. rewrite py_int_zfill. simpl.
  unfold dict_get. rewrite Ht. simpl. apply for_emit_single.
Qed.

Lemma readings_data_blocks n contracts_df anomaly start_date end_date :
  exists pieces,
    readings_data o (customers_data o n) contracts_df anomaly start_date end_date
    = Ok (mjoin pieces)
    /\ readings_blocks o n contracts_df anomaly start_date end_date pieces.
Proof.
  unfold readings_data. rewrite customers_data_ids.
  set (solar := solar_customers contracts_df).
  set (types := customer_types (customers_data o n)).
  set (days := date_range start_date end_date).
  assert (forall k, (k < Z.to_nat n)%nat -> is_Some (types !! customer_id k)) as Htypes.
  { intros k Hk. rewrite <- customers_data_length in Hk.
    destruct (lookup_lt_is_Some_2 _ _ Hk) as [c Hc].
    destruct (customers_data_lookup _ _ _ Hc) as [<- _].
    apply customer_types_lookup. eapply list_elem_of_lookup_2; eauto. }
  destruct (for_emit_total (readings_of_customer o solar anomaly types days) 0
              (customer_ids n) 100001%N) as [[rows c'] Hrun].
  { intros k cid ck Hk. apply customer_ids_lookup in Hk as [-> Hk].
    destruct (Htypes k Hk) as [t Ht].
    rewrite (readings_of_customer_ok _ _ _ _ _ _ t _ Ht). eauto. }
  rewrite Hrun. simpl.
  destruct (for_emit_inv _ _ _ _ _ _ Hrun) as (pieces & -> & Hlen & Hp).
  exists pieces. split; [reflexivity |]. split.
  - rewrite Hlen. unfold customer_ids, py_range. now rewrite length_fmap, length_seq.
  - intros i Hi.
    assert (customer_ids n !! i = Some (customer_id i)) as Hlook
      by (apply customer_ids_lookup; auto).
    destruct (Hp i _ Hlook) as (rs & ck & ck' & Hrs & Hbody).
    destruct (Htypes i Hi) as [t Ht].
    rewrite (readings_of_customer_ok _ _ _ _ _ _ t _ Ht) in Hbody.
    injection Hbody as <- _. exists t, ck. exact Hrs.
Qed.

(** Every row of the readings table is [reading_row] at some customer and
    some instant of the date range. *)
Lemma readings_blocks_elem n contracts_df anomaly start_date end_date pieces r :
  readings_blocks o n contracts_df anomaly start_date end_date pieces ->
  r ∈ mjoin pieces ->
  exists i t j day c,
    (i < Z.to_nat n)%nat /\ date_range start_date end_date !! j = Some day /\
    r = reading_row o (solar_customers contracts_df) anomaly i (customer_id i)
          (meter_id_of (1001 + N.of_nat i)) t j day c.
Proof.
  intros [Hlen Hblocks] Hr.
  apply list_elem_of_join in Hr as (rs & Hr & Hrs).
  apply list_elem_of_lookup in Hrs as [i Hi].
  assert (i < Z.to_nat n)%nat as Hlt by (rewrite <- Hlen; eapply lookup_lt_Some; eauto).
  destruct (Hblocks i Hlt) as (t & c & Hpiece).
  rewrite Hpiece in Hi. injection Hi as <-.
  apply elem_of_lookup_imap in Hr as (j & day & -> & Hday).
  exists i, t, j, day, (c + N.of_nat j)%N. auto.
Qed.

Lemma meter_id_of_inj a b : meter_id_of a = meter_id_of b -> a = b.
Proof.
  unfold meter_id_of. intros E. apply append_inj_r, str_of_N_inj in E. lia.
Qed.

(** *** The billing table *)

Lemma add_months_month_range d k : 1 <= month (add_months d k) <= 12.
Proof. unfold add_months. simpl. zdiv. Qed.

(** One month after the first of a month, minus one day, is the last day of
    that month. *)
Lemma last_day_of_period d :
  1 <= month d <= 12 ->
  add_days (add_months (first_of_month d) 1) (-1) = last_of_month d.
Proof.
  intros Hm. unfold add_days, add_months, first_of_month, last_of_month. simpl.
  set (t := year d * 12 + (month d - 1) + 1).
  destruct (Z.eq_dec (month d) 12) as [E | E].
  - assert (t / 12 = year d + 1) as -> by (unfold t; zdiv).
    assert (t mod 12 = 0) as -> by (unfold t; zdiv).
    unfold prev_day. simpl. rewrite E.
    f_equal; lia.
  - assert (t / 12 = year d) as -> by (unfold t; zdiv).
    assert (t mod 12 = month d) as -> by (unfold t; zdiv).
    pose proof (days_in_month_bounds (year d) (month d + 1)).
    unfold prev_day. simpl.
    rewrite Z.min_l by lia. simpl.
    destruct (Z.ltb_spec 1 (month d + 1)); [| lia].
    f_equal; [lia | f_equal; lia].
Qed.

Lemma dt_min_date a b : dt_date (dt_min a b) = date_min (dt_date a) (dt_date b).
Proof.
  unfold dt_min, date_min.
  destruct (dt_ltb b a) eqn:E1, (date_ltb (dt_date b) (dt_date a)) eqn:E2;
    try reflexivity.
  - apply date_compare_Eq. clear - E1 E2. lex_arith.
  - exfalso. clear - E1 E2. lex_arith.
Qed.

(** What one pass through the body of the month loop appends. *)
Lemma invoice_of_month_inv readings_df overdue start_date end_date cid k c rs c' inv :
  invoice_of_month readings_df overdue start_date end_date cid k c = Ok (rs, c') ->
  inv ∈ rs ->
  let ps := dt_first_of_month (dt_add_months start_date (Z.of_nat k)) in
  let pe := dt_min (dt_add_days (dt_add_months ps 1) (-1)) end_date in
  dt_ltb end_date (dt_add_months start_date (Z.of_nat k)) = false /\
  readings_df <> [] /\
  I_CUSTOMER_ID inv = cid /\
  I_AMOUNT_DUE inv
  = np_round2 (fadd (fmul (fsum (R_KWH_CONSUMPTION <$> billed_readings readings_df cid ps pe))
                          TARIFF_RATE_KWH) BASE_MONTHLY_FEE) /\
  I_INVOICE_DATE inv = add_days (dt_date pe) 5 /\
  I_DUE_DATE inv = add_days (I_INVOICE_DATE inv) 14 /\
  I_PAYMENT_STATUS inv = payment_status_of overdue cid ps end_date /\
  I_CONSUMPTION_PERIOD_START inv = dt_date ps /\
  I_CONSUMPTION_PERIOD_END inv = dt_date pe.
Proof.
  unfold invoice_of_month. intros H Hin.
  destruct (dt_ltb end_date (dt_add_months start_date (Z.of_nat k))) eqn:Hskip.
  - injection H as <- _. inversion Hin.
  - apply bind_Ok in H as (consumption & Hc & H).
    unfold monthly_consumption in Hc.
    apply bind_Ok in Hc as (df & Hdf & Hc).
    unfold frame_col in Hdf. destruct readings_df as [| r0 rest] eqn:Hr; [discriminate |].
    injection Hdf as <-. injection Hc as <-.
    apply Ok_inj, pair_equal_spec in H as [<- _].
    apply list_elem_of_singleton in Hin as ->.
    cbn [I_CUSTOMER_ID I_AMOUNT_DUE I_INVOICE_DATE I_DUE_DATE I_PAYMENT_STATUS
         I_CONSUMPTION_PERIOD_START I_CONSUMPTION_PERIOD_END].
    repeat split; auto.
Qed.

Lemma billing_data_elem customers_df readings_df overdue start_date end_date rows inv :
  billing_data customers_df readings_df overdue start_date end_date = Ok rows ->
  inv ∈ rows ->
  exists i cust (k : nat) c rs c',
    customers_df !! i = Some cust /\
    (Z.of_nat k < num_months start_date end_date) /\
    invoice_of_month readings_df overdue start_date end_date (C_CUSTOMER_ID cust) k c
    = Ok (rs, c') /\ inv ∈ rs.
Proof.
  unfold billing_data. intros H Hin.
  apply bind_Ok in H as ([rows' cnt] & Hrun & H). injection H as <-.
  destruct (for_emit_elem _ _ _ _ _ _ _ Hrun Hin) as (i & cid & rs & ck & ck' & Hi & Hb & Hx).
  rewrite list_lookup_fmap in Hi.
  destruct (customers_df !! i) as [cust |] eqn:Hcust; [| discriminate].
  injection Hi as <-.
  unfold invoices_of_customer in Hb.
  destruct (for_emit_elem _ _ _ _ _ _ _ Hb Hx) as (j & k & rs' & c & c' & Hj & Hb' & Hx').
  unfold py_range in Hj. apply lookup_seq in Hj as [-> Hlt].
  exists i, cust, j, c, rs', c'. repeat split; auto. lia.
Qed.

(** With a non-empty readings frame the billing stage cannot raise. *)
Lemma billing_data_total customers_df readings_df overdue start_date end_date :
  readings_df <> [] ->
  exists rows, billing_data customers_df readings_df overdue start_date end_date = Ok rows.
Proof.
  intros Hne. unfold billing_data.
  destruct (for_emit_total (invoices_of_customer readings_df overdue start_date end_date)
              0 (C_CUSTOMER_ID <$> customers_df) 80001%N) as [r Hr].
  - intros i cid ck _. unfold invoices_of_customer. apply for_emit_total.
    intros j k c _. unfold invoice_of_month.
    destruct (dt_ltb end_date (dt_add_months start_date (Z.of_nat k))); [eauto |].
    unfold monthly_consumption, frame_col.
    destruct readings_df; [congruence |]. simpl. eauto.
  - rewrite Hr. simpl. eauto.
Qed.

Lemma first_of_month_add_months_inj d k1 k2 :
  first_of_month (add_months d k1) = first_of_month (add_months d k2) -> k1 = k2.
Proof.
  unfold first_of_month, add_months. simpl. intros [= Hy Hm]. zdiv.
Qed.

(** The invoices of one customer: for each month offset below [num_months]
    one invoice, or none when the guard skips the offset. *)
Lemma invoices_of_customer_count readings_df overdue start_date end_date i cid c rs c' :
  invoices_of_customer readings_df overdue start_date end_date i cid c = Ok (rs, c') ->
  (forall inv, inv ∈ rs -> I_CUSTOMER_ID inv = cid) /\
  forall k0 : nat, Z.of_nat k0 < num_months start_date end_date ->
    length (filter (fun inv => I_CONSUMPTION_PERIOD_START inv
                               = first_of_month (add_months (dt_date start_date) (Z.of_nat k0)))
              rs)
    = if dt_ltb end_date (dt_add_months start_date (Z.of_nat k0)) then 0%nat else 1%nat.
Proof.
  unfold invoices_of_customer. intros Hrun.
  destruct (for_emit_inv _ _ _ _ _ _ Hrun) as (pieces & -> & Hlen & Hp).
  assert (forall k p, pieces !! k = Some p ->
            exists ck ck', invoice_of_month readings_df overdue start_date end_date cid k ck
                           = Ok (p, ck')) as Hpiece.
  { intros k p Hk.
    assert (k < length (py_range (num_months start_date end_date)))%nat as Hlt
      by (rewrite <- Hlen; eapply lookup_lt_Some; eauto).
    destruct (lookup_lt_is_Some_2 _ _ Hlt) as [k' Hk'].
    destruct (Hp k k' Hk') as (rs & ck & ck' & Hrs & Hb).
    unfold py_range in Hk'. apply lookup_seq in Hk' as [-> _].
    assert (rs = p) by congruence. subst rs. eauto. }
  split.
  - intros inv Hin. apply list_elem_of_join in Hin as (p & Hin & Hpin).
    apply list_elem_of_lookup in Hpin as [k Hk].
    destruct (Hpiece k p Hk) as (ck & ck' & Hb).
    now destruct (invoice_of_month_inv _ _ _ _ _ _ _ _ _ _ Hb Hin) as (_ & _ & Hcid & _).
  - intros k0 Hk0.
    assert (k0 < length pieces)%nat as Hlt.
    { rewrite Hlen. unfold py_range. rewrite length_seq. lia. }
    destruct (lookup_lt_is_Some_2 _ _ Hlt) as [p0 Hp0].
    rewrite (filter_concat_unique _ pieces k0 p0 Hp0).
    + destruct (Hpiece k0 p0 Hp0) as (ck & ck' & Hb).
      unfold invoice_of_month in Hb.
      destruct (dt_ltb end_date (dt_add_months start_date (Z.of_nat k0))) eqn:Hskip.
      * apply Ok_inj, pair_equal_spec in Hb as [<- _]. reflexivity.
      * apply bind_Ok in Hb as (consumption & _ & Hb).
        apply Ok_inj, pair_equal_spec in Hb as [<- _].
        rewrite filter_cons, decide_True by reflexivity. reflexivity.
    + intros k p Hk Hne. apply filter_none. intros inv Hin Hps.
      destruct (Hpiece k p Hk) as (ck & ck' & Hb).
      destruct (invoice_of_month_inv _ _ _ _ _ _ _ _ _ _ Hb Hin)
        as (_ & _ & _ & _ & _ & _ & _ & Hps' & _).
      rewrite Hps' in Hps. apply first_of_month_add_months_inj in Hps. lia.
Qed.

(** The billing table, counted: a customer has, for the month reached by
    offset [k0] from start_date, exactly one invoice, unless start_date
    moved by [k0] months falls after end_date, and then none. *)
Lemma billing_data_count customers_df readings_df overdue start_date end_date rows :
  NoDup (C_CUSTOMER_ID <$> customers_df) ->
  billing_data customers_df readings_df overdue start_date end_date = Ok rows ->
  forall cust (k0 : nat),
    cust ∈ customers_df -> Z.of_nat k0 < num_months start_date end_date ->
    length (filter (fun inv =>
                      I_CUSTOMER_ID inv = C_CUSTOMER_ID cust /\
                      I_CONSUMPTION_PERIOD_START inv
                      = first_of_month (add_months (dt_date start_date) (Z.of_nat k0)))
              rows)
    = if dt_ltb end_date (dt_add_months start_date (Z.of_nat k0)) then 0%nat else 1%nat.
Proof.
  intros Hnd Hrun cust k0 Hcust Hk0. unfold billing_data in Hrun.
  apply bind_Ok in Hrun as ([rows' cnt] & Hrun & Hrows).
  apply Ok_inj in Hrows. simpl in Hrows. subst rows'.
  destruct (for_emit_inv _ _ _ _ _ _ Hrun) as (pieces & -> & Hlen & Hp).
  apply list_elem_of_lookup in Hcust as [i0 Hi0].
  assert ((C_CUSTOMER_ID <$> customers_df) !! i0 = Some (C_CUSTOMER_ID cust)) as Hid0
    by (rewrite list_lookup_fmap, Hi0; reflexivity).
  destruct (Hp i0 _ Hid0) as (p0 & ck0 & ck0' & Hp0 & Hb0).
  destruct (invoices_of_customer_count _ _ _ _ _ _ _ _ _ Hb0) as [Hcid0 Hcount0].
  rewrite (filter_concat_unique _ pieces i0 p0 Hp0).
  - rewrite <- (Hcount0 k0 Hk0). f_equal.
    apply filter_ext_in. intros inv Hin. specialize (Hcid0 inv Hin). tauto.
  - intros i p Hi Hne. apply filter_none. intros inv Hin [Hcid _].
    assert (i < length customers_df)%nat as Hlt.
    { rewrite <- (length_fmap C_CUSTOMER_ID), <- Hlen. eapply lookup_lt_Some; eauto. }
    destruct (lookup_lt_is_Some_2 _ _ Hlt) as [ci Hci].
    assert ((C_CUSTOMER_ID <$> customers_df) !! i = Some (C_CUSTOMER_ID ci)) as Hidi
      by (rewrite list_lookup_fmap, Hci; reflexivity).
    destruct (Hp i _ Hidi) as (p' & ck & ck' & Hp' & Hb).
    assert (p' = p) by congruence. subst p'.
    destruct (invoices_of_customer_count _ _ _ _ _ _ _ _ _ Hb) as [Hcidi _].
    rewrite (Hcidi inv Hin) in Hcid.
    apply Hne. eapply NoDup_lookup; eauto. now rewrite Hcid.
Qed.

(** *** The support cases *)

Lemma cases_of_customer_ok anomaly overdue i cid c :
  cases_of_customer o anomaly overdue i cid c
  = Ok (imap (fun k j => case_row o anomaly overdue i cid j (c + N.of_nat k)%N)
             (py_range (num_cases_draw o i)),
        (c + N.of_nat (length (py_range (num_cases_draw o i))))%N).
Proof. unfold cases_of_customer. apply for_emit_single. Qed.

Lemma cases_data_elem sampled anomaly overdue :
  exists rows,
    cases_data o sampled anomaly overdue = Ok rows /\
    forall x, x ∈ rows ->
      exists i cid j c,
        set_iter o (customers_for_cases sampled anomaly overdue) !! i = Some cid /\
        x = case_row o anomaly overdue i cid j c.
Proof.
  unfold cases_data.
  destruct (for_emit_total (cases_of_customer o anomaly overdue) 0
              (set_iter o (customers_for_cases sampled anomaly overdue)) 101%N)
    as [[rows c'] Hrun].
  { intros. rewrite cases_of_customer_ok. eauto. }
  rewrite Hrun. simpl. exists rows. split; [reflexivity |].
  intros x Hx.
  destruct (for_emit_elem _ _ _ _ _ _ _ Hrun Hx) as (i & cid & rs & ck & ck' & Hi & Hb & Hin).
  rewrite cases_of_customer_ok in Hb. injection Hb as <- _.
  apply elem_of_lookup_imap in Hin as (k & j & -> & _).
  exists i, cid, j, (ck + N.of_nat k)%N. auto.
Qed.

Lemma case_row_customer_id anomaly overdue i cid j c :
  S_CUSTOMER_ID (case_row o anomaly overdue i cid j c) = cid.
Proof. unfold case_row. destruct (branch_of anomaly overdue cid); reflexivity. Qed.

(** The columns each branch of the case loop writes. *)
Lemma case_row_by_branch anomaly overdue i cid j c :
  let row := case_row o anomaly overdue i cid j c in
  match branch_of anomaly overdue cid with
  | AnomalyBranch =>
      S_ISSUE_TYPE row = BillingInquiry /\ S_DESCRIPTION row = anomaly_description /\
      S_CASE_DATE row
      = add_days (dt_date anomaly_spike_date) (15 + case_offset_draw o i j)
  | OverdueBranch =>
      S_ISSUE_TYPE row = BillingInquiry /\ S_DESCRIPTION row = overdue_description /\
      S_CASE_DATE row
      = add_days (dt_date anomaly_spike_date) (30 + case_offset_draw o i j)
  | GeneralBranch =>
      S_ISSUE_TYPE row = issue_of_general (general_issue_draw o i j) /\
      S_DESCRIPTION row = general_description /\
      S_CASE_DATE row = fake_case_date o i j
  end.
Proof.
  unfold case_row. destruct (branch_of anomaly overdue cid); simpl; auto.
Qed.

Lemma branch_of_anomaly anomaly overdue cid :
  cid ∈ anomaly -> branch_of anomaly overdue cid = AnomalyBranch.
Proof. intros H. unfold branch_of. now rewrite (bool_decide_eq_true_2 _ H). Qed.

Lemma branch_of_overdue anomaly overdue cid :
  cid ∉ anomaly -> cid ∈ overdue -> branch_of anomaly overdue cid = OverdueBranch.
Proof.
  intros Ha Ho. unfold branch_of.
  now rewrite (bool_decide_eq_false_2 _ Ha), (bool_decide_eq_true_2 _ Ho).
Qed.

(** *** The anomaly and overdue sets *)

Lemma anomaly_customers_ok customers_df :
  anomaly_customers o customers_df
  = Ok (list_to_set (sample_draw o (all_residential_ids customers_df)
                       (Nat.min 15 (length (all_residential_ids customers_df))))).
Proof.
  unfold anomaly_customers, py_sample.
  set (ids := all_residential_ids customers_df).
  destruct (Z.ltb_spec (Z.min 15 (Z.of_nat (length ids))) 0); [lia |].
  destruct (Z.ltb_spec (Z.of_nat (length ids)) (Z.min 15 (Z.of_nat (length ids)))); [lia |].
  simpl.
  replace (Z.to_nat (Z.min 15 (Z.of_nat (length ids)))) with (Nat.min 15 (length ids)) by lia.
  reflexivity.
Qed.

Lemma all_residential_ids_elem customers_df cid :
  cid ∈ all_residential_ids customers_df <->
  exists c, c ∈ customers_df /\ C_CUSTOMER_ID c = cid /\ C_CUSTOMER_TYPE c = Residential.
Proof.
  unfold all_residential_ids. rewrite list_elem_of_fmap. split.
  - intros (c & -> & Hc). apply list_elem_of_filter in Hc as [Ht Hc]. eauto.
  - intros (c & Hc & <- & Ht). exists c. split; [reflexivity |].
    apply list_elem_of_filter. auto.
Qed.

Lemma overdue_customers_elem anomaly cid :
  cid ∈ overdue_customers o anomaly <->
  exists i, (i < 7)%nat /\ set_iter o anomaly !! i = Some cid.
Proof.
  unfold overdue_customers. rewrite elem_of_list_to_set, elem_of_take.
  split; intros (i & ? & ?); eauto.
Qed.

Lemma overdue_subset (Hok : oracle_ok o) anomaly :
  overdue_customers o anomaly ⊆ anomaly.
Proof.
  intros cid Hcid. apply overdue_customers_elem in Hcid as (i & _ & Hi).
  apply list_elem_of_lookup_2 in Hi.
  rewrite (set_iter_perm o Hok anomaly) in Hi. now apply elem_of_elements in Hi.
Qed.

Lemma overdue_size (Hok : oracle_ok o) anomaly :
  size (overdue_customers o anomaly) = Nat.min 7 (size anomaly).
Proof.
  unfold overdue_customers.
  assert (NoDup (set_iter o anomaly)) as Hnd.
  { rewrite (set_iter_perm o Hok anomaly). apply NoDup_elements. }
  rewrite size_list_to_set.
  - rewrite length_take. f_equal. unfold size, set_size. simpl.
    now rewrite (set_iter_perm o Hok anomaly).
  - eapply sublist_NoDup; [exact Hnd | apply sublist_take].
Qed.

Lemma overdue_all_when_few (Hok : oracle_ok o) anomaly :
  (size anomaly <= 7)%nat -> overdue_customers o anomaly = anomaly.
Proof.
  intros Hsize. unfold overdue_customers.
  assert (length (set_iter o anomaly) = size anomaly) as Hlen.
  { unfold size, set_size. simpl. now rewrite (set_iter_perm o Hok anomaly). }
  rewrite take_ge by lia. apply set_eq. intros x.
  rewrite elem_of_list_to_set, (set_iter_perm o Hok anomaly). apply elem_of_elements.
Qed.

(** *** The contracts table is not empty when there is a customer *)

Lemma contracts_data_nonempty customers_df :
  customers_df <> [] ->
  exists rows, contracts_data o customers_df = Ok rows /\ rows <> [].
Proof.
  intros Hne. unfold contracts_data.
  destruct (for_emit_total (contracts_of_customer o) 0 customers_df 5001%N)
    as [[rows c'] Hrun].
  { intros. unfold contracts_of_customer. eauto. }
  rewrite Hrun. simpl. exists rows. split; [reflexivity |].
  destruct (for_emit_inv _ _ _ _ _ _ Hrun) as (pieces & -> & Hlen & Hp).
  destruct customers_df as [| c rest]; [congruence |].
  destruct (Hp 0%nat c eq_refl) as (rs & ck & ck' & Hrs & Hbody).
  destruct pieces as [| p pieces]; [discriminate |].
  injection Hrs as ->. unfold contracts_of_customer in Hbody.
  injection Hbody as Hb. apply (f_equal fst) in Hb. cbn [fst] in Hb.
  simpl. intros Hnil. apply app_eq_nil in Hnil as [Hnil _]. revert Hnil.
  rewrite <- Hb. clear.
  destruct (num_contracts_draw o 0); simpl;
    (rewrite decide_False by set_solver); simpl; discriminate.
Qed.

(** *** An end date before the start date: nothing is billed *)

Lemma add_months_not_before d k :
  valid_date d -> 0 <= k -> date_compare d (add_months d k) <> Gt.
Proof.
  intros (Hy & Hm & Hd) Hk. unfold date_compare, add_months. simpl.
  set (t := year d * 12 + (month d - 1) + k).
  assert (12 * (t / 12) + t mod 12 = year d * 12 + (month d - 1) + k /\ 0 <= t mod 12 < 12)
    as [Ht Hr] by (unfold t; zdiv).
  destruct (Z.eq_dec k 0) as [-> | Hk0].
  - assert (t / 12 = year d) as Hq by lia.
    assert (t mod 12 + 1 = month d) as Hmo by lia.
    rewrite Hq, Hmo, Z.min_l by lia.
    rewrite !Z.compare_refl. simpl. discriminate.
  - intros H. apply lexc_Gt in H as [H | [H1 H]].
    + apply Z.compare_gt_iff in H. lia.
    + apply Z.compare_eq_iff in H1. apply lexc_Gt in H as [H | [H2 _]].
      * apply Z.compare_gt_iff in H. lia.
      * apply Z.compare_eq_iff in H2. lia.
Qed.

(** The first of the month reached by [k] months from [d] is before [d]
    only for [k = 0], and then only when [d] is not itself a first. *)
Lemma period_start_before_start d (k : nat) :
  valid_date d ->
  date_ltb (first_of_month (add_months d (Z.of_nat k))) d = true
  <-> k = 0%nat /\ day d <> 1.
Proof.
  intros (Hy & Hm & Hd).
  unfold add_months, first_of_month. cbn [year month day].
  set (t := year d * 12 + (month d - 1) + Z.of_nat k).
  assert (12 * (t / 12) + t mod 12 = year d * 12 + (month d - 1) + Z.of_nat k
          /\ 0 <= t mod 12 < 12) as [Ht Hr] by (unfold t; zdiv).
  generalize dependent (t / 12). generalize dependent (t mod 12). clear t.
  intros r Hr q Hq. destruct d as [y m dd]; cbn [year month day] in *.
  split; intros H; lex_arith.
Qed.

Lemma for_emit_nothing {A Row} (body : nat -> A -> N -> result (list Row * N))
    i (l : list A) c :
  (forall k a ck, l !! k = Some a -> body (i + k)%nat a ck = Ok ([], ck)) ->
  for_emit body i l c = Ok ([], c).
Proof.
  revert i c. induction l as [| a l IH]; intros i c H; [reflexivity |].
  cbn [for_emit]. pose proof (H 0%nat a c eq_refl) as H0. rewrite Nat.add_0_r in H0.
  rewrite H0. simpl. rewrite IH; [reflexivity |].
  intros k x ck Hk. replace (S i + k)%nat with (i + S k)%nat by lia. now apply (H (S k)).
Qed.

Lemma billing_data_reversed_window customers_df readings_df overdue start_date end_date :
  valid_date (dt_date start_date) ->
  dt_ltb end_date start_date = true ->
  billing_data customers_df readings_df overdue start_date end_date = Ok [].
Proof.
  intros Hv Hlt. unfold billing_data.
  rewrite for_emit_nothing; [reflexivity |].
  intros i cid ck _. unfold invoices_of_customer.
  apply for_emit_nothing. intros j k c _. unfold invoice_of_month.
  assert (dt_ltb end_date (dt_add_months start_date (Z.of_nat k)) = true) as ->;
    [| reflexivity].
  pose proof (add_months_not_before (dt_date start_date) (Z.of_nat k) Hv ltac:(lia)) as Hmono.
  unfold dt_add_months.
  generalize dependent (add_months (dt_date start_date) (Z.of_nat k)). intros d Hmono.
  clear - Hlt Hmono.
  assert (date_leb (dt_date start_date) d = true) as Hle
    by (unfold date_leb; destruct (date_compare (dt_date start_date) d); simpl; congruence).
  clear Hmono. lex_arith.
Qed.

End WithOracle.
End GeneratorFacts.

(** ** The concrete instance satisfies the interfaces *)

Module InstanceFacts.
Import Generator Instance.

Lemma round_half_even_nonneg x : 0 <= x -> 0 <= round_half_even x 100.
Proof.
  intros Hx. unfold round_half_even.
  assert (0 <= x / 100) by (apply Z.div_pos; lia).
  destruct (2 * (x mod 100) <? 100); [lia |].
  destruct (100 <? 2 * (x mod 100)); [lia |].
  destruct (Z.even (x / 100)); lia.
Qed.

#[global] Instance decimal4_laws : Float64Laws decimal4.
Proof.
  split; try reflexivity.
  intros x Hx. simpl in *. apply Z.leb_le, round_half_even_nonneg.
  apply Z.ltb_lt in Hx. lia.
Qed.

Lemma fixed_oracle_ok : oracle_ok fixed_oracle.
Proof.
  split; simpl.
  - intros pop k Hk. now apply length_take_le.
  - intros pop k x Hx. apply elem_of_take in Hx as (i & Hi & _).
    eapply list_elem_of_lookup_2; eauto.
  - intros pop k Hnd. eapply sublist_NoDup; [exact Hnd | apply sublist_take].
  - reflexivity.
  - lia.
  - lia.
Qed.

Lemma commercial_oracle_ok : oracle_ok commercial_oracle.
Proof. destruct fixed_oracle_ok. split; assumption. Qed.

End InstanceFacts.

(** ** The claims of the specification *)

Module Claims.
Import Generator CalendarFacts PyFacts GeneratorFacts.

Section Readings.
Context {F : Float64} (o : Oracle).

(** C10.  Every meter reading carries the meter id ["MTR-"] followed by the
    customer's numeric id plus 12345, the numeric id being the number read
    back from the customer id; so two readings have the same meter id
    exactly when they belong to the same customer. *)
Theorem C10_meter_id_of_customer n contracts_df anomaly start_date end_date :
  exists rows,
    readings_data o (customers_data o n) contracts_df anomaly start_date end_date
    = Ok rows /\
    (forall r, r ∈ rows ->
       exists i, (i < Z.to_nat n)%nat /\
         R_CUSTOMER_ID r = customer_id i /\
         index (split_on "_" (R_CUSTOMER_ID r)) 1 ≫= py_int = Ok (1001 + N.of_nat i)%N /\
         R_METER_ID r = "MTR-" +:+ str_of_N (1001 + N.of_nat i + 12345)) /\
    (forall r1 r2, r1 ∈ rows -> r2 ∈ rows ->
       (R_CUSTOMER_ID r1 = R_CUSTOMER_ID r2 <-> R_METER_ID r1 = R_METER_ID r2)).
Proof.
  destruct (readings_data_blocks o n contracts_df anomaly start_date end_date)
    as (pieces & Hrun & Hblocks).
  exists (mjoin pieces). split; [exact Hrun |]. split.
  - intros r Hr.
    destruct (readings_blocks_elem o _ _ _ _ _ _ _ Hblocks Hr)
      as (i & t & j & day & c & Hi & _ & ->).
    exists i. unfold reading_row; cbn [R_CUSTOMER_ID R_METER_ID].
    repeat split; auto.
    rewrite split_customer_id. simpl. apply py_int_zfill.
  - intros r1 r2 H1 H2.
    destruct (readings_blocks_elem o _ _ _ _ _ _ _ Hblocks H1)
      as (i1 & t1 & j1 & day1 & c1 & _ & _ & ->).
    destruct (readings_blocks_elem o _ _ _ _ _ _ _ Hblocks H2)
      as (i2 & t2 & j2 & day2 & c2 & _ & _ & ->).
    unfold reading_row; cbn [R_CUSTOMER_ID R_METER_ID]. split.
    + intros E. apply customer_id_inj in E. now subst.
    + intros E. apply meter_id_of_inj in E. f_equal. lia.
Qed.

Lemma kw_generation_zero `{!Float64Laws F} solar anomaly i cid meter t j day c :
  bool_decide (cid ∈ solar) && summer_month day = false ->
  R_KW_GENERATION (reading_row o solar anomaly i cid meter t j day c) = fzero.
Proof.
  intros Hb. unfold reading_row; cbn [R_KW_GENERATION]. rewrite Hb.
  unfold py_max0. rewrite fltb_zero_zero. apply py_round2_zero.
Qed.

Lemma py_round2_max0_nonneg `{!Float64Laws F} x :
  fleb fzero (py_round2 (py_max0 x)) = true.
Proof.
  unfold py_max0. destruct (fltb fzero x) eqn:E.
  - now apply py_round2_pos.
  - rewrite py_round2_zero. apply fleb_zero_zero.
Qed.

(** C8.  A meter reading with positive generation belongs to a customer who
    holds a solar-lease contract and falls in June, July or August. *)
Theorem C8_generation_needs_solar_and_summer `{!Float64Laws F}
    n contracts_df anomaly start_date end_date :
  exists rows,
    readings_data o (customers_data o n) contracts_df anomaly start_date end_date
    = Ok rows /\
    forall r, r ∈ rows -> fltb fzero (R_KW_GENERATION r) = true ->
      (exists k, k ∈ contracts_df /\ K_CUSTOMER_ID k = R_CUSTOMER_ID r
                 /\ K_SERVICE_TYPE k = SolarPanelLease)
      /\ month (dt_date (R_TIMESTAMP r)) ∈ [6; 7; 8].
Proof.
  destruct (readings_data_blocks o n contracts_df anomaly start_date end_date)
    as (pieces & Hrun & Hblocks).
  exists (mjoin pieces). split; [exact Hrun |].
  intros r Hr Hpos.
  destruct (readings_blocks_elem o _ _ _ _ _ _ _ Hblocks Hr)
    as (i & t & j & day & c & _ & _ & ->).
  destruct (bool_decide (customer_id i ∈ solar_customers contracts_df) && summer_month day)
    eqn:Hb.
  - apply andb_true_iff in Hb as [Hsolar Hsummer].
    apply bool_decide_eq_true in Hsolar. apply bool_decide_eq_true in Hsummer.
    unfold reading_row; cbn [R_CUSTOMER_ID R_TIMESTAMP]. split; [| exact Hsummer].
    unfold solar_customers in Hsolar.
    apply elem_of_list_to_set, list_elem_of_fmap in Hsolar as (k & Hk & Hin).
    apply list_elem_of_filter in Hin as [Hs Hin]. exists k. auto.
  - rewrite (kw_generation_zero _ _ _ _ _ _ _ _ _ Hb), fltb_zero_zero in Hpos.
    discriminate.
Qed.

(** C7 (amended).  For every customer and every calendar day [d] such that
    the instant "[d] at the time of day of start_date" lies in
    [start_date, end_date], exactly one meter reading is generated for that
    customer and day.  When the time of day of start_date is not later than
    that of end_date (both at midnight, say) these are all the calendar days
    from the day of start_date to the day of end_date.  Consumption and
    generation of every reading are at least zero. *)
Theorem C7_one_reading_per_customer_and_day `{!Float64Laws F}
    n contracts_df anomaly start_date end_date :
  valid_date (dt_date start_date) -> valid_date (dt_date end_date) ->
  exists rows,
    readings_data o (customers_data o n) contracts_df anomaly start_date end_date
    = Ok rows /\
    (forall c d, c ∈ customers_data o n -> valid_date d ->
       dt_leb start_date (mkDatetime d (dt_time start_date)) = true ->
       dt_leb (mkDatetime d (dt_time start_date)) end_date = true ->
       length (filter (fun r => R_CUSTOMER_ID r = C_CUSTOMER_ID c
                                /\ dt_date (R_TIMESTAMP r) = d) rows) = 1%nat) /\
    (time_leb (dt_time start_date) (dt_time end_date) = true ->
     forall c d, c ∈ customers_data o n -> valid_date d ->
       date_leb (dt_date start_date) d = true -> date_leb d (dt_date end_date) = true ->
       length (filter (fun r => R_CUSTOMER_ID r = C_CUSTOMER_ID c
                                /\ dt_date (R_TIMESTAMP r) = d) rows) = 1%nat) /\
    (forall r, r ∈ rows ->
       fleb fzero (R_KWH_CONSUMPTION r) = true /\ fleb fzero (R_KW_GENERATION r) = true).
Proof.
  intros Hs He.
  destruct (readings_data_blocks o n contracts_df anomaly start_date end_date)
    as (pieces & Hrun & Hblocks).
  exists (mjoin pieces). split; [exact Hrun |].
  assert (forall c d, c ∈ customers_data o n -> valid_date d ->
            dt_leb start_date (mkDatetime d (dt_time start_date)) = true ->
            dt_leb (mkDatetime d (dt_time start_date)) end_date = true ->
            length (filter (fun r => R_CUSTOMER_ID r = C_CUSTOMER_ID c
                                     /\ dt_date (R_TIMESTAMP r) = d) (mjoin pieces)) = 1%nat)
    as Hcount.
  { intros c d Hc Hd H1 H2.
    apply list_elem_of_lookup in Hc as [i0 Hc].
    apply customers_data_lookup in Hc as [-> Hi0].
    destruct Hblocks as [Hlen Hblocks].
    destruct (Hblocks i0 Hi0) as (t0 & c0 & Hpiece).
    rewrite (filter_concat_unique _ pieces i0 _ Hpiece).
    - rewrite (filter_imap_length _ (fun day => dt_date day = d)).
      + apply filter_key_unique.
        * now apply date_range_dates_NoDup.
        * exists (mkDatetime d (dt_time start_date)). split; [| reflexivity].
          now apply date_range_has_day.
      + intros j day. unfold reading_row; cbn [R_CUSTOMER_ID R_TIMESTAMP]. simpl. tauto.
    - intros k rs Hk Hne.
      assert (k < Z.to_nat n)%nat as Hlt by (rewrite <- Hlen; eapply lookup_lt_Some; eauto).
      destruct (Hblocks k Hlt) as (t & ck & Hpk). rewrite Hpk in Hk. injection Hk as <-.
      apply filter_none. intros r Hr [Hcid _].
      apply elem_of_lookup_imap in Hr as (j & day & -> & _).
      unfold reading_row in Hcid; cbn [R_CUSTOMER_ID] in Hcid.
      apply customer_id_inj in Hcid. lia. }
  split; [exact Hcount |]. split.
  - intros Htime c d Hc Hd H1 H2. apply Hcount; auto.
    + clear - H1. destruct start_date as [sd st]. simpl in *.
      lex_arith.
    + clear - H2 Htime. destruct start_date as [sd st], end_date as [ed et]. simpl in *.
      lex_arith.
  - intros r Hr.
    destruct (readings_blocks_elem o _ _ _ _ _ _ _ Hblocks Hr)
      as (i & t & j & day & c & _ & _ & ->).
    unfold reading_row; cbn [R_KWH_CONSUMPTION R_KW_GENERATION].
    split; apply py_round2_max0_nonneg.
Qed.

End Readings.

Section Billing.
Context {F : Float64}.

(** C3 (amended).  For every invoice, CONSUMPTION_PERIOD_START is the first
    day of the period's month, the month reached by some [k] below
    [num_months] months from start_date, and is not clamped to start_date:
    for a valid start_date it is earlier than the day of start_date exactly
    when the invoice is the one of start_date's own month ([k = 0]) and
    start_date is not the first of its month; the invoices of later months
    do not start before start_date.  CONSUMPTION_PERIOD_END is the earlier
    of the last day of that month and the day of end_date. *)
Theorem C3_consumption_period_of_invoice
    customers_df readings_df overdue start_date end_date :
  readings_df <> [] ->
  exists rows,
    billing_data customers_df readings_df overdue start_date end_date = Ok rows /\
    forall inv, inv ∈ rows ->
      (exists k : nat,
         Z.of_nat k < num_months start_date end_date /\
         I_CONSUMPTION_PERIOD_START inv
         = first_of_month (add_months (dt_date start_date) (Z.of_nat k)) /\
         (valid_date (dt_date start_date) ->
          (date_ltb (I_CONSUMPTION_PERIOD_START inv) (dt_date start_date) = true
           <-> k = 0%nat /\ day (dt_date start_date) <> 1))) /\
      day (I_CONSUMPTION_PERIOD_START inv) = 1 /\
      I_CONSUMPTION_PERIOD_END inv
      = date_min (last_of_month (I_CONSUMPTION_PERIOD_START inv)) (dt_date end_date).
Proof.
  intros Hne.
  destruct (billing_data_total customers_df readings_df overdue start_date end_date Hne)
    as [rows Hrows].
  exists rows. split; [exact Hrows |]. intros inv Hin.
  destruct (billing_data_elem _ _ _ _ _ _ _ Hrows Hin)
    as (i & cust & k & c & rs & c' & _ & Hk & Hbody & Hinv).
  destruct (invoice_of_month_inv _ _ _ _ _ _ _ _ _ _ Hbody Hinv)
    as (_ & _ & _ & _ & _ & _ & _ & Hps & Hpe).
  rewrite Hps, Hpe. split; [| split].
  - exists k. split; [exact Hk |]. split; [reflexivity |].
    intros Hv. now apply period_start_before_start.
  - reflexivity.
  - rewrite dt_min_date. f_equal.
    change (dt_date (dt_add_days (dt_add_months (dt_first_of_month
              (dt_add_months start_date (Z.of_nat k))) 1) (-1)))
      with (add_days (add_months (first_of_month
              (add_months (dt_date start_date) (Z.of_nat k))) 1) (-1)).
    rewrite last_day_of_period by apply add_months_month_range.
    reflexivity.
Qed.

(** What the billing loop writes in the date and status columns: the
    invoice is dated five days after the period end and due fourteen days
    later; it is pending in the month of end_date, else overdue for an
    overdue customer in August, else paid. *)
Lemma invoice_dates_and_status customers_df readings_df overdue start_date end_date rows :
  billing_data customers_df readings_df overdue start_date end_date = Ok rows ->
  forall inv, inv ∈ rows ->
    I_INVOICE_DATE inv = add_days (I_CONSUMPTION_PERIOD_END inv) 5 /\
    I_DUE_DATE inv = add_days (I_INVOICE_DATE inv) 14 /\
    I_PAYMENT_STATUS inv =
      (if (month (I_CONSUMPTION_PERIOD_START inv) =? month (dt_date end_date))
          && (year (I_CONSUMPTION_PERIOD_START inv) =? year (dt_date end_date))
       then Pending
       else if bool_decide (I_CUSTOMER_ID inv ∈ overdue)
               && (month (I_CONSUMPTION_PERIOD_START inv) =? 8)
       then Overdue else Paid).
Proof.
  intros Hrows inv Hin.
  destruct (billing_data_elem _ _ _ _ _ _ _ Hrows Hin)
    as (i & cust & k & c & rs & c' & _ & Hk & Hbody & Hinv).
  destruct (invoice_of_month_inv _ _ _ _ _ _ _ _ _ _ Hbody Hinv)
    as (_ & _ & Hcid & _ & Hdate & Hdue & Hstatus & Hps & Hpe).
  split; [rewrite Hpe; exact Hdate |]. split; [exact Hdue |].
  rewrite Hstatus, Hps, Hcid. reflexivity.
Qed.

(** The amount the billing loop writes: the sum runs over the readings the
    timestamp mask keeps. *)
Lemma amount_due_of_billed_readings
    customers_df readings_df overdue start_date end_date rows :
  billing_data customers_df readings_df overdue start_date end_date = Ok rows ->
  forall inv, inv ∈ rows ->
    exists k : nat,
      let ps := dt_first_of_month (dt_add_months start_date (Z.of_nat k)) in
      let pe := dt_min (dt_add_days (dt_add_months ps 1) (-1)) end_date in
      I_AMOUNT_DUE inv
      = np_round2 (fadd (fmul (fsum (R_KWH_CONSUMPTION <$>
                                 billed_readings readings_df (I_CUSTOMER_ID inv) ps pe))
                              TARIFF_RATE_KWH) BASE_MONTHLY_FEE).
Proof.
  intros Hrows inv Hin.
  destruct (billing_data_elem _ _ _ _ _ _ _ Hrows Hin)
    as (i & cust & k & c & rs & c' & _ & Hk & Hbody & Hinv).
  destruct (invoice_of_month_inv _ _ _ _ _ _ _ _ _ _ Hbody Hinv)
    as (_ & _ & Hcid & Hamount & _).
  exists k. simpl. rewrite Hcid. exact Hamount.
Qed.

End Billing.

Section Cases.
Context {F : Float64} (o : Oracle).

(** C6.  A support case of an anomaly customer is dated anomaly_date plus
    15 to 20 days, whether or not the customer is also overdue; a case of a
    customer who is overdue and not anomalous is dated anomaly_date plus 30
    to 35 days. *)
Theorem C6_case_dates_by_branch (Hok : oracle_ok o) sampled anomaly overdue :
  exists rows,
    cases_data o sampled anomaly overdue = Ok rows /\
    forall x, x ∈ rows ->
      (S_CUSTOMER_ID x ∈ anomaly ->
         exists off, 15 <= off <= 20 /\
           S_CASE_DATE x = add_days (dt_date anomaly_spike_date) off) /\
      (S_CUSTOMER_ID x ∉ anomaly -> S_CUSTOMER_ID x ∈ overdue ->
         exists off, 30 <= off <= 35 /\
           S_CASE_DATE x = add_days (dt_date anomaly_spike_date) off).
Proof.
  destruct (cases_data_elem o sampled anomaly overdue) as (rows & Hrun & Helem).
  exists rows. split; [exact Hrun |]. intros x Hx.
  destruct (Helem x Hx) as (i & cid & j & c & _ & ->).
  pose proof (case_offset_range o Hok i j) as Hoff.
  pose proof (case_row_by_branch o anomaly overdue i cid j c) as Hrow.
  rewrite case_row_customer_id. cbv zeta in Hrow. split.
  - intros Ha. rewrite (branch_of_anomaly _ overdue _ Ha) in Hrow.
    destruct Hrow as (_ & _ & ->).
    exists (15 + case_offset_draw o i j). split; [lia | reflexivity].
  - intros Hna Hov. rewrite (branch_of_overdue _ _ _ Hna Hov) in Hrow.
    destruct Hrow as (_ & _ & ->).
    exists (30 + case_offset_draw o i j). split; [lia | reflexivity].
Qed.

(** The offsets drawn are 16 to 20 and 31 to 35: [randint(1, 5)] never
    returns zero. *)
Lemma case_offsets_exact (Hok : oracle_ok o) anomaly overdue i cid j c :
  match branch_of anomaly overdue cid with
  | AnomalyBranch =>
      exists off, 16 <= off <= 20 /\
        S_CASE_DATE (case_row o anomaly overdue i cid j c)
        = add_days (dt_date anomaly_spike_date) off
  | OverdueBranch =>
      exists off, 31 <= off <= 35 /\
        S_CASE_DATE (case_row o anomaly overdue i cid j c)
        = add_days (dt_date anomaly_spike_date) off
  | GeneralBranch =>
      S_CASE_DATE (case_row o anomaly overdue i cid j c) = fake_case_date o i j
  end.
Proof.
  pose proof (case_offset_range o Hok i j) as Hoff.
  pose proof (case_row_by_branch o anomaly overdue i cid j c) as Hrow.
  cbv zeta in Hrow.
  destruct (branch_of anomaly overdue cid); destruct Hrow as (_ & _ & ->).
  - exists (15 + case_offset_draw o i j). split; [lia | reflexivity].
  - exists (30 + case_offset_draw o i j). split; [lia | reflexivity].
  - reflexivity.
Qed.

(** C9.  The overdue set is the first seven customers of the anomaly set in
    its iteration order, all of them when there are fewer; it is a subset of
    the anomaly set, whose members are residential customers; and no
    support case is ever produced by the overdue branch. *)
Theorem C9_overdue_within_anomaly (Hok : oracle_ok o) customers_df sampled anomaly :
  anomaly_customers o customers_df = Ok anomaly ->
  let overdue := overdue_customers o anomaly in
  overdue ⊆ anomaly /\
  (forall cid, cid ∈ overdue <->
     exists i, (i < 7)%nat /\ set_iter o anomaly !! i = Some cid) /\
  size overdue = Nat.min 7 (size anomaly) /\
  ((size anomaly <= 7)%nat -> overdue = anomaly) /\
  (forall cid, cid ∈ overdue ->
     cid ∈ anomaly /\
     exists c, c ∈ customers_df /\ C_CUSTOMER_ID c = cid
               /\ C_CUSTOMER_TYPE c = Residential) /\
  (forall cid, branch_of anomaly overdue cid <> OverdueBranch) /\
  exists rows,
    cases_data o sampled anomaly overdue = Ok rows /\
    forall x, x ∈ rows -> S_DESCRIPTION x <> overdue_description.
Proof.
  intros Hanomaly overdue.
  pose proof (overdue_subset o Hok anomaly) as Hsub. fold overdue in Hsub.
  assert (forall cid, branch_of anomaly overdue cid <> OverdueBranch) as Hbranch.
  { intros cid. unfold branch_of.
    destruct (bool_decide (cid ∈ anomaly)) eqn:Ea; [discriminate |].
    destruct (bool_decide (cid ∈ overdue)) eqn:Eo; [| discriminate].
    apply bool_decide_eq_false in Ea. apply bool_decide_eq_true in Eo.
    exfalso. apply Ea, Hsub, Eo. }
  split; [exact Hsub |]. split; [apply overdue_customers_elem |].
  split; [now apply overdue_size |]. split; [now apply overdue_all_when_few |].
  split; [| split; [exact Hbranch |]].
  - intros cid Hcid. apply Hsub in Hcid. split; [exact Hcid |].
    rewrite anomaly_customers_ok in Hanomaly. injection Hanomaly as <-.
    apply elem_of_list_to_set in Hcid.
    apply (sample_incl o Hok) in Hcid.
    now apply all_residential_ids_elem.
  - destruct (cases_data_elem o sampled anomaly overdue) as (rows & Hrun & Helem).
    exists rows. split; [exact Hrun |]. intros x Hx.
    destruct (Helem x Hx) as (i & cid & j & c & _ & ->).
    pose proof (case_row_by_branch o anomaly overdue i cid j c) as Hrow.
    cbv zeta in Hrow. specialize (Hbranch cid).
    destruct (branch_of anomaly overdue cid); [| contradiction |];
      destruct Hrow as (_ & -> & _); discriminate.
Qed.

End Cases.

Section Pipeline.
Context {F : Float64} (o : Oracle).

(** With a customer count of zero or less the run stops at the first column
    access on the empty customers frame. *)
Lemma empty_customers_frame_raises inp :
  num_customers inp <= 0 ->
  generate_energy_provider_data o inp = Raise (KeyError "JOIN_DATE").
Proof.
  intros Hn. unfold generate_energy_provider_data.
  assert (customers_data o (num_customers inp) = []) as ->; [| reflexivity].
  apply length_zero_iff_nil. rewrite customers_data_length. lia.
Qed.

(** With end_date before start_date, and at least one customer, the run
    stops at the first column access on the empty billing frame. *)
Lemma empty_billing_frame_raises inp :
  0 < num_customers inp -> valid_date (dt_date (start_date inp)) ->
  dt_ltb (end_date inp) (start_date inp) = true ->
  generate_energy_provider_data o inp = Raise (KeyError "INVOICE_DATE").
Proof.
  intros Hn Hv Hlt. unfold generate_energy_provider_data.
  destruct (customers_data o (num_customers inp)) as [| c0 rest] eqn:Hc.
  { apply (f_equal length) in Hc. rewrite customers_data_length in Hc. simpl in Hc. lia. }
  cbn [frame_col]. rewrite <- Hc.
  change (mbind ?f (Ok ?a)) with (f a). cbv beta.
  destruct (contracts_data_nonempty o (customers_data o (num_customers inp)))
    as (contracts & Hk & Hkne); [rewrite Hc; discriminate |].
  rewrite Hk. change (mbind ?f (Ok ?a)) with (f a). cbv beta.
  destruct contracts as [| k0 krest] eqn:Hcontracts; [congruence |].
  cbn [frame_col]. rewrite <- Hcontracts.
  change (mbind ?f (Ok ?a)) with (f a). cbv beta.
  rewrite anomaly_customers_ok.
  change (mbind ?f (Ok ?a)) with (f a). cbv beta.
  set (ids := all_residential_ids (customers_data o (num_customers inp))).
  destruct (readings_data_blocks o (num_customers inp) contracts
              (list_to_set (sample_draw o ids (Nat.min 15 (length ids))))
              (start_date inp) (end_date inp)) as (pieces & Hr & _).
  rewrite Hr. change (mbind ?f (Ok ?a)) with (f a). cbv beta.
  rewrite (billing_data_reversed_window _ _ _ _ _ Hv Hlt).
  reflexivity.
Qed.

(** The anomaly sample never fails: its size is capped by the number of
    residential customers. *)
Lemma anomaly_sample_is_capped (Hok : oracle_ok o) n :
  exists anomaly,
    anomaly_customers o (customers_data o n) = Ok anomaly /\
    size anomaly = Nat.min 15 (length (all_residential_ids (customers_data o n))).
Proof.
  rewrite anomaly_customers_ok. eexists. split; [reflexivity |].
  set (ids := all_residential_ids (customers_data o n)).
  assert (NoDup ids) as Hnd.
  { unfold ids, all_residential_ids.
    apply NoDup_fmap_2_strong.
    - intros x y Hx Hy E.
      apply list_elem_of_filter in Hx as [_ Hx]. apply list_elem_of_filter in Hy as [_ Hy].
      apply list_elem_of_lookup in Hx as [i Hi]. apply list_elem_of_lookup in Hy as [j Hj].
      destruct (customers_data_lookup o _ _ _ Hi) as [Hxi _].
      destruct (customers_data_lookup o _ _ _ Hj) as [Hyj _].
      rewrite Hxi, Hyj in E. apply customer_id_inj in E. subst j. congruence.
    - apply NoDup_filter. apply (NoDup_fmap_1 C_CUSTOMER_ID).
      rewrite customers_data_ids. apply customer_ids_NoDup. }
  rewrite size_list_to_set by now apply (sample_NoDup o Hok).
  apply (sample_length o Hok). lia.
Qed.

End Pipeline.
End Claims.


(** ** The claims at concrete inputs *)

Module Examples.
Import Generator Instance InstanceFacts CalendarFacts.

(** C1, at the failing input.  One customer, September 2025, a reading of
    10.00 kWh at 12:30 on each of the thirty days: the invoice for
    1 to 30 September charges 0.35 x 290 + 5.50 = 107.00, the reading of
    30 September being left out of the sum, where the specification states
    0.35 x 300 + 5.50 = 110.50. *)
Theorem C1_amount_leaves_out_last_day :
  columns (fun t =>
             (length (FACT_SMART_METER_READINGS t),
              (fun inv => (I_CONSUMPTION_PERIOD_START inv, I_CONSUMPTION_PERIOD_END inv,
                           I_AMOUNT_DUE inv,
                           spec_amount_due (FACT_SMART_METER_READINGS t) inv))
                <$> FACT_BILLINGS t))
          september_run
  = Ok (30%nat, [(mkDate 2025 9 1, mkDate 2025 9 30, 1070000, 1105000)]).
Proof. vm_compute. reflexivity. Qed.

(** C2, at the failing input.  One customer, 20 January to 10 February
    2025: the only invoice is the one for January, although February
    intersects the window and has ten readings. *)
Theorem C2_last_month_without_invoice :
  columns (fun t =>
             ((fun inv => (I_CUSTOMER_ID inv, I_CONSUMPTION_PERIOD_START inv,
                           I_CONSUMPTION_PERIOD_END inv)) <$> FACT_BILLINGS t,
              length (filter (fun r => month (dt_date (R_TIMESTAMP r)) = 2)
                        (FACT_SMART_METER_READINGS t))))
          winter_run
  = Ok ([("CID_001001", mkDate 2025 1 1, mkDate 2025 1 31)], 10%nat).
Proof. vm_compute. reflexivity. Qed.

(** C4, at the failing input.  Two customers, 29 August to 2 September
    2025: each customer has one invoice, for August, which ends before
    end_date and is not pending. *)
Theorem C4_no_pending_invoice :
  columns (fun t =>
             (fun inv => (I_CUSTOMER_ID inv, I_CONSUMPTION_PERIOD_END inv,
                          I_PAYMENT_STATUS inv)) <$> FACT_BILLINGS t)
          late_summer_run
  = Ok [("CID_001001", mkDate 2025 8 31, Overdue);
        ("CID_001002", mkDate 2025 8 31, Overdue)].
Proof. vm_compute. reflexivity. Qed.

(** C3 as stated fails.  One customer, 15 to 31 August 2025: the invoice
    has CONSUMPTION_PERIOD_START 1 August, which is not the later of the
    first of the month and start_date (15 August) and is earlier than
    start_date. *)
Lemma C3_period_start_before_start_date :
  columns (fun t =>
             (fun inv =>
                (I_CONSUMPTION_PERIOD_START inv,
                 date_max (first_of_month (I_CONSUMPTION_PERIOD_START inv)) (mkDate 2025 8 15),
                 date_ltb (I_CONSUMPTION_PERIOD_START inv) (mkDate 2025 8 15)))
               <$> FACT_BILLINGS t)
          mid_august_run
  = Ok [(mkDate 2025 8 1, mkDate 2025 8 15, true)].
Proof. vm_compute. reflexivity. Qed.

(** Only the invoice of start_date's own month starts before start_date:
    one customer, 15 August to 31 October 2025. *)
Example later_months_start_after_start_date :
  (billing_data (customers_data fixed_oracle 1) [one_reading] ∅
     (datetime_ymd 2025 8 15) (datetime_ymd 2025 10 31)
   ≫= fun rows : list invoice =>
        Ok ((fun inv => (I_CONSUMPTION_PERIOD_START inv,
                         date_ltb (I_CONSUMPTION_PERIOD_START inv) (mkDate 2025 8 15)))
              <$> rows))
  = Ok [(mkDate 2025 8 1, true); (mkDate 2025 9 1, false); (mkDate 2025 10 1, false)].
Proof. vm_compute. reflexivity. Qed.

(** C5 as stated fails.  Two customers, both residential, fewer than the
    fifteen of the anomaly sample: the run ends without error and writes
    all five tables. *)
Lemma C5_few_residential_customers_accepted :
  columns (fun t =>
             (length (all_residential_ids (DIM_CUSTOMERS t)),
              length (FACT_CONTRACTS t), length (FACT_SMART_METER_READINGS t),
              length (FACT_BILLINGS t), length (FACT_SUPPORT_CASES t)))
          late_summer_run
  = Ok (2%nat, 3%nat, 10%nat, 2%nat, 2%nat).
Proof. vm_compute. reflexivity. Qed.

(** C7 as stated fails.  With start_date 1 August 10:00 and end_date
    3 August 09:00, the calendar day 3 August lies between the day of
    start_date and the day of end_date, and the customer has no reading on
    it. *)
Lemma C7_no_reading_on_last_day :
  (rows ← readings_data fixed_oracle (customers_data fixed_oracle 1) [] ∅
            morning_start earlier_end;
   Ok (date_leb (dt_date morning_start) (mkDate 2025 8 3)
       && date_leb (mkDate 2025 8 3) (dt_date earlier_end),
       dt_date <$> (R_TIMESTAMP <$> rows),
       length (filter (fun r => R_CUSTOMER_ID r = customer_id 0
                                /\ dt_date (R_TIMESTAMP r) = mkDate 2025 8 3) rows)))
  = Ok (true, [mkDate 2025 8 1; mkDate 2025 8 2], 0%nat).
Proof. vm_compute. reflexivity. Qed.

(** Both error paths of C5, run: no customers, and a reversed window. *)
Example no_customers_raises :
  columns (fun _ => tt) (run 0 (datetime_ymd 2025 8 1) (datetime_ymd 2025 8 31))
  = Raise (KeyError "JOIN_DATE").
Proof. vm_compute. reflexivity. Qed.

Example reversed_window_raises :
  columns (fun _ => tt) (run 3 (datetime_ymd 2025 8 31) (datetime_ymd 2025 8 1))
  = Raise (KeyError "INVOICE_DATE").
Proof. vm_compute. reflexivity. Qed.

(** Positive generation does occur: in the run of 29 August to 2 September
    the solar customer generates on the three days of August. *)
Example generation_in_august_only :
  columns (fun t =>
             (fun r => (R_CUSTOMER_ID r, dt_date (R_TIMESTAMP r)))
               <$> filter (fun r => fltb fzero (R_KW_GENERATION r) = true)
                     (FACT_SMART_METER_READINGS t))
          late_summer_run
  = Ok [("CID_001001", mkDate 2025 8 29); ("CID_001001", mkDate 2025 8 30);
        ("CID_001001", mkDate 2025 8 31)].
Proof. vm_compute. reflexivity. Qed.

(** The theorems with hypotheses, applied at concrete inputs. *)

Lemma valid_2025_08_01 : valid_date (mkDate 2025 8 1).
Proof. apply valid_dateb_spec. reflexivity. Qed.

Lemma valid_2025_08_31 : valid_date (mkDate 2025 8 31).
Proof. apply valid_dateb_spec. reflexivity. Qed.

(** C3 at one customer, one reading, 15 August to 30 September 2025. *)
Lemma C3_witness :
  [one_reading] <> [] /\ valid_date (mkDate 2025 8 15) /\
  exists rows,
    billing_data (customers_data fixed_oracle 1) [one_reading] ∅
      (datetime_ymd 2025 8 15) (datetime_ymd 2025 9 30) = Ok rows /\
    forall inv, inv ∈ rows ->
      (exists k : nat,
         Z.of_nat k < num_months (datetime_ymd 2025 8 15) (datetime_ymd 2025 9 30) /\
         I_CONSUMPTION_PERIOD_START inv
         = first_of_month (add_months (mkDate 2025 8 15) (Z.of_nat k)) /\
         (valid_date (mkDate 2025 8 15) ->
          (date_ltb (I_CONSUMPTION_PERIOD_START inv) (mkDate 2025 8 15) = true
           <-> k = 0%nat /\ day (mkDate 2025 8 15) <> 1))) /\
      day (I_CONSUMPTION_PERIOD_START inv) = 1 /\
      I_CONSUMPTION_PERIOD_END inv
      = date_min (last_of_month (I_CONSUMPTION_PERIOD_START inv)) (mkDate 2025 9 30).
Proof.
  split; [discriminate |]. split; [apply valid_dateb_spec; reflexivity |].
  apply (Claims.C3_consumption_period_of_invoice
           (customers_data fixed_oracle 1) [one_reading] ∅
           (datetime_ymd 2025 8 15) (datetime_ymd 2025 9 30)).
  discriminate.
Defined.

(** C6 at one anomaly customer, one overdue customer and one sampled customer. *)
Lemma C6_witness :
  oracle_ok fixed_oracle /\
  exists rows,
    cases_data fixed_oracle ["CID_001003"] {["CID_001001"]} {["CID_001002"]} = Ok rows /\
    forall x, x ∈ rows ->
      (S_CUSTOMER_ID x ∈ ({["CID_001001"]} : gset string) ->
         exists off, 15 <= off <= 20 /\
           S_CASE_DATE x = add_days (dt_date anomaly_spike_date) off) /\
      (S_CUSTOMER_ID x ∉ ({["CID_001001"]} : gset string) ->
       S_CUSTOMER_ID x ∈ ({["CID_001002"]} : gset string) ->
         exists off, 30 <= off <= 35 /\
           S_CASE_DATE x = add_days (dt_date anomaly_spike_date) off).
Proof.
  split; [exact fixed_oracle_ok |].
  exact (Claims.C6_case_dates_by_branch fixed_oracle fixed_oracle_ok
           ["CID_001003"] {["CID_001001"]} {["CID_001002"]}).
Defined.

(** C7 at two customers, August 2025, both bounds at midnight. *)
Lemma C7_witness :
  Float64Laws decimal4 /\ valid_date (mkDate 2025 8 1) /\ valid_date (mkDate 2025 8 31) /\
  exists rows,
    readings_data fixed_oracle (customers_data fixed_oracle 2) [] ∅
      (datetime_ymd 2025 8 1) (datetime_ymd 2025 8 31) = Ok rows /\
    (forall c d, c ∈ customers_data fixed_oracle 2 -> valid_date d ->
       dt_leb (datetime_ymd 2025 8 1) (mkDatetime d midnight) = true ->
       dt_leb (mkDatetime d midnight) (datetime_ymd 2025 8 31) = true ->
       length (filter (fun r => R_CUSTOMER_ID r = C_CUSTOMER_ID c
                                /\ dt_date (R_TIMESTAMP r) = d) rows) = 1%nat) /\
    (time_leb midnight midnight = true ->
     forall c d, c ∈ customers_data fixed_oracle 2 -> valid_date d ->
       date_leb (mkDate 2025 8 1) d = true -> date_leb d (mkDate 2025 8 31) = true ->
       length (filter (fun r => R_CUSTOMER_ID r = C_CUSTOMER_ID c
                                /\ dt_date (R_TIMESTAMP r) = d) rows) = 1%nat) /\
    (forall r, r ∈ rows ->
       fleb fzero (R_KWH_CONSUMPTION r) = true /\ fleb fzero (R_KW_GENERATION r) = true).
Proof.
  split; [exact decimal4_laws |].
  split; [exact valid_2025_08_01 |]. split; [exact valid_2025_08_31 |].
  exact (Claims.C7_one_reading_per_customer_and_day fixed_oracle 2 [] ∅
           (datetime_ymd 2025 8 1) (datetime_ymd 2025 8 31)
           valid_2025_08_01 valid_2025_08_31).
Defined.

(** C8 at two customers, the first one leasing solar panels, August 2025. *)
Lemma C8_witness :
  Float64Laws decimal4 /\
  exists rows,
    readings_data fixed_oracle (customers_data fixed_oracle 2) two_customers_contracts ∅
      (datetime_ymd 2025 8 1) (datetime_ymd 2025 8 31) = Ok rows /\
    forall r, r ∈ rows -> fltb fzero (R_KW_GENERATION r) = true ->
      (exists k, k ∈ two_customers_contracts /\ K_CUSTOMER_ID k = R_CUSTOMER_ID r
                 /\ K_SERVICE_TYPE k = SolarPanelLease)
      /\ month (dt_date (R_TIMESTAMP r)) ∈ [6; 7; 8].
Proof.
  split; [exact decimal4_laws |].
  exact (@Claims.C8_generation_needs_solar_and_summer decimal4 fixed_oracle decimal4_laws
           2 two_customers_contracts ∅ (datetime_ymd 2025 8 1) (datetime_ymd 2025 8 31)).
Defined.

(** C9 at two residential customers. *)
Lemma C9_witness :
  oracle_ok fixed_oracle /\
  anomaly_customers fixed_oracle (customers_data fixed_oracle 2)
  = Ok (list_to_set (sample_draw fixed_oracle
                       (all_residential_ids (customers_data fixed_oracle 2))
                       (Nat.min 15 (length (all_residential_ids
                                              (customers_data fixed_oracle 2)))))) /\
  let anomaly : gset string :=
    list_to_set (sample_draw fixed_oracle
                   (all_residential_ids (customers_data fixed_oracle 2))
                   (Nat.min 15 (length (all_residential_ids
                                          (customers_data fixed_oracle 2))))) in
  let overdue := overdue_customers fixed_oracle anomaly in
  overdue ⊆ anomaly /\
  (forall cid, cid ∈ overdue <->
     exists i, (i < 7)%nat /\ set_iter fixed_oracle anomaly !! i = Some cid) /\
  size overdue = Nat.min 7 (size anomaly) /\
  ((size anomaly <= 7)%nat -> overdue = anomaly) /\
  (forall cid, cid ∈ overdue ->
     cid ∈ anomaly /\
     exists c, c ∈ customers_data fixed_oracle 2 /\ C_CUSTOMER_ID c = cid
               /\ C_CUSTOMER_TYPE c = Residential) /\
  (forall cid, branch_of anomaly overdue cid <> OverdueBranch) /\
  exists rows,
    cases_data fixed_oracle [] anomaly overdue = Ok rows /\
    forall x, x ∈ rows -> S_DESCRIPTION x <> overdue_description.
Proof.
  split; [exact fixed_oracle_ok |].
  split; [apply GeneratorFacts.anomaly_customers_ok |].
  exact (Claims.C9_overdue_within_anomaly fixed_oracle fixed_oracle_ok
           (customers_data fixed_oracle 2) [] _
           (GeneratorFacts.anomaly_customers_ok fixed_oracle (customers_data fixed_oracle 2))).
Defined.

End Examples.

(** ** Further facts about the loops and the tables *)

Module TableFacts.
Import Generator CalendarFacts PyFacts GeneratorFacts.

(** *** Row numbering *)

(** When every pass of the body numbers its rows from the counter it is
    given and returns the counter advanced by the rows it appended, the
    whole loop numbers its rows from the initial counter, without gaps. *)
Lemma for_emit_numbered {A Row} (body : nat -> A -> N -> result (list Row * N))
    (numbered : Row -> N -> Prop) i (l : list A) c rows c' :
  (forall k a ck rs ck',
     l !! k = Some a -> body (i + k)%nat a ck = Ok (rs, ck') ->
     ck' = (ck + N.of_nat (length rs))%N /\
     forall j r, rs !! j = Some r -> numbered r (ck + N.of_nat j)%N) ->
  for_emit body i l c = Ok (rows, c') ->
  c' = (c + N.of_nat (length rows))%N /\
  forall j r, rows !! j = Some r -> numbered r (c + N.of_nat j)%N.
Proof.
  revert i c rows c'. induction l as [| a l IH]; intros i c rows c' Hbody Hrun.
  - apply Ok_inj, pair_equal_spec in Hrun as [<- <-]. split; [simpl; lia |].
    intros j r Hj. discriminate.
  - cbn [for_emit] in Hrun.
    apply bind_Ok in Hrun as ([rs1 c1] & H1 & Hrun).
    apply bind_Ok in Hrun as ([rs2 c2] & H2 & Hrun).
    apply Ok_inj, pair_equal_spec in Hrun as [<- <-]. cbn [fst snd] in *.
    destruct (Hbody 0%nat a c rs1 c1 eq_refl) as [Hc1 Hn1].
    { rewrite Nat.add_0_r. exact H1. }
    destruct (IH (S i) c1 rs2 c2) as [Hc2 Hn2]; [| exact H2 |].
    { intros k x ck rs ck' Hk Hb. apply (Hbody (S k) x ck rs ck' Hk).
      replace (i + S k)%nat with (S i + k)%nat by lia. exact Hb. }
    split; [rewrite length_app; lia |].
    intros j r Hj. apply lookup_app_Some in Hj as [Hj | [Hge Hj]].
    + now apply Hn1.
    + specialize (Hn2 _ _ Hj).
      replace (c + N.of_nat j)%N with (c1 + N.of_nat (j - length rs1))%N by lia.
      exact Hn2.
Qed.

Lemma for_emit_single_numbered {A Row} (f : nat -> A -> N -> Row)
    (numbered : Row -> N -> Prop) i (l : list A) c rows c' :
  (forall j a ck, numbered (f j a ck) ck) ->
  for_emit (fun j a ck => Ok ([f j a ck], (ck + 1)%N)) i l c = Ok (rows, c') ->
  c' = (c + N.of_nat (length rows))%N /\
  forall j r, rows !! j = Some r -> numbered r (c + N.of_nat j)%N.
Proof.
  intros Hf Hrun. eapply for_emit_numbered; [| exact Hrun].
  intros k a ck rs ck' _ Hb. apply Ok_inj, pair_equal_spec in Hb as [<- <-].
  split; [simpl; lia |].
  intros [| j] r Hj; [| discriminate]. injection Hj as <-.
  replace (ck + N.of_nat 0)%N with ck by lia. apply Hf.
Qed.

(** Rows numbered without gaps carry pairwise different numbers. *)
Lemma numbered_NoDup {Row} (key : Row -> string) (fmt : N -> string) (rows : list Row) c :
  (forall a b, fmt a = fmt b -> a = b) ->
  (forall j r, rows !! j = Some r -> key r = fmt (c + N.of_nat j)%N) ->
  NoDup (key <$> rows).
Proof.
  intros Hinj Hnum. apply NoDup_alt. intros j1 j2 x H1 H2.
  rewrite list_lookup_fmap in H1, H2.
  destruct (rows !! j1) as [r1 |] eqn:E1; [| discriminate].
  destruct (rows !! j2) as [r2 |] eqn:E2; [| discriminate].
  simpl in H1, H2. injection H1 as H1. injection H2 as H2.
  rewrite (Hnum _ _ E1) in H1. rewrite (Hnum _ _ E2) in H2.
  rewrite <- H2 in H1. apply Hinj in H1. lia.
Qed.

Lemma filter_all {A} (P : A -> Prop) `{!forall x, Decision (P x)} (l : list A) :
  (forall x, x ∈ l -> P x) -> filter P l = l.
Proof.
  induction l as [| a l IH]; intros Hl; [reflexivity |].
  rewrite filter_cons, decide_True by (apply Hl; left).
  f_equal. apply IH. intros x Hx. apply Hl. now right.
Qed.

(** A table made of one block of rows per key, the keys pairwise different:
    the rows carrying one key are the rows of its block. *)
Lemma filter_block_of_key {Row} (key : Row -> string)
    (pieces : list (list Row)) (ids : list string) i0 id0 p0 :
  NoDup ids -> length pieces = length ids ->
  (forall i p id r, pieces !! i = Some p -> ids !! i = Some id -> r ∈ p -> key r = id) ->
  ids !! i0 = Some id0 -> pieces !! i0 = Some p0 ->
  filter (fun r => key r = id0) (mjoin pieces) = p0.
Proof.
  intros Hnd Hlen Hkey Hid0 Hp0.
  rewrite (filter_concat_unique _ pieces i0 p0 Hp0).
  - apply filter_all. intros r Hr. eapply Hkey; eauto.
  - intros i p Hi Hne. apply filter_none. intros r Hr Hk.
    assert (i < length ids)%nat as Hlt by (rewrite <- Hlen; eapply lookup_lt_Some; eauto).
    destruct (lookup_lt_is_Some_2 _ _ Hlt) as [id Hid].
    rewrite (Hkey i p id r Hi Hid Hr) in Hk. subst id.
    apply Hne. eapply NoDup_lookup; eauto.
Qed.

Lemma prefixed_zfill_inj prefix w a b :
  prefix +:+ zfill w (str_of_N a) = prefix +:+ zfill w (str_of_N b) -> a = b.
Proof. intros E. now apply append_inj_r, zfill_str_inj in E. Qed.

Lemma length_mjoin_uniform {A} (pieces : list (list A)) m :
  (forall p, p ∈ pieces -> length p = m) ->
  length (mjoin pieces) = (length pieces * m)%nat.
Proof.
  induction pieces as [| p pieces IH]; intros Hm; [reflexivity |].
  simpl. rewrite length_app, (Hm p) by left.
  rewrite IH by (intros q Hq; apply Hm; now right). lia.
Qed.

(** *** The days of a date range *)

(** With the time of day of the start not later than that of the end, the
    range has one instant for each calendar day from the day of the start to
    the day of the end. *)
Lemma date_range_length s e :
  valid_date (dt_date s) -> valid_date (dt_date e) ->
  time_leb (dt_time s) (dt_time e) = true ->
  length (date_range s e)
  = Z.to_nat (toordinal (dt_date e) - toordinal (dt_date s) + 1).
Proof.
  intros Hs He Htime. unfold date_range.
  rewrite filter_all; [now rewrite length_fmap, length_seq |].
  intros t Ht. apply list_elem_of_fmap in Ht as (k & -> & Hk).
  apply elem_of_seq in Hk.
  apply dt_leb_spec. simpl.
  assert (valid_date (add_days (dt_date s) (Z.of_nat k))) as Hv
    by (apply add_days_valid; auto; lia).
  assert (toordinal (add_days (dt_date s) (Z.of_nat k)) <= toordinal (dt_date e)) as Hle
    by (rewrite toordinal_add_days by (auto; lia); lia).
  destruct (Z.eq_dec (toordinal (add_days (dt_date s) (Z.of_nat k))) (toordinal (dt_date e)))
    as [Heq | Hne].
  - right. split; [now apply toordinal_inj | exact Htime].
  - left. rewrite date_compare_toordinal by assumption. apply Z.compare_lt_iff. lia.
Qed.

Lemma date_range_start s e :
  valid_date (dt_date s) -> valid_date (dt_date e) -> dt_leb s e = true ->
  s ∈ date_range s e.
Proof.
  intros Hs He Hle.
  pose proof (date_range_has_day s e (dt_date s) Hs He Hs) as H.
  destruct s as [sd st]. simpl in *. apply H; [| exact Hle].
  clear. pose proof (time_compare_refl st). pose proof (date_compare_refl sd).
  unfold dt_leb, dt_compare. simpl. rewrite H0, H. reflexivity.
Qed.

(** *** Month offsets *)

Lemma add_months_fields d k :
  let d' := add_months d k in
  12 * year d' + month d' = 12 * year d + month d + k /\ 1 <= month d' <= 12.
Proof. unfold add_months. simpl. zdiv. Qed.

(** With start_date on the first day of a month, and its time of day not
    later than that of end_date, the guard of the month loop skips no
    offset below [num_months]. *)
Lemma aligned_start_never_skipped s e (k : nat) :
  valid_date (dt_date s) -> valid_date (dt_date e) ->
  day (dt_date s) = 1 -> time_leb (dt_time s) (dt_time e) = true ->
  Z.of_nat k < Generator.num_months s e ->
  dt_ltb e (dt_add_months s (Z.of_nat k)) = false.
Proof.
  intros (Hys & Hms & Hds) (Hye & Hme & Hde) Hday Htime Hk.
  unfold Generator.num_months in Hk.
  destruct (add_months_fields (dt_date s) (Z.of_nat k)) as [Hsum Hm].
  assert (day (add_months (dt_date s) (Z.of_nat k)) = 1) as Hd1.
  { unfold add_months. simpl. rewrite Hday.
    pose proof (days_in_month_bounds
                  ((year (dt_date s) * 12 + (month (dt_date s) - 1) + Z.of_nat k) / 12)
                  ((year (dt_date s) * 12 + (month (dt_date s) - 1) + Z.of_nat k) mod 12 + 1)).
    lia. }
  unfold dt_add_months.
  generalize dependent (add_months (dt_date s) (Z.of_nat k)). intros d Hsum Hm Hd1.
  destruct (dt_ltb e {| dt_date := d; dt_time := dt_time s |}) eqn:E; [| reflexivity].
  exfalso. clear Hds Hday. lex_arith.
Qed.

(** The last offset below [num_months] reaches the month of end_date. *)
Lemma last_offset_is_end_month s e (k : nat) :
  1 <= month (dt_date s) <= 12 -> 1 <= month (dt_date e) <= 12 ->
  Z.of_nat k = Generator.num_months s e - 1 ->
  first_of_month (add_months (dt_date s) (Z.of_nat k)) = first_of_month (dt_date e).
Proof.
  intros Hms Hme Hk. unfold Generator.num_months in Hk.
  destruct (add_months_fields (dt_date s) (Z.of_nat k)) as [Hsum Hm].
  cbv zeta in *. unfold first_of_month. f_equal; lia.
Qed.

Section WithOracle.
Context {F : Float64} (o : Oracle).

(** *** The contracts of one customer *)

Lemma contract_slots_loop_spec i cid slots services c :
  let r := contract_slots_loop o i cid slots services c in
  r.2 = (c + N.of_nat (length r.1))%N /\
  (forall k row, r.1 !! k = Some row ->
     K_CONTRACT_ID row = contract_id (c + N.of_nat k) /\
     K_CUSTOMER_ID row = cid /\ K_SERVICE_TYPE row ∉ services) /\
  NoDup (K_SERVICE_TYPE <$> r.1) /\
  (length r.1 <= length slots)%nat.
Proof.
  revert services c. induction slots as [| j rest IH]; intros services c.
  - simpl. split; [lia |]. split; [intros k row Hk; discriminate |].
    split; [constructor | lia].
  - cbn [contract_slots_loop].
    destruct (decide (service_type_draw o i j ∈ services)) as [Hin | Hnin].
    + destruct (IH services c) as (Hc & Hrows & Hnd & Hlen).
      cbv zeta. split; [exact Hc |]. split; [exact Hrows |].
      split; [exact Hnd | simpl; lia].
    + destruct (IH ({[service_type_draw o i j]} ∪ services) (c + 1)%N)
        as (Hc & Hrows & Hnd & Hlen).
      cbv zeta in *. cbn [fst snd].
      split; [rewrite Hc; simpl; lia |]. split; [| split].
      * intros [| k] row Hk; simpl in Hk.
        -- injection Hk as <-. cbn [K_CONTRACT_ID K_CUSTOMER_ID K_SERVICE_TYPE].
           split; [f_equal; lia |]. split; [reflexivity | exact Hnin].
        -- destruct (Hrows k row Hk) as (Hid & Hcid & Hs).
           split; [rewrite Hid; f_equal; lia |]. split; [exact Hcid |].
           intros Hx. apply Hs, elem_of_union_r, Hx.
      * rewrite fmap_cons. apply NoDup_cons. split; [| exact Hnd].
        cbn [K_SERVICE_TYPE]. intros Hdup.
        apply list_elem_of_fmap in Hdup as (row & Heq & Hrow).
        apply list_elem_of_lookup in Hrow as [k Hk].
        destruct (Hrows k row Hk) as (_ & _ & Hs). rewrite <- Heq in Hs.
        apply Hs, elem_of_union_l, elem_of_singleton. reflexivity.
      * simpl. lia.
Qed.

Lemma contract_slots_loop_nonempty i cid slots c :
  slots <> [] -> (contract_slots_loop o i cid slots ∅ c).1 <> [].
Proof.
  destruct slots as [| j rest]; [congruence |]. intros _.
  cbn [contract_slots_loop]. rewrite decide_False by set_solver. discriminate.
Qed.

Lemma contracts_of_customer_spec i cust c rs c' :
  contracts_of_customer o i cust c = Ok (rs, c') ->
  c' = (c + N.of_nat (length rs))%N /\
  (forall k row, rs !! k = Some row ->
     K_CONTRACT_ID row = contract_id (c + N.of_nat k)
     /\ K_CUSTOMER_ID row = C_CUSTOMER_ID cust) /\
  NoDup (K_SERVICE_TYPE <$> rs) /\
  (1 <= length rs <= 2)%nat.
Proof.
  unfold contracts_of_customer. intros H. apply Ok_inj in H.
  pose proof (contract_slots_loop_spec i (C_CUSTOMER_ID cust)
                (py_range (contract_slots (num_contracts_draw o i))) ∅ c) as Hspec.
  pose proof (contract_slots_loop_nonempty i (C_CUSTOMER_ID cust)
                (py_range (contract_slots (num_contracts_draw o i))) c) as Hne.
  rewrite H in Hspec, Hne. cbv zeta in Hspec. cbn [fst snd] in *.
  destruct Hspec as (Hc & Hrows & Hnd & Hlen).
  split; [exact Hc |]. split; [| split; [exact Hnd |]].
  - intros k row Hk. destruct (Hrows k row Hk) as (Hid & Hcid & _). auto.
  - split.
    + assert (rs <> []) as Hrs
        by (apply Hne; destruct (num_contracts_draw o i); discriminate).
      destruct rs; [congruence | simpl; lia].
    + etransitivity; [exact Hlen |].
      destruct (num_contracts_draw o i); simpl; lia.
Qed.

End WithOracle.
End TableFacts.

(** ** Further properties of the generator *)

Module Extras.
Import Generator CalendarFacts PyFacts GeneratorFacts TableFacts.

Section Tables.
Context {F : Float64} (o : Oracle).

(** Every row of the contracts table carries the id of a customer. *)
Lemma contracts_data_customers n rows :
  contracts_data o (customers_data o n) = Ok rows ->
  forall row, row ∈ rows ->
    exists c, c ∈ customers_data o n /\ K_CUSTOMER_ID row = C_CUSTOMER_ID c.
Proof.
  unfold contracts_data. intros Hrun.
  apply bind_Ok in Hrun as ([rows' c'] & Hloop & Hrows).
  apply Ok_inj in Hrows. cbn [fst] in Hrows. subst rows'.
  destruct (for_emit_inv _ _ _ _ _ _ Hloop) as (pieces & -> & Hlen & Hp).
  intros row Hrow. apply list_elem_of_join in Hrow as (p & Hrow & Hpin).
  apply list_elem_of_lookup in Hpin as [i Hi].
  assert (i < length (customers_data o n))%nat as Hlt
    by (rewrite <- Hlen; eapply lookup_lt_Some; eauto).
  destruct (lookup_lt_is_Some_2 _ _ Hlt) as [c Hc].
  exists c. split; [eapply list_elem_of_lookup_2; eauto |].
  destruct (Hp i c Hc) as (rs & ck & ck' & Hrs & Hb).
  assert (rs = p) by congruence. subst rs.
  destruct (contracts_of_customer_spec o _ _ _ _ _ Hb) as (_ & Hrows & _).
  apply list_elem_of_lookup in Hrow as [k Hk]. now destruct (Hrows k row Hk).
Qed.

(** The readings table has one row per customer and instant of the range. *)
Lemma readings_data_count n contracts_df anomaly start_date end_date :
  exists rows,
    readings_data o (customers_data o n) contracts_df anomaly start_date end_date
    = Ok rows /\
    length rows = (Z.to_nat n * length (date_range start_date end_date))%nat.
Proof.
  destruct (readings_data_blocks o n contracts_df anomaly start_date end_date)
    as (pieces & Hrun & Hlen & Hblocks).
  exists (mjoin pieces). split; [exact Hrun |].
  rewrite <- Hlen. apply length_mjoin_uniform. intros p Hp.
  apply list_elem_of_lookup in Hp as [i Hi].
  assert (i < Z.to_nat n)%nat as Hlt by (rewrite <- Hlen; eapply lookup_lt_Some; eauto).
  destruct (Hblocks i Hlt) as (t & c & Hpiece).
  rewrite Hpiece in Hi. injection Hi as <-. apply length_imap.
Qed.

(** X1.  The customers table has one row per index below the customer
    count (none when the count is zero or negative); row [i] carries the id
    ["CID_"] followed by 1001 + i zero-padded to six digits, from which
    [int(id.split('_')[1])] reads 1001 + i back, and the ids are pairwise
    different. *)
Theorem X1_customer_ids n :
  length (customers_data o n) = Z.to_nat n /\
  (forall i c, customers_data o n !! i = Some c ->
     C_CUSTOMER_ID c = "CID_" +:+ zfill 6 (str_of_N (1001 + N.of_nat i)) /\
     index (split_on "_" (C_CUSTOMER_ID c)) 1 ≫= py_int = Ok (1001 + N.of_nat i)%N /\
     C_CUSTOMER_TYPE c = customer_type_draw o i) /\
  NoDup (C_CUSTOMER_ID <$> customers_data o n) /\
  C_CUSTOMER_ID <$> customers_data o n = customer_ids n.
Proof.
  split; [apply customers_data_length |]. split; [| split].
  - intros i c Hc. destruct (customers_data_lookup o _ _ _ Hc) as [Hid Hlt].
    rewrite Hid. split; [reflexivity |]. split.
    + rewrite split_customer_id. simpl. apply py_int_zfill.
    + unfold customers_data in Hc. apply list_lookup_imap_Some in Hc as (cid & _ & ->).
      reflexivity.
  - rewrite customers_data_ids. apply customer_ids_NoDup.
  - apply customers_data_ids.
Qed.

(** X2.  Every contract belongs to a customer of the customers table; each
    customer has one or two contracts, and two contracts of one customer
    never have the same service type. *)
Theorem X2_contracts_per_customer n :
  exists rows,
    contracts_data o (customers_data o n) = Ok rows /\
    (forall row, row ∈ rows ->
       exists c, c ∈ customers_data o n /\ K_CUSTOMER_ID row = C_CUSTOMER_ID c) /\
    (forall c, c ∈ customers_data o n ->
       (1 <= length (filter (fun row => K_CUSTOMER_ID row = C_CUSTOMER_ID c) rows) <= 2)%nat
       /\ NoDup (K_SERVICE_TYPE <$>
                   filter (fun row => K_CUSTOMER_ID row = C_CUSTOMER_ID c) rows)).
Proof.
  unfold contracts_data.
  destruct (for_emit_total (contracts_of_customer o) 0 (customers_data o n) 5001%N)
    as [[rows c'] Hrun].
  { intros. unfold contracts_of_customer. eauto. }
  rewrite Hrun. simpl. exists rows. split; [reflexivity |].
  destruct (for_emit_inv _ _ _ _ _ _ Hrun) as (pieces & -> & Hlen & Hp).
  assert (forall i p c r, pieces !! i = Some p -> customers_data o n !! i = Some c ->
            r ∈ p -> K_CUSTOMER_ID r = C_CUSTOMER_ID c) as Hkey.
  { intros i p c r Hi Hc Hr. destruct (Hp i c Hc) as (rs & ck & ck' & Hrs & Hb).
    assert (rs = p) by congruence. subst rs.
    destruct (contracts_of_customer_spec o _ _ _ _ _ Hb) as (_ & Hrows & _).
    apply list_elem_of_lookup in Hr as [k Hk]. now destruct (Hrows k r Hk). }
  split.
  - intros row Hrow. apply list_elem_of_join in Hrow as (p & Hrow & Hpin).
    apply list_elem_of_lookup in Hpin as [i Hi].
    assert (i < length (customers_data o n))%nat as Hlt
      by (rewrite <- Hlen; eapply lookup_lt_Some; eauto).
    destruct (lookup_lt_is_Some_2 _ _ Hlt) as [c Hc].
    exists c. split; [eapply list_elem_of_lookup_2; eauto | eapply Hkey; eauto].
  - intros c Hc. apply list_elem_of_lookup in Hc as [i0 Hc].
    destruct (Hp i0 c Hc) as (p0 & ck & ck' & Hp0 & Hb).
    destruct (contracts_of_customer_spec o _ _ _ _ _ Hb) as (_ & _ & Hnd & Hlen0).
    rewrite (filter_block_of_key K_CUSTOMER_ID pieces
               (C_CUSTOMER_ID <$> customers_data o n) i0 (C_CUSTOMER_ID c) p0).
    + split; assumption.
    + rewrite customers_data_ids. apply customer_ids_NoDup.
    + now rewrite length_fmap.
    + intros i p id r Hi Hid Hr. rewrite list_lookup_fmap in Hid.
      destruct (customers_data o n !! i) as [ci |] eqn:Hci; [| discriminate].
      injection Hid as <-. eapply Hkey; eauto.
    + rewrite list_lookup_fmap, Hc. reflexivity.
    + exact Hp0.
Qed.

(** X3.  Contract ids are handed out in table order from 5001 without
    gaps: row [k] of the contracts table has the id ["CON_"] followed by
    5001 + k zero-padded to seven digits, so no two contracts share an id. *)
Theorem X3_contract_ids_sequential n :
  exists rows,
    contracts_data o (customers_data o n) = Ok rows /\
    (forall k row, rows !! k = Some row ->
       K_CONTRACT_ID row = "CON_" +:+ zfill 7 (str_of_N (5001 + N.of_nat k))) /\
    NoDup (K_CONTRACT_ID <$> rows).
Proof.
  unfold contracts_data.
  destruct (for_emit_total (contracts_of_customer o) 0 (customers_data o n) 5001%N)
    as [[rows c'] Hrun].
  { intros. unfold contracts_of_customer. eauto. }
  rewrite Hrun. simpl. exists rows. split; [reflexivity |].
  assert (forall j r, rows !! j = Some r -> K_CONTRACT_ID r = contract_id (5001 + N.of_nat j))
    as Hnum.
  { eapply (for_emit_numbered _ (fun row k => K_CONTRACT_ID row = contract_id k));
      [| exact Hrun].
    intros k c ck rs ck' _ Hb.
    destruct (contracts_of_customer_spec o _ _ _ _ _ Hb) as (Hc & Hrows & _).
    split; [exact Hc |]. intros j r Hj. now destruct (Hrows j r Hj). }
  split; [exact Hnum |].
  apply (numbered_NoDup K_CONTRACT_ID contract_id rows 5001%N); [| exact Hnum].
  intros a b. apply prefixed_zfill_inj.
Qed.

(** X4.  Reading ids are handed out in table order from 100001 without
    gaps: row [k] of the readings table has the id ["RID_"] followed by
    100001 + k zero-padded to eight digits, so no two readings share an id. *)
Theorem X4_reading_ids_sequential n contracts_df anomaly start_date end_date :
  exists rows,
    readings_data o (customers_data o n) contracts_df anomaly start_date end_date
    = Ok rows /\
    (forall k r, rows !! k = Some r ->
       R_READING_ID r = "RID_" +:+ zfill 8 (str_of_N (100001 + N.of_nat k))) /\
    NoDup (R_READING_ID <$> rows).
Proof.
  destruct (readings_data_blocks o n contracts_df anomaly start_date end_date)
    as (pieces & Hrun & _).
  exists (mjoin pieces). split; [exact Hrun |].
  unfold readings_data in Hrun.
  apply bind_Ok in Hrun as ([rows c'] & Hloop & Hrows).
  apply Ok_inj in Hrows. cbn [fst] in Hrows. rewrite <- Hrows. clear Hrows pieces.
  assert (forall j r, rows !! j = Some r -> R_READING_ID r = reading_id (100001 + N.of_nat j))
    as Hnum.
  { eapply (for_emit_numbered _ (fun r k => R_READING_ID r = reading_id k));
      [| exact Hloop].
    intros k cid ck rs ck' _ Hb. unfold readings_of_customer in Hb.
    apply bind_Ok in Hb as (digits & _ & Hb).
    apply bind_Ok in Hb as (numeric_id & _ & Hb).
    apply bind_Ok in Hb as (cust_type & _ & Hb).
    eapply (for_emit_single_numbered _ (fun r k => R_READING_ID r = reading_id k));
      [| exact Hb].
    intros j day c. reflexivity. }
  split; [exact Hnum |].
  apply (numbered_NoDup R_READING_ID reading_id rows 100001%N); [| exact Hnum].
  intros a b. apply prefixed_zfill_inj.
Qed.

(** X5.  The readings table has as many rows as customers times instants
    of the date range; with valid dates and the time of day of start_date
    not later than that of end_date, that is the customer count times the
    number of calendar days from start_date to end_date, both included. *)
Theorem X5_reading_count n contracts_df anomaly start_date end_date :
  exists rows,
    readings_data o (customers_data o n) contracts_df anomaly start_date end_date
    = Ok rows /\
    length rows = (Z.to_nat n * length (date_range start_date end_date))%nat /\
    (valid_date (dt_date start_date) -> valid_date (dt_date end_date) ->
     time_leb (dt_time start_date) (dt_time end_date) = true ->
     length rows
     = (Z.to_nat n
        * Z.to_nat (toordinal (dt_date end_date) - toordinal (dt_date start_date) + 1))%nat).
Proof.
  destruct (readings_data_count n contracts_df anomaly start_date end_date)
    as (rows & Hrun & Hcount).
  exists rows. split; [exact Hrun |]. split; [exact Hcount |].
  intros Hs He Htime. rewrite Hcount, date_range_length by assumption. reflexivity.
Qed.

(** X6.  No reading lies outside the window or belongs to nobody: every
    reading is stamped on a calendar day from the day of start_date to the
    day of end_date, at the seconds and microseconds of start_date, and
    carries the id of a customer of the customers table. *)
Theorem X6_readings_inside_window n contracts_df anomaly start_date end_date :
  valid_date (dt_date start_date) ->
  exists rows,
    readings_data o (customers_data o n) contracts_df anomaly start_date end_date
    = Ok rows /\
    forall r, r ∈ rows ->
      (exists c, c ∈ customers_data o n /\ R_CUSTOMER_ID r = C_CUSTOMER_ID c) /\
      valid_date (dt_date (R_TIMESTAMP r)) /\
      date_leb (dt_date start_date) (dt_date (R_TIMESTAMP r)) = true /\
      date_leb (dt_date (R_TIMESTAMP r)) (dt_date end_date) = true /\
      second (dt_time (R_TIMESTAMP r)) = second (dt_time start_date) /\
      microsecond (dt_time (R_TIMESTAMP r)) = microsecond (dt_time start_date).
Proof.
  intros Hs.
  destruct (readings_data_blocks o n contracts_df anomaly start_date end_date)
    as (pieces & Hrun & Hblocks).
  exists (mjoin pieces). split; [exact Hrun |]. intros r Hr.
  destruct (readings_blocks_elem o _ _ _ _ _ _ _ Hblocks Hr)
    as (i & t & j & day & c & Hi & Hday & ->).
  apply list_elem_of_lookup_2 in Hday.
  destruct (date_range_day_inv _ _ _ Hs Hday) as (Htime & Hv & Hle1 & Hle2).
  unfold reading_row; cbn [R_CUSTOMER_ID R_TIMESTAMP]. unfold replace_hm. simpl.
  split; [| split; [exact Hv |]].
  - rewrite <- (customers_data_length o) in Hi.
    destruct (lookup_lt_is_Some_2 _ _ Hi) as [cust Hcust].
    exists cust. split; [eapply list_elem_of_lookup_2; eauto |].
    now destruct (customers_data_lookup o _ _ _ Hcust) as [-> _].
  - split; [now apply dt_leb_date in Hle1 |].
    split; [now apply dt_leb_date in Hle2 |].
    rewrite Htime. auto.
Qed.

(** A customer whose id occurs once is found in the dictionary of types
    with its own type. *)
Lemma customer_types_absent (l : list customer) (d : gmap string customer_type) k :
  k ∉ C_CUSTOMER_ID <$> l ->
  foldl (fun d c => <[C_CUSTOMER_ID c := C_CUSTOMER_TYPE c]> d) d l !! k = d !! k.
Proof.
  revert d. induction l as [| a l IH]; intros d Hk; [reflexivity |].
  simpl. rewrite fmap_cons, not_elem_of_cons in Hk. destruct Hk as [Hne Hk].
  rewrite IH by exact Hk. now apply lookup_insert_ne.
Qed.

Lemma customer_types_value (customers_df : list customer) c :
  NoDup (C_CUSTOMER_ID <$> customers_df) -> c ∈ customers_df ->
  customer_types customers_df !! C_CUSTOMER_ID c = Some (C_CUSTOMER_TYPE c).
Proof.
  unfold customer_types. generalize (∅ : gmap string customer_type) as d.
  induction customers_df as [| a l IH]; intros d Hnd Hc; [inversion Hc |].
  rewrite fmap_cons in Hnd. apply NoDup_cons in Hnd as [Hnotin Hnd]. simpl.
  apply elem_of_cons in Hc as [-> | Hc]; [| now apply IH].
  rewrite customer_types_absent by exact Hnotin. apply lookup_insert_eq.
Qed.

(** The spike window runs from 13 August 2025 00:00 to 17 August 2025
    00:00. *)
Lemma in_spike_window_days day :
  time_leb midnight (dt_time day) = true ->
  in_spike_window day
  = date_leb (mkDate 2025 8 13) (dt_date day)
    && (date_ltb (dt_date day) (mkDate 2025 8 17)
        || (date_leb (dt_date day) (mkDate 2025 8 17)
            && time_leb (dt_time day) midnight)).
Proof.
  intros Ht. unfold in_spike_window.
  change (dt_add_days anomaly_spike_date (-2)) with (datetime_ymd 2025 8 13).
  change (dt_add_days anomaly_spike_date 2) with (datetime_ymd 2025 8 17).
  destruct day as [[y m d] [h mi s us]].
  apply Bool.eq_true_iff_eq.
  rewrite !andb_true_iff, orb_true_iff, andb_true_iff.
  unfold datetime_ymd, midnight in *. cbn [dt_date dt_time] in *.
  split; intros H; lex_arith.
Qed.

(** X17.  What a reading measures: KWH_CONSUMPTION is
    round(max(0, base), 2) for the draw made for the type of the reading's
    own customer, the draw being multiplied by the spike factor exactly when
    the customer is an anomaly customer and the reading's day is 13, 14, 15
    or 16 August 2025, or 17 August 2025 with start_date at midnight: with
    a later time of day in start_date the spike lasts four days, not
    five. *)
Theorem X17_consumption_and_spike n contracts_df anomaly start_date end_date :
  time_leb midnight (dt_time start_date) = true ->
  exists rows,
    readings_data o (customers_data o n) contracts_df anomaly start_date end_date
    = Ok rows /\
    forall r, r ∈ rows ->
      exists i j cust,
        customers_data o n !! i = Some cust /\ R_CUSTOMER_ID r = C_CUSTOMER_ID cust /\
        let d := dt_date (R_TIMESTAMP r) in
        let base := normal_draw o (C_CUSTOMER_TYPE cust) i j in
        let in_window :=
          date_leb (mkDate 2025 8 13) d
          && (date_ltb d (mkDate 2025 8 17)
              || (date_leb d (mkDate 2025 8 17)
                  && time_leb (dt_time start_date) midnight)) in
        R_KWH_CONSUMPTION r
        = py_round2 (py_max0 (if bool_decide (R_CUSTOMER_ID r ∈ anomaly) && in_window
                              then fmul base (spike_factor_draw o i j)
                              else base)).
Proof.
  intros Htime.
  destruct (readings_data_blocks o n contracts_df anomaly start_date end_date)
    as (pieces0 & Hrun & _).
  exists (mjoin pieces0). split; [exact Hrun |].
  unfold readings_data in Hrun.
  apply bind_Ok in Hrun as ([rows c'] & Hloop & Hrows).
  apply Ok_inj in Hrows. cbn [fst] in Hrows. rewrite <- Hrows. clear Hrows pieces0.
  destruct (for_emit_inv _ _ _ _ _ _ Hloop) as (pieces & -> & Hlen & Hp).
  intros r Hr. apply list_elem_of_join in Hr as (p & Hr & Hpin).
  apply list_elem_of_lookup in Hpin as [i Hi].
  assert (i < length (C_CUSTOMER_ID <$> customers_data o n))%nat as Hlt
    by (rewrite <- Hlen; eapply lookup_lt_Some; eauto).
  rewrite length_fmap in Hlt.
  destruct (lookup_lt_is_Some_2 _ _ Hlt) as [cust Hcust].
  destruct (customers_data_lookup o _ _ _ Hcust) as [Hid Hin].
  assert ((C_CUSTOMER_ID <$> customers_data o n) !! i = Some (customer_id i)) as Hlook
    by (rewrite list_lookup_fmap, Hcust; simpl; now rewrite Hid).
  destruct (Hp i _ Hlook) as (rs & ck & ck' & Hrs & Hbody).
  assert (rs = p) by congruence. subst rs.
  assert (customer_types (customers_data o n) !! customer_id i
          = Some (C_CUSTOMER_TYPE cust)) as Htype.
  { rewrite <- Hid. apply customer_types_value.
    - rewrite customers_data_ids. apply customer_ids_NoDup.
    - eapply list_elem_of_lookup_2; eauto. }
  rewrite (readings_of_customer_ok o _ _ _ _ _ _ _ _ Htype) in Hbody.
  apply Ok_inj, pair_equal_spec in Hbody as [Hbody _]. rewrite <- Hbody in Hr.
  apply elem_of_lookup_imap in Hr as (j & day & -> & Hday).
  exists i, j, cust. split; [exact Hcust |].
  unfold reading_row; cbn [R_CUSTOMER_ID R_TIMESTAMP R_KWH_CONSUMPTION].
  split; [now rewrite Hid |]. cbv zeta.
  assert (dt_time day = dt_time start_date) as Hdt.
  { apply list_elem_of_lookup_2 in Hday. unfold date_range in Hday.
    apply list_elem_of_filter in Hday as [_ Hday].
    apply list_elem_of_fmap in Hday as (k & -> & _). reflexivity. }
  rewrite in_spike_window_days by (now rewrite Hdt).
  unfold replace_hm; cbn [dt_date]. rewrite Hdt. reflexivity.
Qed.
End Tables.

Section BillingTable.
Context {F : Float64}.

(** X7.  Invoice ids are handed out in table order from 80001 without
    gaps, skipped months taking none: row [k] of the billing table has the
    id ["INV_"] followed by 80001 + k zero-padded to seven digits, so no two
    invoices share an id. *)
Theorem X7_invoice_ids_sequential
    customers_df readings_df overdue start_date end_date rows :
  billing_data customers_df readings_df overdue start_date end_date = Ok rows ->
  (forall k inv, rows !! k = Some inv ->
     I_INVOICE_ID inv = "INV_" +:+ zfill 7 (str_of_N (80001 + N.of_nat k))) /\
  NoDup (I_INVOICE_ID <$> rows).
Proof.
  unfold billing_data. intros Hrun.
  apply bind_Ok in Hrun as ([rows' c'] & Hloop & Hrows).
  apply Ok_inj in Hrows. cbn [fst] in Hrows. subst rows'.
  assert (forall j r, rows !! j = Some r -> I_INVOICE_ID r = invoice_id (80001 + N.of_nat j))
    as Hnum.
  { eapply (for_emit_numbered _ (fun r k => I_INVOICE_ID r = invoice_id k));
      [| exact Hloop].
    intros i cid ck rs ck' _ Hb. unfold invoices_of_customer in Hb.
    eapply (for_emit_numbered _ (fun r k => I_INVOICE_ID r = invoice_id k));
      [| exact Hb].
    intros j k c p cp _ Hm. unfold invoice_of_month in Hm.
    destruct (dt_ltb end_date (dt_add_months start_date (Z.of_nat k))).
    - apply Ok_inj, pair_equal_spec in Hm as [<- <-].
      split; [simpl; lia |]. intros x r Hx. discriminate.
    - apply bind_Ok in Hm as (consumption & _ & Hm).
      apply Ok_inj, pair_equal_spec in Hm as [<- <-].
      split; [simpl; lia |]. intros [| x] r Hx; [| discriminate].
      apply (inj Some) in Hx. rewrite <- Hx. cbn [I_INVOICE_ID]. f_equal. lia. }
  split; [exact Hnum |].
  apply (numbered_NoDup I_INVOICE_ID invoice_id rows 80001%N); [| exact Hnum].
  intros a b. apply prefixed_zfill_inj.
Qed.

(** X8.  The invoices of a customer, month by month: for the month reached
    by [k] months from start_date ([k] below [num_months]) the customer has
    exactly one invoice, unless start_date moved by [k] months, the day
    clamped to the month's length, is after end_date, and then none.  No
    customer ever has two invoices for one month. *)
Theorem X8_invoices_per_customer_and_month
    customers_df readings_df overdue start_date end_date rows :
  NoDup (C_CUSTOMER_ID <$> customers_df) ->
  billing_data customers_df readings_df overdue start_date end_date = Ok rows ->
  forall cust (k : nat),
    cust ∈ customers_df -> Z.of_nat k < num_months start_date end_date ->
    length (filter (fun inv =>
                      I_CUSTOMER_ID inv = C_CUSTOMER_ID cust /\
                      I_CONSUMPTION_PERIOD_START inv
                      = first_of_month (add_months (dt_date start_date) (Z.of_nat k)))
              rows)
    = if dt_ltb end_date (dt_add_months start_date (Z.of_nat k)) then 0%nat else 1%nat.
Proof. apply billing_data_count. Qed.

(** X9.  When start_date is the first day of a month and its time of day
    is not later than that of end_date, the guard skips nothing: every
    customer has exactly one invoice for each of the [num_months] months of
    the window, among them exactly one for the month of end_date, and every
    invoice of that month is pending. *)
Theorem X9_aligned_start_bills_every_month
    customers_df readings_df overdue start_date end_date rows :
  NoDup (C_CUSTOMER_ID <$> customers_df) ->
  valid_date (dt_date start_date) -> valid_date (dt_date end_date) ->
  day (dt_date start_date) = 1 ->
  time_leb (dt_time start_date) (dt_time end_date) = true ->
  billing_data customers_df readings_df overdue start_date end_date = Ok rows ->
  (forall cust (k : nat),
     cust ∈ customers_df -> Z.of_nat k < num_months start_date end_date ->
     length (filter (fun inv =>
                       I_CUSTOMER_ID inv = C_CUSTOMER_ID cust /\
                       I_CONSUMPTION_PERIOD_START inv
                       = first_of_month (add_months (dt_date start_date) (Z.of_nat k)))
               rows) = 1%nat) /\
  (forall cust, cust ∈ customers_df -> 0 < num_months start_date end_date ->
     length (filter (fun inv =>
                       I_CUSTOMER_ID inv = C_CUSTOMER_ID cust /\
                       I_CONSUMPTION_PERIOD_START inv = first_of_month (dt_date end_date))
               rows) = 1%nat) /\
  (forall inv, inv ∈ rows ->
     I_CONSUMPTION_PERIOD_START inv = first_of_month (dt_date end_date) ->
     I_PAYMENT_STATUS inv = Pending).
Proof.
  intros Hnd Hs He Hday Htime Hrun.
  assert (forall cust (k : nat),
            cust ∈ customers_df -> Z.of_nat k < num_months start_date end_date ->
            length (filter (fun inv =>
                       I_CUSTOMER_ID inv = C_CUSTOMER_ID cust /\
                       I_CONSUMPTION_PERIOD_START inv
                       = first_of_month (add_months (dt_date start_date) (Z.of_nat k)))
                      rows) = 1%nat) as Hall.
  { intros cust k Hcust Hk.
    rewrite (billing_data_count _ _ _ _ _ _ Hnd Hrun cust k Hcust Hk).
    now rewrite aligned_start_never_skipped. }
  split; [exact Hall |]. split.
  - intros cust Hcust Hpos.
    pose proof (Hall cust (Z.to_nat (num_months start_date end_date - 1)) Hcust
                  ltac:(lia)) as Hlast.
    rewrite (last_offset_is_end_month start_date end_date) in Hlast;
      [exact Hlast | apply Hs | apply He | lia].
  - intros inv Hin Hps.
    destruct (Claims.invoice_dates_and_status _ _ _ _ _ _ Hrun inv Hin) as (_ & _ & ->).
    rewrite Hps. simpl. now rewrite !Z.eqb_refl.
Qed.

(** X10.  Dates and status of every invoice: INVOICE_DATE is five days
    after CONSUMPTION_PERIOD_END and DUE_DATE fourteen days after
    INVOICE_DATE; the status is pending when the period starts in the month
    and year of end_date, otherwise overdue when the customer is in the
    overdue set and the period starts in an August, otherwise paid.  The
    invoice belongs to a customer of the customers table. *)
Theorem X10_invoice_dates_and_status
    customers_df readings_df overdue start_date end_date rows :
  billing_data customers_df readings_df overdue start_date end_date = Ok rows ->
  forall inv, inv ∈ rows ->
    (exists cust, cust ∈ customers_df /\ I_CUSTOMER_ID inv = C_CUSTOMER_ID cust) /\
    I_INVOICE_DATE inv = add_days (I_CONSUMPTION_PERIOD_END inv) 5 /\
    I_DUE_DATE inv = add_days (I_INVOICE_DATE inv) 14 /\
    (I_PAYMENT_STATUS inv = Pending <->
       month (I_CONSUMPTION_PERIOD_START inv) = month (dt_date end_date) /\
       year (I_CONSUMPTION_PERIOD_START inv) = year (dt_date end_date)) /\
    (I_PAYMENT_STATUS inv = Overdue <->
       ~ (month (I_CONSUMPTION_PERIOD_START inv) = month (dt_date end_date) /\
          year (I_CONSUMPTION_PERIOD_START inv) = year (dt_date end_date)) /\
       I_CUSTOMER_ID inv ∈ overdue /\ month (I_CONSUMPTION_PERIOD_START inv) = 8).
Proof.
  intros Hrun inv Hin. split.
  - destruct (billing_data_elem _ _ _ _ _ _ _ Hrun Hin)
      as (i & cust & k & c & rs & c' & Hcust & _ & Hbody & Hinv).
    destruct (invoice_of_month_inv _ _ _ _ _ _ _ _ _ _ Hbody Hinv) as (_ & _ & Hcid & _).
    exists cust. split; [eapply list_elem_of_lookup_2; eauto | exact Hcid].
  - destruct (Claims.invoice_dates_and_status _ _ _ _ _ _ Hrun inv Hin)
      as (Hdate & Hdue & Hstatus).
    split; [exact Hdate |]. split; [exact Hdue |]. rewrite Hstatus.
    destruct (Z.eqb_spec (month (I_CONSUMPTION_PERIOD_START inv)) (month (dt_date end_date)));
      destruct (Z.eqb_spec (year (I_CONSUMPTION_PERIOD_START inv)) (year (dt_date end_date)));
      simpl;
      try (split; split; (tauto || discriminate || (intros; exfalso; tauto)));
      (destruct (bool_decide_reflect (I_CUSTOMER_ID inv ∈ overdue));
       destruct (Z.eqb_spec (month (I_CONSUMPTION_PERIOD_START inv)) 8); simpl;
       split; split; (tauto || discriminate || (intros; exfalso; tauto))).
Qed.

(** X11.  What an invoice charges: AMOUNT_DUE is
    round(sum x TARIFF_RATE_KWH + BASE_MONTHLY_FEE, 2) for the sum of
    KWH_CONSUMPTION over the readings the timestamp mask keeps.  Those are
    readings of the invoice's customer stamped on a day from
    CONSUMPTION_PERIOD_START to CONSUMPTION_PERIOD_END, and they include
    every reading of the customer stamped on a day strictly between the
    two: only readings on the first and the last day of the period can be
    left out. *)
Theorem X11_amount_due_of_invoice
    customers_df readings_df overdue start_date end_date rows :
  billing_data customers_df readings_df overdue start_date end_date = Ok rows ->
  forall inv, inv ∈ rows ->
    exists period_start period_end,
      dt_date period_start = I_CONSUMPTION_PERIOD_START inv /\
      dt_date period_end = I_CONSUMPTION_PERIOD_END inv /\
      I_AMOUNT_DUE inv
      = np_round2 (fadd (fmul (fsum (R_KWH_CONSUMPTION <$>
                                 billed_readings readings_df (I_CUSTOMER_ID inv)
                                   period_start period_end))
                              TARIFF_RATE_KWH) BASE_MONTHLY_FEE) /\
      (forall r, r ∈ billed_readings readings_df (I_CUSTOMER_ID inv) period_start period_end ->
         r ∈ readings_df /\ R_CUSTOMER_ID r = I_CUSTOMER_ID inv /\
         date_leb (I_CONSUMPTION_PERIOD_START inv) (dt_date (R_TIMESTAMP r)) = true /\
         date_leb (dt_date (R_TIMESTAMP r)) (I_CONSUMPTION_PERIOD_END inv) = true) /\
      (forall r, r ∈ readings_df -> R_CUSTOMER_ID r = I_CUSTOMER_ID inv ->
         date_ltb (I_CONSUMPTION_PERIOD_START inv) (dt_date (R_TIMESTAMP r)) = true ->
         date_ltb (dt_date (R_TIMESTAMP r)) (I_CONSUMPTION_PERIOD_END inv) = true ->
         r ∈ billed_readings readings_df (I_CUSTOMER_ID inv) period_start period_end).
Proof.
  intros Hrun inv Hin.
  destruct (billing_data_elem _ _ _ _ _ _ _ Hrun Hin)
    as (i & cust & k & c & rs & c' & _ & _ & Hbody & Hinv).
  destruct (invoice_of_month_inv _ _ _ _ _ _ _ _ _ _ Hbody Hinv)
    as (_ & _ & Hcid & Hamount & _ & _ & _ & Hps & Hpe).
  cbv zeta in *.
  set (ps := dt_first_of_month (dt_add_months start_date (Z.of_nat k))) in *.
  set (pe := dt_min (dt_add_days (dt_add_months ps 1) (-1)) end_date) in *.
  exists ps, pe. rewrite Hcid, Hps, Hpe.
  split; [reflexivity |]. split; [reflexivity |]. split; [exact Hamount |].
  unfold billed_readings. split.
  - intros r Hr. apply list_elem_of_filter in Hr as [(Hc & H1 & H2) Hr].
    split; [exact Hr |]. split; [exact Hc |].
    split; [now apply dt_leb_date in H1 | now apply dt_leb_date in H2].
  - intros r Hr Hc H1 H2. apply list_elem_of_filter. split; [| exact Hr].
    split; [exact Hc |]. clear - H1 H2.
    generalize dependent pe. generalize dependent ps. intros ps H1 pe H2.
    split; lex_arith.
Qed.

End BillingTable.

Section CasesTable.
Context {F : Float64} (o : Oracle).

(** X12.  Case ids are handed out in table order from 101 without gaps:
    row [k] of the support-case table has the id ["CAS_"] followed by
    101 + k zero-padded to six digits, so no two cases share an id. *)
Theorem X12_case_ids_sequential sampled anomaly overdue :
  exists rows,
    cases_data o sampled anomaly overdue = Ok rows /\
    (forall k x, rows !! k = Some x ->
       S_CASE_ID x = "CAS_" +:+ zfill 6 (str_of_N (101 + N.of_nat k))) /\
    NoDup (S_CASE_ID <$> rows).
Proof.
  destruct (cases_data_elem o sampled anomaly overdue) as (rows & Hrun & _).
  exists rows. split; [exact Hrun |].
  unfold cases_data in Hrun.
  apply bind_Ok in Hrun as ([rows' c'] & Hloop & Hrows).
  apply Ok_inj in Hrows. cbn [fst] in Hrows. subst rows'.
  assert (forall j x, rows !! j = Some x -> S_CASE_ID x = case_id (101 + N.of_nat j)) as Hnum.
  { eapply (for_emit_numbered _ (fun x k => S_CASE_ID x = case_id k)); [| exact Hloop].
    intros i cid ck rs ck' _ Hb. unfold cases_of_customer in Hb.
    eapply (for_emit_single_numbered _ (fun x k => S_CASE_ID x = case_id k));
      [| exact Hb].
    intros j a c. unfold case_row.
    destruct (branch_of anomaly overdue cid); reflexivity. }
  split; [exact Hnum |].
  apply (numbered_NoDup S_CASE_ID case_id rows 101%N); [| exact Hnum].
  intros a b. apply prefixed_zfill_inj.
Qed.

(** The number of cases of a customer, selected or not. *)
Lemma cases_data_counts (Hok : oracle_ok o) sampled anomaly overdue :
  exists rows,
    cases_data o sampled anomaly overdue = Ok rows /\
    (forall cid, cid ∈ sampled \/ cid ∈ anomaly \/ cid ∈ overdue ->
       (1 <= length (filter (fun x => S_CUSTOMER_ID x = cid) rows) <= 2)%nat) /\
    (forall cid, ~ (cid ∈ sampled \/ cid ∈ anomaly \/ cid ∈ overdue) ->
       filter (fun x => S_CUSTOMER_ID x = cid) rows = []).
Proof.
  destruct (cases_data_elem o sampled anomaly overdue) as (rows & Hrun & Helem).
  exists rows. split; [exact Hrun |].
  set (selected := customers_for_cases sampled anomaly overdue) in *.
  assert (forall cid, cid ∈ set_iter o selected <->
                      cid ∈ sampled \/ cid ∈ anomaly \/ cid ∈ overdue) as Hsel.
  { intros cid. rewrite (set_iter_perm o Hok selected), elem_of_elements.
    unfold selected, customers_for_cases.
    rewrite !elem_of_union, elem_of_list_to_set. tauto. }
  split.
  - intros cid Hcid. apply Hsel in Hcid.
    apply list_elem_of_lookup in Hcid as [i0 Hi0].
    unfold cases_data in Hrun.
    apply bind_Ok in Hrun as ([rows' c'] & Hloop & Hrows).
    apply Ok_inj in Hrows. cbn [fst] in Hrows. subst rows'.
    destruct (for_emit_inv _ _ _ _ _ _ Hloop) as (pieces & -> & Hlen & Hp).
    destruct (Hp i0 cid Hi0) as (p0 & ck & ck' & Hp0 & Hb).
    rewrite cases_of_customer_ok in Hb.
    apply Ok_inj, pair_equal_spec in Hb as [Hb _].
    rewrite (filter_block_of_key S_CUSTOMER_ID pieces (set_iter o selected) i0 cid p0).
    + rewrite <- Hb, length_imap. unfold py_range. rewrite length_seq.
      pose proof (num_cases_range o Hok (0 + i0)). lia.
    + rewrite (set_iter_perm o Hok selected). apply NoDup_elements.
    + exact Hlen.
    + intros i p id x Hi Hid Hx.
      destruct (Hp i id Hid) as (p' & ck1 & ck1' & Hp' & Hb').
      assert (p' = p) by congruence. subst p'.
      rewrite cases_of_customer_ok in Hb'.
      apply Ok_inj, pair_equal_spec in Hb' as [Hb' _]. rewrite <- Hb' in Hx.
      apply elem_of_lookup_imap in Hx as (k & j & -> & _).
      apply case_row_customer_id.
    + exact Hi0.
    + exact Hp0.
  - intros cid Hcid. apply filter_none. intros x Hx Hid.
    destruct (Helem x Hx) as (i & cid' & j & c & Hi & ->).
    rewrite case_row_customer_id in Hid. subst cid'.
    apply Hcid, Hsel. eapply list_elem_of_lookup_2; eauto.
Qed.

(** The support-case table is empty exactly when nobody is selected. *)
Lemma cases_data_selected (Hok : oracle_ok o) sampled anomaly overdue :
  exists rows,
    cases_data o sampled anomaly overdue = Ok rows /\
    (rows = [] <-> sampled = [] /\ anomaly = ∅ /\ overdue = ∅).
Proof.
  destruct (cases_data_counts Hok sampled anomaly overdue)
    as (rows & Hrun & Hin & Hout).
  exists rows. split; [exact Hrun |]. split.
  - intros ->.
    assert (forall cid, ~ (cid ∈ sampled \/ cid ∈ anomaly \/ cid ∈ overdue)) as Hnone.
    { intros cid Hcid. specialize (Hin cid Hcid). simpl in Hin. lia. }
    split; [| split].
    + destruct sampled as [| cid ?]; [reflexivity |].
      exfalso. apply (Hnone cid). left. left.
    + apply set_eq. intros cid. split; [| intros Hx; inversion Hx].
      intros Hx. exfalso. apply (Hnone cid). auto.
    + apply set_eq. intros cid. split; [| intros Hx; inversion Hx].
      intros Hx. exfalso. apply (Hnone cid). auto.
  - intros (-> & -> & ->).
    destruct rows as [| x rest]; [reflexivity |]. exfalso.
    assert (filter (fun y => S_CUSTOMER_ID y = S_CUSTOMER_ID x) (x :: rest) = []) as Hf.
    { apply Hout. intros [Hx | [Hx | Hx]]; inversion Hx. }
    rewrite filter_cons, decide_True in Hf by reflexivity. discriminate.
Qed.

(** X13.  Who gets support cases: a customer in the sampled list, the
    anomaly set or the overdue set has one or two cases, and anyone else
    has none; so the table is empty exactly when nobody is selected. *)
Theorem X13_cases_per_selected_customer (Hok : oracle_ok o) sampled anomaly overdue :
  exists rows,
    cases_data o sampled anomaly overdue = Ok rows /\
    (forall cid, cid ∈ sampled \/ cid ∈ anomaly \/ cid ∈ overdue ->
       (1 <= length (filter (fun x => S_CUSTOMER_ID x = cid) rows) <= 2)%nat) /\
    (forall cid, ~ (cid ∈ sampled \/ cid ∈ anomaly \/ cid ∈ overdue) ->
       filter (fun x => S_CUSTOMER_ID x = cid) rows = []) /\
    (rows = [] <-> sampled = [] /\ anomaly = ∅ /\ overdue = ∅).
Proof.
  destruct (cases_data_counts Hok sampled anomaly overdue) as (rows & Hrun & Hin & Hout).
  destruct (cases_data_selected Hok sampled anomaly overdue) as (rows' & Hrun' & Hempty).
  rewrite Hrun in Hrun'. apply Ok_inj in Hrun'. subst rows'.
  exists rows. auto.
Qed.

(** X14.  What a case says, by the category of its customer.  Every case
    is case number [j] (below the number of cases drawn for the customer) of
    the customer at some position [i] of the iteration over the selected
    customers.  For an anomaly customer it is a billing inquiry with the
    high-bill description; for an overdue customer that is no anomaly
    customer, a billing inquiry with the overdue description; for a customer
    in neither set it is the issue drawn for that case, one of service
    outage, meter reading issue and tariff plan query and never a billing
    inquiry, with the general description, and its date is, unchanged, the
    value [fake.date_time_between(...).date()] returned for that very case
    (a value the model leaves unconstrained). *)
Theorem X14_case_content_by_category sampled anomaly overdue :
  exists rows,
    cases_data o sampled anomaly overdue = Ok rows /\
    forall x, x ∈ rows ->
      exists i j : nat,
        set_iter o (customers_for_cases sampled anomaly overdue) !! i
        = Some (S_CUSTOMER_ID x) /\
        Z.of_nat j < num_cases_draw o i /\
        (S_CUSTOMER_ID x ∈ anomaly ->
           S_ISSUE_TYPE x = BillingInquiry /\ S_DESCRIPTION x = anomaly_description) /\
        (S_CUSTOMER_ID x ∉ anomaly -> S_CUSTOMER_ID x ∈ overdue ->
           S_ISSUE_TYPE x = BillingInquiry /\ S_DESCRIPTION x = overdue_description) /\
        (S_CUSTOMER_ID x ∉ anomaly -> S_CUSTOMER_ID x ∉ overdue ->
           S_ISSUE_TYPE x = issue_of_general (general_issue_draw o i j) /\
           S_ISSUE_TYPE x ∈ [ServiceOutage; MeterReadingIssue; TariffPlanQuery] /\
           S_DESCRIPTION x = general_description /\
           S_CASE_DATE x = fake_case_date o i j).
Proof.
  destruct (cases_data_elem o sampled anomaly overdue) as (rows & Hrun & _).
  exists rows. split; [exact Hrun |]. intros x Hx.
  unfold cases_data in Hrun.
  apply bind_Ok in Hrun as ([rows' c'] & Hloop & Hrows).
  apply Ok_inj in Hrows. cbn [fst] in Hrows. subst rows'.
  destruct (for_emit_elem _ _ _ _ _ _ _ Hloop Hx)
    as (i & cid & rs & ck & ck' & Hi & Hb & Hin).
  change (0 + i)%nat with i in Hb. rewrite cases_of_customer_ok in Hb.
  apply Ok_inj, pair_equal_spec in Hb as [Hb _]. rewrite <- Hb in Hin.
  apply elem_of_lookup_imap in Hin as (k & j & -> & Hj).
  unfold py_range in Hj. apply lookup_seq in Hj as [-> Hk].
  change (0 + k)%nat with k. exists i, k. rewrite case_row_customer_id.
  split; [exact Hi |]. split; [lia |].
  pose proof (case_row_by_branch o anomaly overdue i cid k (ck + N.of_nat k)) as Hrow.
  cbv zeta in Hrow. split; [| split].
  - intros Ha. rewrite (branch_of_anomaly _ overdue _ Ha) in Hrow.
    destruct Hrow as (-> & -> & _). auto.
  - intros Hna Ho. rewrite (branch_of_overdue _ _ _ Hna Ho) in Hrow.
    destruct Hrow as (-> & -> & _). auto.
  - intros Hna Hno. unfold branch_of in Hrow.
    rewrite (bool_decide_eq_false_2 _ Hna), (bool_decide_eq_false_2 _ Hno) in Hrow.
    destruct Hrow as (Hissue & -> & ->). rewrite Hissue.
    split; [reflexivity |]. split; [| split; reflexivity].
    destruct (general_issue_draw o i k); simpl;
      [left | right; left | right; right; left].
Qed.

End CasesTable.

Section WholeRun.
Context {F : Float64} (o : Oracle).

Lemma frame_col_Ok {A} col (rows df : list A) :
  frame_col col rows = Ok df -> df = rows /\ rows <> [].
Proof.
  unfold frame_col. destruct rows; [discriminate |].
  intros H. apply Ok_inj in H. split; [now symmetry | discriminate].
Qed.

Lemma frame_col_nonempty {A} col (rows : list A) :
  rows <> [] -> frame_col col rows = Ok rows.
Proof. unfold frame_col. destruct rows; [congruence | reflexivity]. Qed.

(** The stages behind a run that ends without error. *)
Lemma generate_inv inp t :
  generate_energy_provider_data o inp = Ok t ->
  let customers_df := customers_data o (num_customers inp) in
  exists anomaly sampled,
    DIM_CUSTOMERS t = customers_df /\ customers_df <> [] /\
    contracts_data o customers_df = Ok (FACT_CONTRACTS t) /\ FACT_CONTRACTS t <> [] /\
    anomaly_customers o customers_df = Ok anomaly /\
    readings_data o customers_df (FACT_CONTRACTS t) anomaly (start_date inp) (end_date inp)
    = Ok (FACT_SMART_METER_READINGS t) /\
    billing_data customers_df (FACT_SMART_METER_READINGS t) (overdue_customers o anomaly)
      (start_date inp) (end_date inp) = Ok (FACT_BILLINGS t) /\
    FACT_BILLINGS t <> [] /\
    py_sample o (customer_ids (num_customers inp)) (int_fifth (num_customers inp))
    = Ok sampled /\
    cases_data o sampled anomaly (overdue_customers o anomaly) = Ok (FACT_SUPPORT_CASES t) /\
    FACT_SUPPORT_CASES t <> [].
Proof.
  unfold generate_energy_provider_data. intros H.
  apply bind_Ok in H as (customers_df & Hc & H). apply frame_col_Ok in Hc as [-> Hcne].
  apply bind_Ok in H as (contracts & Hk & H).
  apply bind_Ok in H as (contracts_df & Hkf & H). apply frame_col_Ok in Hkf as [-> Hkne].
  apply bind_Ok in H as (anomaly & Ha & H).
  apply bind_Ok in H as (readings_df & Hr & H).
  apply bind_Ok in H as (billing & Hb & H).
  apply bind_Ok in H as (billing_df & Hbf & H). apply frame_col_Ok in Hbf as [-> Hbne].
  apply bind_Ok in H as (sampled & Hs & H).
  apply bind_Ok in H as (cases & Hcs & H).
  apply bind_Ok in H as (cases_df & Hcf & H). apply frame_col_Ok in Hcf as [-> Hcsne].
  apply Ok_inj in H. subst t. cbn [DIM_CUSTOMERS FACT_CONTRACTS FACT_SMART_METER_READINGS
                                   FACT_BILLINGS FACT_SUPPORT_CASES].
  exists anomaly, sampled. repeat (split; [assumption || reflexivity |]). assumption.
Qed.

Lemma add_months_zero d : valid_date d -> add_months d 0 = d.
Proof.
  intros (Hy & Hm & Hd). unfold add_months.
  assert ((year d * 12 + (month d - 1) + 0) / 12 = year d) as -> by zdiv.
  assert ((year d * 12 + (month d - 1) + 0) mod 12 + 1 = month d) as -> by zdiv.
  rewrite Z.min_l by lia. now destruct d.
Qed.

Lemma num_months_positive s e :
  1 <= month (dt_date s) <= 12 -> 1 <= month (dt_date e) <= 12 ->
  dt_leb s e = true -> 0 < num_months s e.
Proof. intros Hs He Hle. unfold num_months. lex_arith. Qed.

(** With a customer, valid dates and start_date not after end_date, the
    readings and the billing tables are not empty. *)
Lemma readings_data_nonempty n contracts_df anomaly s e :
  0 < n -> valid_date (dt_date s) -> valid_date (dt_date e) -> dt_leb s e = true ->
  exists rows,
    readings_data o (customers_data o n) contracts_df anomaly s e = Ok rows /\ rows <> [].
Proof.
  intros Hn Hs He Hle.
  destruct (readings_data_count o n contracts_df anomaly s e) as (rows & Hrun & Hcount).
  exists rows. split; [exact Hrun |].
  pose proof (date_range_start s e Hs He Hle) as Hday.
  destruct (date_range s e) as [| d days]; [inversion Hday |].
  intros Hnil. rewrite Hnil in Hcount. simpl in Hcount. lia.
Qed.

Lemma billing_data_nonempty customers_df readings_df overdue s e :
  NoDup (C_CUSTOMER_ID <$> customers_df) -> customers_df <> [] -> readings_df <> [] ->
  valid_date (dt_date s) -> valid_date (dt_date e) -> dt_leb s e = true ->
  exists rows, billing_data customers_df readings_df overdue s e = Ok rows /\ rows <> [].
Proof.
  intros Hnd Hc Hr Hs He Hle.
  destruct (billing_data_total customers_df readings_df overdue s e Hr) as [rows Hrun].
  exists rows. split; [exact Hrun |].
  destruct customers_df as [| cust rest]; [congruence |].
  pose proof (billing_data_count _ _ _ _ _ _ Hnd Hrun cust 0%nat ltac:(left)) as Hcount.
  change (Z.of_nat 0) with 0 in Hcount.
  unfold dt_add_months in Hcount. rewrite (add_months_zero _ Hs) in Hcount.
  assert (dt_ltb e {| dt_date := dt_date s; dt_time := dt_time s |} = false) as Hns.
  { destruct s as [sd st]. simpl. clear - Hle.
    destruct (dt_ltb e {| dt_date := sd; dt_time := st |}) eqn:E; [| reflexivity].
    exfalso. lex_arith. }
  rewrite Hns in Hcount.
  intros Hnil. rewrite Hnil in Hcount.
  specialize (Hcount (num_months_positive s e ltac:(apply Hs) ltac:(apply He) Hle)).
  discriminate.
Qed.

(** X15.  A run that ends without error hands over five non-empty tables,
    the customers table being the one of the first stage, and every
    contract, reading, invoice and support case carries the id of a customer
    of that table. *)
Theorem X15_successful_run_is_consistent (Hok : oracle_ok o) inp t :
  generate_energy_provider_data o inp = Ok t ->
  DIM_CUSTOMERS t = customers_data o (num_customers inp) /\
  (DIM_CUSTOMERS t <> [] /\ FACT_CONTRACTS t <> [] /\ FACT_SMART_METER_READINGS t <> []
   /\ FACT_BILLINGS t <> [] /\ FACT_SUPPORT_CASES t <> []) /\
  (forall row, row ∈ FACT_CONTRACTS t ->
     exists c, c ∈ DIM_CUSTOMERS t /\ K_CUSTOMER_ID row = C_CUSTOMER_ID c) /\
  (forall r, r ∈ FACT_SMART_METER_READINGS t ->
     exists c, c ∈ DIM_CUSTOMERS t /\ R_CUSTOMER_ID r = C_CUSTOMER_ID c) /\
  (forall inv, inv ∈ FACT_BILLINGS t ->
     exists c, c ∈ DIM_CUSTOMERS t /\ I_CUSTOMER_ID inv = C_CUSTOMER_ID c) /\
  (forall x, x ∈ FACT_SUPPORT_CASES t ->
     exists c, c ∈ DIM_CUSTOMERS t /\ S_CUSTOMER_ID x = C_CUSTOMER_ID c).
Proof.
  intros Hrun. destruct (generate_inv inp t Hrun)
    as (anomaly & sampled & Hdim & Hcne & Hk & Hkne & Ha & Hr & Hb & Hbne & Hs & Hcs & Hcsne).
  cbv zeta in *. set (n := num_customers inp) in *. rewrite Hdim.
  assert (forall cid, cid ∈ customer_ids n ->
            exists c, c ∈ customers_data o n /\ cid = C_CUSTOMER_ID c) as Hids.
  { intros cid Hcid. rewrite <- (customers_data_ids o) in Hcid.
    apply list_elem_of_fmap in Hcid as (c & -> & Hc). eauto. }
  split; [reflexivity |]. split; [| split; [| split; [| split]]].
  - repeat (split; [assumption |]). split; [| split; assumption].
    destruct (FACT_BILLINGS t) as [| inv rest] eqn:Hbill; [congruence |].
    destruct (billing_data_elem _ _ _ _ _ _ inv Hb ltac:(left))
      as (i & cust & k & c & rs & c' & _ & _ & Hbody & Hinv).
    now destruct (invoice_of_month_inv _ _ _ _ _ _ _ _ _ _ Hbody Hinv) as (_ & Hne & _).
  - exact (contracts_data_customers o n _ Hk).
  - destruct (readings_data_blocks o n (FACT_CONTRACTS t) anomaly
                (start_date inp) (end_date inp)) as (pieces & Hr' & Hblocks).
    rewrite Hr in Hr'. apply Ok_inj in Hr'. rewrite Hr'. intros r Hin.
    destruct (readings_blocks_elem o _ _ _ _ _ _ _ Hblocks Hin)
      as (i & ty & j & day & c & Hi & _ & ->).
    apply Hids. apply list_elem_of_lookup. exists i. apply customer_ids_lookup. auto.
  - intros inv Hin.
    destruct (billing_data_elem _ _ _ _ _ _ _ Hb Hin)
      as (i & cust & k & c & rs & c' & Hcust & _ & Hbody & Hinv).
    destruct (invoice_of_month_inv _ _ _ _ _ _ _ _ _ _ Hbody Hinv) as (_ & _ & Hcid & _).
    exists cust. split; [eapply list_elem_of_lookup_2; eauto | exact Hcid].
  - intros x Hin.
    destruct (cases_data_elem o sampled anomaly (overdue_customers o anomaly))
      as (rows & Hcs' & Helem).
    rewrite Hcs in Hcs'. apply Ok_inj in Hcs'. subst rows.
    destruct (Helem x Hin) as (i & cid & j & c & Hi & ->).
    rewrite case_row_customer_id. apply list_elem_of_lookup_2 in Hi.
    rewrite (set_iter_perm o Hok) in Hi. apply elem_of_elements in Hi.
    assert (forall y, y ∈ anomaly -> exists c0, c0 ∈ customers_data o n /\ y = C_CUSTOMER_ID c0)
      as Hanom.
    { intros y Hy. rewrite anomaly_customers_ok in Ha. apply Ok_inj in Ha. subst anomaly.
      apply elem_of_list_to_set, (sample_incl o Hok), all_residential_ids_elem in Hy
        as (c0 & Hc0 & <- & _). eauto. }
    unfold customers_for_cases in Hi.
    apply elem_of_union in Hi as [Hi | Hi]; [apply elem_of_union in Hi as [Hi | Hi] |].
    + apply elem_of_list_to_set in Hi. apply Hids.
      unfold py_sample in Hs.
      destruct ((int_fifth n <? 0) || (Z.of_nat (length (customer_ids n)) <? int_fifth n));
        [discriminate |].
      apply Ok_inj in Hs. subst sampled. now apply (sample_incl o Hok) in Hi.
    + now apply Hanom.
    + now apply Hanom, (overdue_subset o Hok).
Qed.

(** The outcome of the generation on a valid input. *)
Lemma generate_outcome (Hok : oracle_ok o) inp :
  0 < num_customers inp ->
  valid_date (dt_date (start_date inp)) -> valid_date (dt_date (end_date inp)) ->
  dt_leb (start_date inp) (end_date inp) = true ->
  0 <= int_fifth (num_customers inp) <= num_customers inp ->
  (int_fifth (num_customers inp) = 0 /\
   all_residential_ids (customers_data o (num_customers inp)) = [] ->
     generate_energy_provider_data o inp = Raise (KeyError "CASE_DATE")) /\
  (0 < int_fifth (num_customers inp) \/
   all_residential_ids (customers_data o (num_customers inp)) <> [] ->
     exists t, generate_energy_provider_data o inp = Ok t).
Proof.
  intros Hn Hs He Hle Hfifth.
  unfold generate_energy_provider_data.
  set (n := num_customers inp) in *.
  assert (customers_data o n <> []) as Hcne.
  { intros Hnil. apply (f_equal length) in Hnil.
    rewrite customers_data_length in Hnil. simpl in Hnil. lia. }
  rewrite (frame_col_nonempty _ _ Hcne).
  change (mbind ?f (Ok ?a)) with (f a). cbv beta.
  destruct (contracts_data_nonempty o (customers_data o n) Hcne) as (contracts & Hk & Hkne).
  rewrite Hk. change (mbind ?f (Ok ?a)) with (f a). cbv beta.
  rewrite (frame_col_nonempty _ _ Hkne).
  change (mbind ?f (Ok ?a)) with (f a). cbv beta.
  rewrite anomaly_customers_ok.
  change (mbind ?f (Ok ?a)) with (f a). cbv beta.
  set (ids := all_residential_ids (customers_data o n)).
  set (anomaly := list_to_set (sample_draw o ids (Nat.min 15 (length ids))) : gset string).
  destruct (readings_data_nonempty n contracts anomaly _ _ Hn Hs He Hle)
    as (readings & Hr & Hrne).
  rewrite Hr. change (mbind ?f (Ok ?a)) with (f a). cbv beta.
  destruct (billing_data_nonempty (customers_data o n) readings
              (overdue_customers o anomaly) _ _
              ltac:(rewrite customers_data_ids; apply customer_ids_NoDup)
              Hcne Hrne Hs He Hle) as (billing & Hb & Hbne).
  rewrite Hb. change (mbind ?f (Ok ?a)) with (f a). cbv beta.
  rewrite (frame_col_nonempty _ _ Hbne).
  change (mbind ?f (Ok ?a)) with (f a). cbv beta.
  assert (length (customer_ids n) = Z.to_nat n) as Hlen
    by (unfold customer_ids, py_range; now rewrite length_fmap, length_seq).
  assert (py_sample o (customer_ids n) (int_fifth n)
          = Ok (sample_draw o (customer_ids n) (Z.to_nat (int_fifth n)))) as Hsample.
  { unfold py_sample.
    destruct (Z.ltb_spec (int_fifth n) 0); [lia |].
    destruct (Z.ltb_spec (Z.of_nat (length (customer_ids n))) (int_fifth n)); [lia |].
    reflexivity. }
  rewrite Hsample. change (mbind ?f (Ok ?a)) with (f a). cbv beta.
  set (sampled := sample_draw o (customer_ids n) (Z.to_nat (int_fifth n))).
  assert (length sampled = Z.to_nat (int_fifth n)) as Hslen
    by (apply (sample_length o Hok); lia).
  assert (length (sample_draw o ids (Nat.min 15 (length ids))) = Nat.min 15 (length ids))
    as Halen by (apply (sample_length o Hok); lia).
  destruct (cases_data_selected o Hok sampled anomaly (overdue_customers o anomaly))
    as (cases & Hcs & Hempty).
  rewrite Hcs. change (mbind ?f (Ok ?a)) with (f a). cbv beta.
  split.
  - intros [Hzero Hres].
    assert (cases = []) as ->; [| reflexivity].
    apply Hempty.
    assert (anomaly = ∅) as Hanom.
    { assert (sample_draw o ids (Nat.min 15 (length ids)) = []) as Hd.
      { apply length_zero_iff_nil. rewrite Halen.
        replace (length ids) with 0%nat by (symmetry; apply length_zero_iff_nil, Hres).
        reflexivity. }
      unfold anomaly. rewrite Hd. reflexivity. }
    split; [apply length_zero_iff_nil; lia |]. split; [exact Hanom |].
    apply set_eq. intros cid. split; [| intros Hx; inversion Hx].
    intros Hx. apply (overdue_subset o Hok) in Hx. now rewrite Hanom in Hx.
  - intros Hsel.
    assert (cases <> []) as Hcne'.
    { intros Hnil. apply Hempty in Hnil as (Hs0 & Ha0 & _).
      destruct Hsel as [Hpos | Hres].
      - rewrite Hs0 in Hslen. simpl in Hslen. lia.
      - unfold anomaly in Ha0.
        destruct (sample_draw o ids (Nat.min 15 (length ids))) as [| cid rest] eqn:Hd.
        + change (length (@nil string)) with 0%nat in Halen.
          assert (length ids = 0%nat) as Hz by lia.
          apply length_zero_iff_nil in Hz. contradiction.
        + assert (cid ∈ (∅ : gset string)) as Hin
            by (rewrite <- Ha0; apply elem_of_list_to_set; left).
          inversion Hin. }
    rewrite (frame_col_nonempty _ _ Hcne').
    change (mbind ?f (Ok ?a)) with (f a). cbv beta. eauto.
Qed.

(** X16.  The outcome of the generation on a valid input (at least one
    customer, valid dates, start_date not after end_date, int(n * 0.2)
    between 0 and n): when int(n * 0.2) is zero and no customer is
    residential, nobody is selected for support cases and the run stops with
    KeyError 'CASE_DATE' at the column access on the empty support-case
    frame; in every other case all five tables are built without error and
    handed to the writes. *)
Theorem X16_outcome_on_valid_input (Hok : oracle_ok o) inp :
  0 < num_customers inp ->
  valid_date (dt_date (start_date inp)) -> valid_date (dt_date (end_date inp)) ->
  dt_leb (start_date inp) (end_date inp) = true ->
  0 <= int_fifth (num_customers inp) <= num_customers inp ->
  (int_fifth (num_customers inp) = 0 /\
   all_residential_ids (customers_data o (num_customers inp)) = [] ->
     generate_energy_provider_data o inp = Raise (KeyError "CASE_DATE")) /\
  (0 < int_fifth (num_customers inp) \/
   all_residential_ids (customers_data o (num_customers inp)) <> [] ->
     exists t, generate_energy_provider_data o inp = Ok t).
Proof.
  exact (generate_outcome Hok inp).
Qed.

End WholeRun.
End Extras.

(** ** What the generator does with invalid input *)

Module Validation.
Import Generator Instance InstanceFacts CalendarFacts PyFacts GeneratorFacts.

Section Outcome.
Context {F : Float64} (o : Oracle).

(** C5 (amended).  The generator validates nothing itself; where a run
    fails, it is with the KeyError pandas raises at a column access on a
    frame built from an empty list, never with a descriptive error.  With a
    customer count of zero or less that is KeyError 'JOIN_DATE' on the empty
    customers frame; with end_date before start_date (at least one customer,
    a valid start_date) it is KeyError 'INVOICE_DATE' on the empty billing
    frame.  Fewer than fifteen residential customers is not rejected: the
    anomaly sample is drawn with size min(15, number of residential
    customers).  On an otherwise valid input (at least one customer, valid
    dates, start_date not after end_date, int(n * 0.2) between 0 and n) the
    run then builds all five tables, unless int(n * 0.2) is 0 and no
    customer is residential: then nobody is selected for support cases and
    the run stops with KeyError 'CASE_DATE' on the empty support-case
    frame. *)
Theorem C5_invalid_inputs (Hok : oracle_ok o) :
  (forall inp,
     num_customers inp <= 0 ->
     generate_energy_provider_data o inp = Raise (KeyError "JOIN_DATE")) /\
  (forall inp,
     0 < num_customers inp -> valid_date (dt_date (start_date inp)) ->
     dt_ltb (end_date inp) (start_date inp) = true ->
     generate_energy_provider_data o inp = Raise (KeyError "INVOICE_DATE")) /\
  (forall n, exists anomaly,
     anomaly_customers o (customers_data o n) = Ok anomaly /\
     size anomaly = Nat.min 15 (length (all_residential_ids (customers_data o n)))) /\
  (forall inp,
     0 < num_customers inp ->
     valid_date (dt_date (start_date inp)) -> valid_date (dt_date (end_date inp)) ->
     dt_leb (start_date inp) (end_date inp) = true ->
     0 <= int_fifth (num_customers inp) <= num_customers inp ->
     int_fifth (num_customers inp) = 0 ->
     all_residential_ids (customers_data o (num_customers inp)) = [] ->
     generate_energy_provider_data o inp = Raise (KeyError "CASE_DATE")) /\
  (forall inp,
     0 < num_customers inp ->
     valid_date (dt_date (start_date inp)) -> valid_date (dt_date (end_date inp)) ->
     dt_leb (start_date inp) (end_date inp) = true ->
     0 <= int_fifth (num_customers inp) <= num_customers inp ->
     0 < int_fifth (num_customers inp)
     \/ all_residential_ids (customers_data o (num_customers inp)) <> [] ->
     exists t, generate_energy_provider_data o inp = Ok t).
Proof.
  split; [| split; [| split; [| split]]].
  - intros inp. apply Claims.empty_customers_frame_raises.
  - intros inp. apply Claims.empty_billing_frame_raises.
  - intros n. apply Claims.anomaly_sample_is_capped, Hok.
  - intros inp Hn Hs He Hle Hfifth Hzero Hres.
    now apply (Extras.generate_outcome o Hok inp Hn Hs He Hle Hfifth).
  - intros inp Hn Hs He Hle Hfifth Hsel.
    now apply (Extras.generate_outcome o Hok inp Hn Hs He Hle Hfifth).
Qed.

End Outcome.

(** C5 at concrete inputs: no customer; three customers and a reversed
    window; two residential customers, fewer than the fifteen of the
    sample, 29 August to 2 September 2025; one commercial customer, August
    2025. *)
Lemma C5_witness :
  oracle_ok fixed_oracle /\ oracle_ok commercial_oracle /\
  (0 <= 0 /\
   generate_energy_provider_data fixed_oracle
     {| num_customers := 0; start_date := datetime_ymd 2025 8 1;
        end_date := datetime_ymd 2025 8 31 |}
   = Raise (KeyError "JOIN_DATE")) /\
  (0 < 3 /\ valid_date (mkDate 2025 8 31) /\
   dt_ltb (datetime_ymd 2025 8 1) (datetime_ymd 2025 8 31) = true /\
   generate_energy_provider_data fixed_oracle
     {| num_customers := 3; start_date := datetime_ymd 2025 8 31;
        end_date := datetime_ymd 2025 8 1 |}
   = Raise (KeyError "INVOICE_DATE")) /\
  (exists anomaly,
     anomaly_customers fixed_oracle (customers_data fixed_oracle 2) = Ok anomaly /\
     size anomaly
     = Nat.min 15 (length (all_residential_ids (customers_data fixed_oracle 2)))) /\
  (0 < 1 /\ valid_date (mkDate 2025 8 1) /\ valid_date (mkDate 2025 8 31) /\
   dt_leb (datetime_ymd 2025 8 1) (datetime_ymd 2025 8 31) = true /\
   0 <= int_fifth 1 <= 1 /\ int_fifth 1 = 0 /\
   all_residential_ids (customers_data commercial_oracle 1) = [] /\
   generate_energy_provider_data commercial_oracle
     {| num_customers := 1; start_date := datetime_ymd 2025 8 1;
        end_date := datetime_ymd 2025 8 31 |}
   = Raise (KeyError "CASE_DATE")) /\
  (0 < 2 /\ valid_date (mkDate 2025 8 29) /\ valid_date (mkDate 2025 9 2) /\
   dt_leb (datetime_ymd 2025 8 29) (datetime_ymd 2025 9 2) = true /\
   0 <= int_fifth 2 <= 2 /\
   (0 < int_fifth 2 \/ all_residential_ids (customers_data fixed_oracle 2) <> []) /\
   exists t,
     generate_energy_provider_data fixed_oracle
       {| num_customers := 2; start_date := datetime_ymd 2025 8 29;
          end_date := datetime_ymd 2025 9 2 |} = Ok t).
Proof.
  pose proof (C5_invalid_inputs fixed_oracle fixed_oracle_ok)
    as (Hnone & Hreversed & Hsample & _ & Hbuilt).
  pose proof (C5_invalid_inputs commercial_oracle commercial_oracle_ok)
    as (_ & _ & _ & Hnobody & _).
  assert (valid_date (mkDate 2025 8 1)) as V1 by (apply valid_dateb_spec; reflexivity).
  assert (valid_date (mkDate 2025 8 31)) as V31 by (apply valid_dateb_spec; reflexivity).
  assert (valid_date (mkDate 2025 8 29)) as V29 by (apply valid_dateb_spec; reflexivity).
  assert (valid_date (mkDate 2025 9 2)) as V2 by (apply valid_dateb_spec; reflexivity).
  assert (0 <= int_fifth 1 <= 1) as F1 by (split; discriminate).
  assert (0 <= int_fifth 2 <= 2) as F2 by (split; discriminate).
  assert (all_residential_ids (customers_data fixed_oracle 2) <> []) as R2 by discriminate.
  split; [exact fixed_oracle_ok |]. split; [exact commercial_oracle_ok |].
  split; [split; [discriminate |]; apply Hnone; discriminate |].
  split; [split; [reflexivity |]; split; [exact V31 |]; split; [reflexivity |];
          apply Hreversed; [reflexivity | exact V31 | reflexivity] |].
  split; [apply Hsample |].
  split; [split; [reflexivity |]; split; [exact V1 |]; split; [exact V31 |];
          split; [reflexivity |]; split; [exact F1 |]; split; [reflexivity |];
          split; [reflexivity |];
          apply Hnobody; [reflexivity | exact V1 | exact V31 | reflexivity | exact F1
                         | reflexivity | reflexivity] |].
  split; [reflexivity |]. split; [exact V29 |]. split; [exact V2 |].
  split; [reflexivity |]. split; [exact F2 |]. split; [right; exact R2 |].
  apply Hbuilt; [reflexivity | exact V29 | exact V2 | reflexivity | exact F2
                | right; exact R2].
Defined.

End Validation.

(** ** The further properties at concrete inputs *)

Module ExtraExamples.
Import Generator Instance InstanceFacts CalendarFacts PyFacts GeneratorFacts.

Lemma valid_2025_08_29 : valid_date (mkDate 2025 8 29).
Proof. apply valid_dateb_spec. reflexivity. Qed.

Lemma valid_2025_09_02 : valid_date (mkDate 2025 9 2).
Proof. apply valid_dateb_spec. reflexivity. Qed.

Lemma valid_2025_09_30 : valid_date (mkDate 2025 9 30).
Proof. apply valid_dateb_spec. reflexivity. Qed.

Lemma two_customers_NoDup : NoDup (C_CUSTOMER_ID <$> customers_data fixed_oracle 2).
Proof. rewrite customers_data_ids. apply customer_ids_NoDup. Qed.

(** Two customers, one reading, August and September 2025: the billing
    stage ends without error, with two invoices per customer. *)
Example two_months_billing :
  (billing_data (customers_data fixed_oracle 2) [one_reading] ∅
     (datetime_ymd 2025 8 1) (datetime_ymd 2025 9 30)
   ≫= fun rows : list invoice =>
        Ok ((fun inv => (I_INVOICE_ID inv, I_CUSTOMER_ID inv,
                         I_CONSUMPTION_PERIOD_START inv, I_AMOUNT_DUE inv,
                         I_PAYMENT_STATUS inv)) <$> rows))
  = Ok [("INV_0080001", "CID_001001", mkDate 2025 8 1, 90000, Paid);
        ("INV_0080002", "CID_001001", mkDate 2025 9 1, 55000, Pending);
        ("INV_0080003", "CID_001002", mkDate 2025 8 1, 55000, Paid);
        ("INV_0080004", "CID_001002", mkDate 2025 9 1, 55000, Pending)].
Proof. vm_compute. reflexivity. Qed.

(** The run of 29 August to 2 September with two customers ends without
    error. *)
Example late_summer_run_ends : columns (fun _ => tt) late_summer_run = Ok tt.
Proof. vm_compute. reflexivity. Qed.

(** The error of X16 does occur: one commercial customer, so that nobody is
    sampled and nobody is residential. *)
Example nobody_selected_raises :
  columns (fun _ => tt)
    (generate_energy_provider_data commercial_oracle
       {| num_customers := 1; start_date := datetime_ymd 2025 8 1;
          end_date := datetime_ymd 2025 8 31 |})
  = Raise (KeyError "CASE_DATE").
Proof. vm_compute. reflexivity. Qed.

(** X6 at two customers, August 2025. *)
Lemma X6_witness :
  valid_date (mkDate 2025 8 1) /\
  exists rows,
    readings_data fixed_oracle (customers_data fixed_oracle 2) [] ∅
      (datetime_ymd 2025 8 1) (datetime_ymd 2025 8 31) = Ok rows /\
    forall r, r ∈ rows ->
      (exists c, c ∈ customers_data fixed_oracle 2 /\ R_CUSTOMER_ID r = C_CUSTOMER_ID c) /\
      valid_date (dt_date (R_TIMESTAMP r)) /\
      date_leb (mkDate 2025 8 1) (dt_date (R_TIMESTAMP r)) = true /\
      date_leb (dt_date (R_TIMESTAMP r)) (mkDate 2025 8 31) = true /\
      second (dt_time (R_TIMESTAMP r)) = 0 /\
      microsecond (dt_time (R_TIMESTAMP r)) = 0.
Proof.
  split; [exact Examples.valid_2025_08_01 |].
  exact (@Extras.X6_readings_inside_window decimal4 fixed_oracle 2 [] ∅
           (datetime_ymd 2025 8 1) (datetime_ymd 2025 8 31) Examples.valid_2025_08_01).
Defined.

(** X7 at two customers, August and September 2025. *)
Lemma X7_witness :
  exists rows,
    billing_data (customers_data fixed_oracle 2) [one_reading] ∅
      (datetime_ymd 2025 8 1) (datetime_ymd 2025 9 30) = Ok rows /\
    (forall k inv, rows !! k = Some inv ->
       I_INVOICE_ID inv = "INV_" +:+ zfill 7 (str_of_N (80001 + N.of_nat k))) /\
    NoDup (I_INVOICE_ID <$> rows).
Proof.
  destruct (proj1 (bind_Ok _ _ _) two_months_billing) as (rows & Hrun & _).
  exists rows. split; [exact Hrun |].
  exact (Extras.X7_invoice_ids_sequential _ _ _ _ _ rows Hrun).
Defined.

(** X8 at two customers, August and September 2025. *)
Lemma X8_witness :
  NoDup (C_CUSTOMER_ID <$> customers_data fixed_oracle 2) /\
  exists rows,
    billing_data (customers_data fixed_oracle 2) [one_reading] ∅
      (datetime_ymd 2025 8 1) (datetime_ymd 2025 9 30) = Ok rows /\
    forall cust (k : nat),
      cust ∈ customers_data fixed_oracle 2 ->
      Z.of_nat k < num_months (datetime_ymd 2025 8 1) (datetime_ymd 2025 9 30) ->
      length (filter (fun inv =>
                        I_CUSTOMER_ID inv = C_CUSTOMER_ID cust /\
                        I_CONSUMPTION_PERIOD_START inv
                        = first_of_month (add_months (mkDate 2025 8 1) (Z.of_nat k)))
                rows)
      = if dt_ltb (datetime_ymd 2025 9 30)
             (dt_add_months (datetime_ymd 2025 8 1) (Z.of_nat k))
        then 0%nat else 1%nat.
Proof.
  split; [exact two_customers_NoDup |].
  destruct (proj1 (bind_Ok _ _ _) two_months_billing) as (rows & Hrun & _).
  exists rows. split; [exact Hrun |].
  exact (Extras.X8_invoices_per_customer_and_month _ _ _ _ _ rows
           two_customers_NoDup Hrun).
Defined.

(** X9 at two customers, August and September 2025. *)
Lemma X9_witness :
  NoDup (C_CUSTOMER_ID <$> customers_data fixed_oracle 2) /\
  valid_date (mkDate 2025 8 1) /\ valid_date (mkDate 2025 9 30) /\
  day (mkDate 2025 8 1) = 1 /\ time_leb midnight midnight = true /\
  exists rows,
    billing_data (customers_data fixed_oracle 2) [one_reading] ∅
      (datetime_ymd 2025 8 1) (datetime_ymd 2025 9 30) = Ok rows /\
    (forall cust (k : nat),
       cust ∈ customers_data fixed_oracle 2 ->
       Z.of_nat k < num_months (datetime_ymd 2025 8 1) (datetime_ymd 2025 9 30) ->
       length (filter (fun inv =>
                         I_CUSTOMER_ID inv = C_CUSTOMER_ID cust /\
                         I_CONSUMPTION_PERIOD_START inv
                         = first_of_month (add_months (mkDate 2025 8 1) (Z.of_nat k)))
                 rows) = 1%nat) /\
    (forall cust, cust ∈ customers_data fixed_oracle 2 ->
       0 < num_months (datetime_ymd 2025 8 1) (datetime_ymd 2025 9 30) ->
       length (filter (fun inv =>
                         I_CUSTOMER_ID inv = C_CUSTOMER_ID cust /\
                         I_CONSUMPTION_PERIOD_START inv = first_of_month (mkDate 2025 9 30))
                 rows) = 1%nat) /\
    (forall inv, inv ∈ rows ->
       I_CONSUMPTION_PERIOD_START inv = first_of_month (mkDate 2025 9 30) ->
       I_PAYMENT_STATUS inv = Pending).
Proof.
  split; [exact two_customers_NoDup |].
  split; [exact Examples.valid_2025_08_01 |]. split; [exact valid_2025_09_30 |].
  split; [reflexivity |]. split; [reflexivity |].
  destruct (proj1 (bind_Ok _ _ _) two_months_billing) as (rows & Hrun & _).
  exists rows. split; [exact Hrun |].
  exact (Extras.X9_aligned_start_bills_every_month _ _ _
           (datetime_ymd 2025 8 1) (datetime_ymd 2025 9 30) rows
           two_customers_NoDup Examples.valid_2025_08_01 valid_2025_09_30
           eq_refl eq_refl Hrun).
Defined.

(** X10 at two customers, August and September 2025. *)
Lemma X10_witness :
  exists rows,
    billing_data (customers_data fixed_oracle 2) [one_reading] ∅
      (datetime_ymd 2025 8 1) (datetime_ymd 2025 9 30) = Ok rows /\
    forall inv, inv ∈ rows ->
      (exists cust, cust ∈ customers_data fixed_oracle 2
                    /\ I_CUSTOMER_ID inv = C_CUSTOMER_ID cust) /\
      I_INVOICE_DATE inv = add_days (I_CONSUMPTION_PERIOD_END inv) 5 /\
      I_DUE_DATE inv = add_days (I_INVOICE_DATE inv) 14 /\
      (I_PAYMENT_STATUS inv = Pending <->
         month (I_CONSUMPTION_PERIOD_START inv) = 9 /\
         year (I_CONSUMPTION_PERIOD_START inv) = 2025) /\
      (I_PAYMENT_STATUS inv = Overdue <->
         ~ (month (I_CONSUMPTION_PERIOD_START inv) = 9 /\
            year (I_CONSUMPTION_PERIOD_START inv) = 2025) /\
         I_CUSTOMER_ID inv ∈ (∅ : gset string) /\
         month (I_CONSUMPTION_PERIOD_START inv) = 8).
Proof.
  destruct (proj1 (bind_Ok _ _ _) two_months_billing) as (rows & Hrun & _).
  exists rows. split; [exact Hrun |].
  exact (Extras.X10_invoice_dates_and_status _ _ _ _ _ rows Hrun).
Defined.

(** X11 at two customers, August and September 2025. *)
Lemma X11_witness :
  exists rows,
    billing_data (customers_data fixed_oracle 2) [one_reading] ∅
      (datetime_ymd 2025 8 1) (datetime_ymd 2025 9 30) = Ok rows /\
    forall inv, inv ∈ rows ->
      exists period_start period_end,
        dt_date period_start = I_CONSUMPTION_PERIOD_START inv /\
        dt_date period_end = I_CONSUMPTION_PERIOD_END inv /\
        I_AMOUNT_DUE inv
        = np_round2 (fadd (fmul (fsum (R_KWH_CONSUMPTION <$>
                                   billed_readings [one_reading] (I_CUSTOMER_ID inv)
                                     period_start period_end))
                                TARIFF_RATE_KWH) BASE_MONTHLY_FEE) /\
        (forall r, r ∈ billed_readings [one_reading] (I_CUSTOMER_ID inv)
                         period_start period_end ->
           r ∈ [one_reading] /\ R_CUSTOMER_ID r = I_CUSTOMER_ID inv /\
           date_leb (I_CONSUMPTION_PERIOD_START inv) (dt_date (R_TIMESTAMP r)) = true /\
           date_leb (dt_date (R_TIMESTAMP r)) (I_CONSUMPTION_PERIOD_END inv) = true) /\
        (forall r, r ∈ [one_reading] -> R_CUSTOMER_ID r = I_CUSTOMER_ID inv ->
           date_ltb (I_CONSUMPTION_PERIOD_START inv) (dt_date (R_TIMESTAMP r)) = true ->
           date_ltb (dt_date (R_TIMESTAMP r)) (I_CONSUMPTION_PERIOD_END inv) = true ->
           r ∈ billed_readings [one_reading] (I_CUSTOMER_ID inv) period_start period_end).
Proof.
  destruct (proj1 (bind_Ok _ _ _) two_months_billing) as (rows & Hrun & _).
  exists rows. split; [exact Hrun |].
  exact (Extras.X11_amount_due_of_invoice _ _ _ _ _ rows Hrun).
Defined.

(** X13 at one sampled, one anomaly and one overdue customer. *)
Lemma X13_witness :
  oracle_ok fixed_oracle /\
  exists rows,
    cases_data fixed_oracle ["CID_001003"] {["CID_001001"]} {["CID_001002"]} = Ok rows /\
    (forall cid,
       cid ∈ ["CID_001003"] \/ cid ∈ ({["CID_001001"]} : gset string)
       \/ cid ∈ ({["CID_001002"]} : gset string) ->
       (1 <= length (filter (fun x => S_CUSTOMER_ID x = cid) rows) <= 2)%nat) /\
    (forall cid,
       ~ (cid ∈ ["CID_001003"] \/ cid ∈ ({["CID_001001"]} : gset string)
          \/ cid ∈ ({["CID_001002"]} : gset string)) ->
       filter (fun x => S_CUSTOMER_ID x = cid) rows = []) /\
    (rows = [] <->
       ["CID_001003"] = [] /\ ({["CID_001001"]} : gset string) = ∅
       /\ ({["CID_001002"]} : gset string) = ∅).
Proof.
  split; [exact fixed_oracle_ok |].
  exact (Extras.X13_cases_per_selected_customer fixed_oracle fixed_oracle_ok
           ["CID_001003"] {["CID_001001"]} {["CID_001002"]}).
Defined.

(** X15 at two customers, 29 August to 2 September 2025. *)
Lemma X15_witness :
  oracle_ok fixed_oracle /\
  exists t,
    generate_energy_provider_data fixed_oracle
      {| num_customers := 2; start_date := datetime_ymd 2025 8 29;
         end_date := datetime_ymd 2025 9 2 |} = Ok t /\
    DIM_CUSTOMERS t = customers_data fixed_oracle 2 /\
    (DIM_CUSTOMERS t <> [] /\ FACT_CONTRACTS t <> [] /\ FACT_SMART_METER_READINGS t <> []
     /\ FACT_BILLINGS t <> [] /\ FACT_SUPPORT_CASES t <> []) /\
    (forall row, row ∈ FACT_CONTRACTS t ->
       exists c, c ∈ DIM_CUSTOMERS t /\ K_CUSTOMER_ID row = C_CUSTOMER_ID c) /\
    (forall r, r ∈ FACT_SMART_METER_READINGS t ->
       exists c, c ∈ DIM_CUSTOMERS t /\ R_CUSTOMER_ID r = C_CUSTOMER_ID c) /\
    (forall inv, inv ∈ FACT_BILLINGS t ->
       exists c, c ∈ DIM_CUSTOMERS t /\ I_CUSTOMER_ID inv = C_CUSTOMER_ID c) /\
    (forall x, x ∈ FACT_SUPPORT_CASES t ->
       exists c, c ∈ DIM_CUSTOMERS t /\ S_CUSTOMER_ID x = C_CUSTOMER_ID c).
Proof.
  split; [exact fixed_oracle_ok |].
  destruct (proj1 (bind_Ok _ _ _) late_summer_run_ends) as (t & Hrun & _).
  exists t. split; [exact Hrun |].
  exact (Extras.X15_successful_run_is_consistent fixed_oracle fixed_oracle_ok
           {| num_customers := 2; start_date := datetime_ymd 2025 8 29;
              end_date := datetime_ymd 2025 9 2 |} t Hrun).
Defined.

(** X16 at two customers, 29 August to 2 September 2025. *)
Lemma X16_witness :
  oracle_ok fixed_oracle /\ 0 < 2 /\
  valid_date (mkDate 2025 8 29) /\ valid_date (mkDate 2025 9 2) /\
  dt_leb (datetime_ymd 2025 8 29) (datetime_ymd 2025 9 2) = true /\
  0 <= int_fifth 2 <= 2 /\
  (int_fifth 2 = 0 /\ all_residential_ids (customers_data fixed_oracle 2) = [] ->
     generate_energy_provider_data fixed_oracle
       {| num_customers := 2; start_date := datetime_ymd 2025 8 29;
          end_date := datetime_ymd 2025 9 2 |}
     = Raise (KeyError "CASE_DATE")) /\
  (0 < int_fifth 2 \/ all_residential_ids (customers_data fixed_oracle 2) <> [] ->
     exists t,
       generate_energy_provider_data fixed_oracle
         {| num_customers := 2; start_date := datetime_ymd 2025 8 29;
            end_date := datetime_ymd 2025 9 2 |} = Ok t).
Proof.
  split; [exact fixed_oracle_ok |]. split; [reflexivity |].
  split; [exact valid_2025_08_29 |]. split; [exact valid_2025_09_02 |].
  split; [reflexivity |].
  assert (0 <= int_fifth 2 <= 2) as Hfifth by (split; discriminate).
  split; [exact Hfifth |].
  exact (Extras.X16_outcome_on_valid_input fixed_oracle fixed_oracle_ok
           {| num_customers := 2; start_date := datetime_ymd 2025 8 29;
              end_date := datetime_ymd 2025 9 2 |}
           eq_refl valid_2025_08_29 valid_2025_09_02 eq_refl Hfifth).
Defined.

(** X17 at two customers, the first one an anomaly customer, August 2025. *)
Lemma X17_witness :
  time_leb midnight midnight = true /\
  exists rows,
    readings_data fixed_oracle (customers_data fixed_oracle 2) [] {["CID_001001"]}
      (datetime_ymd 2025 8 1) (datetime_ymd 2025 8 31) = Ok rows /\
    forall r, r ∈ rows ->
      exists i j cust,
        customers_data fixed_oracle 2 !! i = Some cust
        /\ R_CUSTOMER_ID r = C_CUSTOMER_ID cust /\
        let d := dt_date (R_TIMESTAMP r) in
        let base := normal_draw fixed_oracle (C_CUSTOMER_TYPE cust) i j in
        let in_window :=
          date_leb (mkDate 2025 8 13) d
          && (date_ltb d (mkDate 2025 8 17)
              || (date_leb d (mkDate 2025 8 17) && time_leb midnight midnight)) in
        R_KWH_CONSUMPTION r
        = py_round2 (py_max0 (if bool_decide (R_CUSTOMER_ID r ∈ ({["CID_001001"]} : gset string))
                                 && in_window
                              then fmul base (spike_factor_draw fixed_oracle i j)
                              else base)).
Proof.
  split; [reflexivity |].
  exact (@Extras.X17_consumption_and_spike decimal4 fixed_oracle 2 [] {["CID_001001"]}
           (datetime_ymd 2025 8 1) (datetime_ymd 2025 8 31) eq_refl).
Defined.

End ExtraExamples.
